(** * GameGraphicsEngine: the Game orchestrator and its collaborators

  A shallow embedding of [GameGraphicsEngine/Game.cpp].

  - [F32] and [F64] give the arithmetic of C++ [float] and [double]
    (IEEE 754 binary32 and binary64, round to nearest even) on the
    Standard Library's [spec_float].
  - [Emitter], [Camera] and [Entity] are the classes [Game.cpp] drives.
    Their sources ([Emitter.cpp], [Camera.cpp], [Entity.cpp]) are missing,
    so they are modelled from the written specification, the first two
    over the rationals.
  - [Game] embeds the methods of [Game.cpp] in a small state-and-trace
    monad: every call on a collaborator (device context, swap chain,
    shader loader, camera, emitter, operating system) is recorded as an
    [Event], in program order. *)

From Stdlib Require Import ZArith QArith Qround Lia Lqa Bool String.
From Stdlib Require Import Floats.SpecFloat.
From stdpp Require Import base list.

Set Default Proof Using "Type".

(* ================================================================== *)
(** ** Floating point: C++ [float] and [double] *)

(** Values common to both formats: exact conversion to the rationals.
    Infinities and NaN have no rational value; as in Flocq's [B2R] they are
    sent to 0. *)
Definition SF2Q (x : spec_float) : Q :=
  match x with
  | S754_finite s m e =>
      let v := match e with
               | Z0 => inject_Z (Zpos m)
               | Zpos p => inject_Z (Zpos m * 2 ^ Zpos p)
               | Zneg p => Qmake (Zpos m) (2 ^ p)
               end in
      if s then Qopp v else v
  | _ => 0%Q
  end.

Definition SFis_finite (x : spec_float) : bool :=
  match x with
  | S754_finite _ _ _ | S754_zero _ => true
  | _ => false
  end.

(** Re-rounding of a value into the format [(prec, emax)]; exact whenever
    the target format is the wider one. *)
Definition SFconvert (prec emax : Z) (x : spec_float) : spec_float :=
  match x with
  | S754_finite s m e => binary_normalize prec emax (cond_Zopp s (Zpos m)) e s
  | _ => x
  end.

Module F32.
Definition prec : Z := 24.
Definition emax : Z := 128.
Definition float := spec_float.

Definition of_Z (z : Z) : float := binary_normalize prec emax z 0 false.
Definition add : float -> float -> float := SFadd prec emax.
Definition sub : float -> float -> float := SFsub prec emax.
Definition mul : float -> float -> float := SFmul prec emax.
Definition div : float -> float -> float := SFdiv prec emax.
Definition ltb : float -> float -> bool := SFltb.
Definition eqb : float -> float -> bool := SFeqb.
Definition valid : float -> bool := valid_binary prec emax.

(** The literal [n/d] written with an [f] suffix ([0.1f] is [lit 1 10]):
    the float nearest to the decimal. *)
Definition lit (n : Z) (d : positive) : float := div (of_Z n) (of_Z (Zpos d)).

Definition to_Q : float -> Q := SF2Q.
End F32.

Module F64.
Definition prec : Z := 53.
Definition emax : Z := 1024.
Definition double := spec_float.

Definition of_Z (z : Z) : double := binary_normalize prec emax z 0 false.
Definition add : double -> double -> double := SFadd prec emax.
Definition div : double -> double -> double := SFdiv prec emax.

(** An unsuffixed literal such as [0.0001] is a [double]. *)
Definition lit (n : Z) (d : positive) : double := div (of_Z n) (of_Z (Zpos d)).

(** [float] to [double]: the usual arithmetic conversion, exact. *)
Definition of_float (x : F32.float) : double := SFconvert prec emax x.
(** [double] to [float]: the narrowing done when a [double] initialises a
    [float], rounding to nearest. *)
Definition to_float (x : double) : F32.float := SFconvert F32.prec F32.emax x.
End F64.

Abbreviation float := F32.float.

(** [XMFLOAT3] and [XMFLOAT4] of DirectXMath. *)
Record XMFLOAT3 := mkFloat3 { f3x : float; f3y : float; f3z : float }.
Record XMFLOAT4 := mkFloat4 { f4x : float; f4y : float; f4z : float; f4w : float }.

(* ================================================================== *)
(** ** Rational helpers shared by the collaborators' models *)

Definition Qclamp (x lo hi : Q) : Q :=
  if Qle_bool x lo then lo else if Qle_bool hi x then hi else x.

Definition Qlerp (a b t : Q) : Q := (a + t * (b - a))%Q.


(* ================================================================== *)
(** ** Emitter: the particle system *)

Module Emitter.

(** Modelled from the spec: the colours of the Emitter (Emitter.h is
    missing).  RGBA; the fourth component is the opacity. *)
Definition Color : Type := Q * Q * Q * Q.
Definition Vec3 : Type := Q * Q * Q.

Definition lerpColor (a b : Color) (t : Q) : Color :=
  let '(ar, ag, ab, aa) := a in
  let '(br, bg, bb, ba) := b in
  (Qlerp ar br t, Qlerp ag bg t, Qlerp ab bb t, Qlerp aa ba t).

Definition opacity (c : Color) : Q := snd c.

(** Modelled from the spec: one entry of the Emitter's pool (Emitter.h is
    missing), with its age and its interpolated attributes.  [Serial] is
    the number of particles spawned before this one; it is bookkeeping of
    the model, used to say which particle is the oldest, and no operation
    reads it. *)
Record Particle := mkParticle {
  Age : Q;
  Size : Q;
  Tint : Color;
  Serial : nat
}.

(** Modelled from the spec: the Emitter class (Emitter.h/Emitter.cpp are
    missing).  Section 3: a fixed-capacity pool of particles; spawn rate and
    lifetime are configuration constants set at construction.  Section 4.3:
    constructed with maxParticles, particlesPerSecond, particleLifetime,
    startSize, endSize, startColor, endColor, startVelocity, the start
    position and startAcceleration.  The spec gives no rule for how
    position and velocity evolve, so particles carry no kinematic state
    here; the three vectors are kept as configuration only.  [nextSlot] is
    the round-robin cursor, [spawnCounter] the fractional spawn counter,
    [spawned] the number of particles spawned so far. *)
Record t := mkEmitter {
  maxParticles : nat;
  particlesPerSecond : Q;
  lifetime : Q;
  startSize : Q;
  endSize : Q;
  startColor : Color;
  endColor : Color;
  startVelocity : Vec3;
  startPosition : Vec3;
  startAcceleration : Vec3;
  particles : list (option Particle);
  nextSlot : nat;
  spawnCounter : Q;
  spawned : nat
}.

(** Modelled from the spec: the Emitter constructor.  The pool has
    [maxParticles] slots, all unused. *)
Definition new (maxP : nat) (pps life sSize eSize : Q) (sColor eColor : Color)
    (vel pos acc : Vec3) : t :=
  mkEmitter maxP pps life sSize eSize sColor eColor vel pos acc
            (replicate maxP None) 0 0 0.

Definition with_pool (e : t) (pool : list (option Particle)) (next spawnedNow : nat) : t :=
  mkEmitter (maxParticles e) (particlesPerSecond e) (lifetime e)
            (startSize e) (endSize e) (startColor e) (endColor e)
            (startVelocity e) (startPosition e) (startAcceleration e)
            pool next (spawnCounter e) spawnedNow.

Definition with_counter (e : t) (c : Q) : t :=
  mkEmitter (maxParticles e) (particlesPerSecond e) (lifetime e)
            (startSize e) (endSize e) (startColor e) (endColor e)
            (startVelocity e) (startPosition e) (startAcceleration e)
            (particles e) (nextSlot e) c (spawned e).

(** Modelled from the spec: the interpolation parameter.  Section 8:
    t = clamp(a/lifetime, 0, 1). *)
Definition interp (age life : Q) : Q := Qclamp (age / life) 0 1.

(** Modelled from the spec: section 4.3, size, color and opacity are
    linearly interpolated between start and end values with the
    interpolation parameter. *)
Definition particleAt (e : t) (age : Q) (serial : nat) : Particle :=
  let k := interp age (lifetime e) in
  mkParticle age (Qlerp (startSize e) (endSize e) k)
             (lerpColor (startColor e) (endColor e) k) serial.

(** Modelled from the spec: section 4.3, particles with age >= lifetime are
    treated as dead.  An unused slot holds no particle. *)
Definition isLive (life : Q) (slot : option Particle) : bool :=
  match slot with
  | Some p => negb (Qle_bool life (Age p))
  | None => false
  end.

(** Modelled from the spec: the number of live particles. *)
Definition liveCount (e : t) : nat :=
  length (List.filter (isLive (lifetime e)) (particles e)).

Definition isUsed (slot : option Particle) : bool :=
  match slot with Some _ => true | None => false end.

(** The number of slots that hold a particle, live or dead. *)
Definition occupied (e : t) : nat :=
  length (List.filter isUsed (particles e)).

(** Modelled from the spec: section 4.3, one new particle is spawned at a
    pool slot chosen by round-robin recycling; the slot's previous content
    is overwritten. *)
Definition SpawnParticle (e : t) : t :=
  with_pool e
    (<[nextSlot e := Some (particleAt e 0 (spawned e))]> (particles e))
    (S (nextSlot e) mod maxParticles e)
    (S (spawned e)).

(** Modelled from the spec: section 4.3, whenever the counter crosses 1.0
    one particle is spawned and the counter is decremented by 1.0.  Section
    8 has the counter back at 0 after 100 * 1.0, so reaching 1.0 counts as
    crossing.  [fuel] bounds the number of iterations of the loop. *)
Fixpoint EmitLoop (fuel : nat) (e : t) : t :=
  match fuel with
  | O => e
  | S fuel' =>
      if Qle_bool 1 (spawnCounter e)
      then EmitLoop fuel' (with_counter (SpawnParticle e) (spawnCounter e - 1))
      else e
  end.

(** Modelled from the spec: section 4.3, update accumulates the counter
    from particlesPerSecond * deltaTime, then spawns.  The fuel is the
    integer part of the counter, which is as many iterations as the loop
    can make (see [EmitLoop_done]). *)
Definition Emit (dt : Q) (e : t) : t :=
  let e1 := with_counter e (spawnCounter e + particlesPerSecond e * dt) in
  EmitLoop (Z.to_nat (Qfloor (spawnCounter e1))) e1.

(** Modelled from the spec: section 4.3, each live particle's age advances
    by deltaTime, and its attributes follow its age. *)
Definition ageSlot (e : t) (dt : Q) (slot : option Particle) : option Particle :=
  match slot with
  | Some p =>
      if isLive (lifetime e) slot
      then Some (particleAt e (Age p + dt) (Serial p))
      else slot
  | None => None
  end.

(** Modelled from the spec: the ageing half of update, over the whole
    pool. *)
Definition AgeParticles (dt : Q) (e : t) : t :=
  with_pool e (map (ageSlot e dt) (particles e)) (nextSlot e) (spawned e).

(** Modelled from the spec: [Emitter::Update] in either order of its two
    halves.  The spec lists spawning and ageing without fixing their order
    inside one call, so both orders are modelled. *)
Inductive Order := SpawnThenAge | AgeThenSpawn.

Definition UpdateIn (o : Order) (dt : Q) (e : t) : t :=
  match o with
  | SpawnThenAge => AgeParticles dt (Emit dt e)
  | AgeThenSpawn => Emit dt (AgeParticles dt e)
  end.

(** Modelled from the spec: [Emitter::Update(deltaTime)], in the order the
    spec describes it. *)
Definition Update (dt : Q) (e : t) : t := UpdateIn SpawnThenAge dt e.

(** Construction followed by a sequence of update calls. *)
Definition run (o : Order) (dts : list Q) (e : t) : t :=
  fold_left (fun acc dt => UpdateIn o dt acc) dts e.

End Emitter.

(* ================================================================== *)
(** ** Matrices, meshes, materials *)

(** DirectXMath matrices are not computed here: a matrix is denoted by the
    data that determines it.  [MatWorld] is the transposed
    scale-rotation-translation product of an entity, [MatView] the view
    matrix of a camera position and orientation, [MatPerspective] the
    projection of a given aspect ratio (field of view and near/far planes
    are fixed). *)
Inductive XMFLOAT4X4 :=
| MatIdentity
| MatWorld (position rotation scale : XMFLOAT3)
| MatView (position : Q * Q * Q) (yaw pitch : Q)
| MatPerspective (aspect : Q).

(** A COM pointer or other device handle; [0] is the null pointer. *)
Definition Handle : Type := N.

Record Mesh := mkMesh {
  GetVertexBuffer : Handle;
  GetIndexBuffer : Handle;
  GetIndexCount : Z
}.

(** The four shader objects of [Game]. *)
Inductive ShaderRef := VertexShader | PixelShader | ParticleVS | ParticlePS.

Record Material := mkMaterial {
  matPixelShader : ShaderRef;
  matVertexShader : ShaderRef;
  matSRV : Handle;
  matSampler : Handle
}.

(* ================================================================== *)
(** ** Camera *)

Module Camera.

(** Modelled from the spec: the Camera class (Camera.h/Camera.cpp are
    missing).  Section 3: view matrix, projection matrix (derived from the
    aspect ratio), orientation state (yaw/pitch accumulators), in degrees. *)
Record t := mkCamera {
  position : Q * Q * Q;
  yaw : Q;
  pitch : Q;
  GetViewMat : XMFLOAT4X4;
  GetProjectionMat : XMFLOAT4X4
}.

Definition pitchLimit : Q := 89.

(** Modelled from the spec: section 4.2, rotateCamera adjusts the yaw and
    pitch accumulators by a fixed sensitivity factor, clamping pitch at the
    vertical poles.  The factor itself is not given: [sens]. *)
Definition RotateCamera (sens : Q) (deltaX deltaY : Q) (c : t) : t :=
  mkCamera (position c)
           (yaw c + deltaX * sens)%Q
           (Qclamp (pitch c + deltaY * sens)%Q (- pitchLimit)%Q pitchLimit)
           (GetViewMat c) (GetProjectionMat c).

(** Modelled from the spec: section 4.2, update integrates movement from
    the currently held keys and recomputes the view matrix from position
    and orientation.  [move] is the velocity the held keys ask for. *)
Definition Update (deltaTime : Q) (move : Q * Q * Q) (c : t) : t :=
  let '(px, py, pz) := position c in
  let '(mx, my, mz) := move in
  let pos := (px + mx * deltaTime, py + my * deltaTime, pz + mz * deltaTime)%Q in
  mkCamera pos (yaw c) (pitch c) (MatView pos (yaw c) (pitch c)) (GetProjectionMat c).

(** Modelled from the spec: section 4.2, setProjectionMat recomputes the
    projection matrix for the output surface's width and height. *)
Definition SetProjectionMat (width height : N) (c : t) : t :=
  mkCamera (position c) (yaw c) (pitch c) (GetViewMat c)
           (MatPerspective (inject_Z (Z.of_N width) / inject_Z (Z.of_N height))%Q).

(** The camera after each call of a sequence of [RotateCamera] calls. *)
Fixpoint rotations (sens : Q) (calls : list (Q * Q)) (c : t) : list t :=
  match calls with
  | [] => []
  | (dx, dy) :: rest =>
      let c' := RotateCamera sens dx dy c in c' :: rotations sens rest c'
  end.

End Camera.

(* ================================================================== *)
(** ** Entity *)

Module Entity.

(** Modelled from the spec: the Entity class (Entity.h/Entity.cpp are
    missing).  Section 3: position, rotation (Euler angles), scale, a
    derived world matrix, one Mesh and one Material. *)
Record t := mkEntity {
  GetMesh : Mesh;
  GetMaterial : Material;
  GetPosition : XMFLOAT3;
  GetRotation : XMFLOAT3;
  GetScale : XMFLOAT3;
  GetWorldMatrix : XMFLOAT4X4
}.

(** Modelled from the spec: the Entity constructor pairs a mesh with a
    material.  The transform a fresh entity starts with is not given:
    [initial] is its position, rotation, scale and world matrix. *)
Definition new (mesh : Mesh) (mat : Material)
    (initial : XMFLOAT3 * XMFLOAT3 * XMFLOAT3 * XMFLOAT4X4) : t :=
  let '(p, r, s, w) := initial in mkEntity mesh mat p r s w.

(** Modelled from the spec: section 4.1, the setters mutate the local
    transform fields only, with no immediate recompute. *)
Definition SetPosition (p : XMFLOAT3) (e : t) : t :=
  mkEntity (GetMesh e) (GetMaterial e) p (GetRotation e) (GetScale e) (GetWorldMatrix e).
Definition SetRotation (r : XMFLOAT3) (e : t) : t :=
  mkEntity (GetMesh e) (GetMaterial e) (GetPosition e) r (GetScale e) (GetWorldMatrix e).
Definition SetScale (s : XMFLOAT3) (e : t) : t :=
  mkEntity (GetMesh e) (GetMaterial e) (GetPosition e) (GetRotation e) s (GetWorldMatrix e).

(** Modelled from the spec: section 4.1, finalizeMatrix recomputes the
    world matrix from the three fields. *)
Definition FinalizeMatrix (e : t) : t :=
  mkEntity (GetMesh e) (GetMaterial e) (GetPosition e) (GetRotation e) (GetScale e)
           (MatWorld (GetPosition e) (GetRotation e) (GetScale e)).

End Entity.


(* ================================================================== *)
(** ** Game: state, collaborator calls, the monad *)

Inductive EntityRef := EntityOne | EntityTwo | EntityThree.

(** Win32 [POINT]: two [LONG]s (32 bits, signed). *)
Record POINT := mkPoint { pt_x : Z; pt_y : Z }.

(** [SimpleVertexShader] / [SimplePixelShader]: the object exists once
    constructed; [shaderFile] is the compiled file it holds, if a load
    succeeded. *)
Record SimpleShader := mkShader { shaderFile : option string }.

Record DirectionalLight := mkLight {
  AmbietColor : XMFLOAT4;
  DiffuseColor : XMFLOAT4;
  Direction : XMFLOAT3
}.

(** The Direct3D 11 constants and descriptors [Game.cpp] uses. *)
Inductive DXGI_FORMAT := DXGI_FORMAT_R32_UINT.
Inductive D3D11_TEXTURE_ADDRESS_MODE := D3D11_TEXTURE_ADDRESS_WRAP.
Inductive D3D11_FILTER := D3D11_FILTER_ANISOTROPIC.
Inductive D3D11_DEPTH_WRITE_MASK := D3D11_DEPTH_WRITE_MASK_ZERO | D3D11_DEPTH_WRITE_MASK_ALL.
Inductive D3D11_COMPARISON_FUNC := D3D11_COMPARISON_LESS.
Inductive D3D11_BLEND_OP := D3D11_BLEND_OP_ADD.
Inductive D3D11_BLEND := D3D11_BLEND_ZERO | D3D11_BLEND_ONE.
Inductive D3D11_PRIMITIVE_TOPOLOGY := D3D11_PRIMITIVE_TOPOLOGY_TRIANGLELIST.

Definition D3D11_CLEAR_DEPTH : Z := 1.
Definition D3D11_CLEAR_STENCIL : Z := 2.
Definition D3D11_COLOR_WRITE_ENABLE_ALL : Z := 15.
(** The largest finite [float], (2^24 - 1) * 2^104. *)
Definition D3D11_FLOAT32_MAX : float := S754_finite false 16777215 104.
Definition VK_ESCAPE : Z := 27.

Record D3D11_SAMPLER_DESC := mkSamplerDesc {
  AddressU : D3D11_TEXTURE_ADDRESS_MODE;
  AddressV : D3D11_TEXTURE_ADDRESS_MODE;
  AddressW : D3D11_TEXTURE_ADDRESS_MODE;
  Filter : D3D11_FILTER;
  MaxAnisotropy : Z;
  MaxLOD : float
}.

Record D3D11_DEPTH_STENCIL_DESC := mkDepthStencilDesc {
  DepthEnable : bool;
  DepthWriteMask : D3D11_DEPTH_WRITE_MASK;
  DepthFunc : D3D11_COMPARISON_FUNC
}.

(** [D3D11_BLEND_DESC] with the fields of [RenderTarget[0]] inlined. *)
Record D3D11_BLEND_DESC := mkBlendDesc {
  AlphaToCoverageEnable : bool;
  IndependentBlendEnable : bool;
  BlendEnable : bool;
  BlendOp : D3D11_BLEND_OP;
  SrcBlend : D3D11_BLEND;
  DestBlend : D3D11_BLEND;
  BlendOpAlpha : D3D11_BLEND_OP;
  SrcBlendAlpha : D3D11_BLEND;
  DestBlendAlpha : D3D11_BLEND;
  RenderTargetWriteMask : Z
}.

(** The calls [Game.cpp] makes on its collaborators. *)
Inductive Event :=
| E_CreateWICTextureFromFile (path : string) (srv : Handle)
| E_CreateSamplerState (desc : D3D11_SAMPLER_DESC) (h : Handle)
| E_CreateDepthStencilState (desc : D3D11_DEPTH_STENCIL_DESC) (h : Handle)
| E_CreateBlendState (desc : D3D11_BLEND_DESC) (h : Handle)
| E_NewEmitter (vs ps : option SimpleShader) (texture : Handle)
| E_LoadShaderFile (s : ShaderRef) (path : string) (ok : bool)
| E_SetSamplerState (s : ShaderRef) (name : string) (h : Handle)
| E_SetShaderResourceView (s : ShaderRef) (name : string) (h : Handle)
| E_NewCamera
| E_NewMesh (path : string)
| E_SetData (s : ShaderRef) (name : string) (light : DirectionalLight)
| E_IASetPrimitiveTopology (topology : D3D11_PRIMITIVE_TOPOLOGY)
| E_DXCoreOnResize (width height : N)
| E_SetProjectionMat (width height : N)
| E_EmitterUpdate (deltaTime : float)
| E_FinalizeMatrix (e : EntityRef)
| E_CameraUpdate (deltaTime : float)
| E_GetAsyncKeyState (vKey : Z) (result : Z)
| E_Quit
| E_ClearRenderTargetView (rtv : Handle) (color : XMFLOAT4)
| E_ClearDepthStencilView (dsv : Handle) (flags : Z) (depth : float) (stencil : Z)
| E_IASetVertexBuffers (startSlot numBuffers : Z) (vb : Handle) (stride offset : Z)
| E_IASetIndexBuffer (ib : Handle) (format : DXGI_FORMAT) (offset : Z)
| E_PrepareMaterial (e : EntityRef) (world : XMFLOAT4X4) (m : Material)
                    (view proj : XMFLOAT4X4)
| E_DrawIndexed (indexCount startIndex baseVertex : Z)
| E_OMSetBlendState (state : Handle) (factor : XMFLOAT4) (sampleMask : Z)
| E_OMSetDepthStencilState (state : Handle) (stencilRef : Z)
| E_EmitterDraw (live : nat) (view proj : XMFLOAT4X4)
| E_Present (syncInterval flags : Z)
| E_RotateCamera (deltaX deltaY : float)
| E_SetCapture
| E_ReleaseCapture.

(** Modelled from the spec: what an [Emitter] holds besides its particle
    simulation ([Emitter.h] is missing).  Section 2: the emitter draws its
    particles using a dedicated shader pair; [Game::Draw] hands it none, so
    the pair and the texture are the pointers its constructor was given. *)
Record EmitterResources := mkEmitterResources {
  emitterVS : option SimpleShader;
  emitterPS : option SimpleShader;
  emitterTexture : Handle
}.

(** The members of [Game] (and of its base class [DXCore]) that
    [Game.cpp] reads or writes.  A pointer to an object made with [new] is
    the object; the two shader pointers the constructor zeroes, and their
    two siblings, are options.  The [Emitter] object is held in two parts:
    [emitter], its particle simulation, and [emitterResources], the
    pointers it was constructed with. *)
Record Game := mkGame {
  width : N;
  height : N;
  backBufferRTV : Handle;
  depthStencilView : Handle;
  vertexShader : option SimpleShader;
  pixelShader : option SimpleShader;
  particleVS : option SimpleShader;
  particlePS : option SimpleShader;
  mat1 : Material;
  mat2 : Material;
  sampler : Handle;
  rockSRV : Handle;
  woodSRV : Handle;
  particleTexture : Handle;
  particleBlendState : Handle;
  particleDepthState : Handle;
  sphereMesh : Mesh;
  helixMesh : Mesh;
  cubeMesh : Mesh;
  entityOne : Entity.t;
  entityTwo : Entity.t;
  entityThree : Entity.t;
  gameCamera : Camera.t;
  emitter : Emitter.t;
  emitterResources : EmitterResources;
  worldMatrix : XMFLOAT4X4;
  dirLight : DirectionalLight;
  dirLight2 : DirectionalLight;
  prevMousePos : POINT
}.

Definition set_width (v : N) (g : Game) : Game :=
  mkGame v (height g) (backBufferRTV g) (depthStencilView g) (vertexShader g)
        (pixelShader g) (particleVS g) (particlePS g) (mat1 g) (mat2 g)
        (sampler g) (rockSRV g) (woodSRV g) (particleTexture g)
        (particleBlendState g) (particleDepthState g) (sphereMesh g)
        (helixMesh g) (cubeMesh g) (entityOne g) (entityTwo g) (entityThree g)
        (gameCamera g) (emitter g) (emitterResources g) (worldMatrix g)
        (dirLight g) (dirLight2 g) (prevMousePos g).

Definition set_height (v : N) (g : Game) : Game :=
  mkGame (width g) v (backBufferRTV g) (depthStencilView g) (vertexShader g)
        (pixelShader g) (particleVS g) (particlePS g) (mat1 g) (mat2 g)
        (sampler g) (rockSRV g) (woodSRV g) (particleTexture g)
        (particleBlendState g) (particleDepthState g) (sphereMesh g)
        (helixMesh g) (cubeMesh g) (entityOne g) (entityTwo g) (entityThree g)
        (gameCamera g) (emitter g) (emitterResources g) (worldMatrix g)
        (dirLight g) (dirLight2 g) (prevMousePos g).

Definition set_backBufferRTV (v : Handle) (g : Game) : Game :=
  mkGame (width g) (height g) v (depthStencilView g) (vertexShader g)
        (pixelShader g) (particleVS g) (particlePS g) (mat1 g) (mat2 g)
        (sampler g) (rockSRV g) (woodSRV g) (particleTexture g)
        (particleBlendState g) (particleDepthState g) (sphereMesh g)
        (helixMesh g) (cubeMesh g) (entityOne g) (entityTwo g) (entityThree g)
        (gameCamera g) (emitter g) (emitterResources g) (worldMatrix g)
        (dirLight g) (dirLight2 g) (prevMousePos g).

Definition set_depthStencilView (v : Handle) (g : Game) : Game :=
  mkGame (width g) (height g) (backBufferRTV g) v (vertexShader g)
        (pixelShader g) (particleVS g) (particlePS g) (mat1 g) (mat2 g)
        (sampler g) (rockSRV g) (woodSRV g) (particleTexture g)
        (particleBlendState g) (particleDepthState g) (sphereMesh g)
        (helixMesh g) (cubeMesh g) (entityOne g) (entityTwo g) (entityThree g)
        (gameCamera g) (emitter g) (emitterResources g) (worldMatrix g)
        (dirLight g) (dirLight2 g) (prevMousePos g).

Definition set_vertexShader (v : option SimpleShader) (g : Game) : Game :=
  mkGame (width g) (height g) (backBufferRTV g) (depthStencilView g) v
        (pixelShader g) (particleVS g) (particlePS g) (mat1 g) (mat2 g)
        (sampler g) (rockSRV g) (woodSRV g) (particleTexture g)
        (particleBlendState g) (particleDepthState g) (sphereMesh g)
        (helixMesh g) (cubeMesh g) (entityOne g) (entityTwo g) (entityThree g)
        (gameCamera g) (emitter g) (emitterResources g) (worldMatrix g)
        (dirLight g) (dirLight2 g) (prevMousePos g).

Definition set_pixelShader (v : option SimpleShader) (g : Game) : Game :=
  mkGame (width g) (height g) (backBufferRTV g) (depthStencilView g)
        (vertexShader g) v (particleVS g) (particlePS g) (mat1 g) (mat2 g)
        (sampler g) (rockSRV g) (woodSRV g) (particleTexture g)
        (particleBlendState g) (particleDepthState g) (sphereMesh g)
        (helixMesh g) (cubeMesh g) (entityOne g) (entityTwo g) (entityThree g)
        (gameCamera g) (emitter g) (emitterResources g) (worldMatrix g)
        (dirLight g) (dirLight2 g) (prevMousePos g).

Definition set_particleVS (v : option SimpleShader) (g : Game) : Game :=
  mkGame (width g) (height g) (backBufferRTV g) (depthStencilView g)
        (vertexShader g) (pixelShader g) v (particlePS g) (mat1 g) (mat2 g)
        (sampler g) (rockSRV g) (woodSRV g) (particleTexture g)
        (particleBlendState g) (particleDepthState g) (sphereMesh g)
        (helixMesh g) (cubeMesh g) (entityOne g) (entityTwo g) (entityThree g)
        (gameCamera g) (emitter g) (emitterResources g) (worldMatrix g)
        (dirLight g) (dirLight2 g) (prevMousePos g).

Definition set_particlePS (v : option SimpleShader) (g : Game) : Game :=
  mkGame (width g) (height g) (backBufferRTV g) (depthStencilView g)
        (vertexShader g) (pixelShader g) (particleVS g) v (mat1 g) (mat2 g)
        (sampler g) (rockSRV g) (woodSRV g) (particleTexture g)
        (particleBlendState g) (particleDepthState g) (sphereMesh g)
        (helixMesh g) (cubeMesh g) (entityOne g) (entityTwo g) (entityThree g)
        (gameCamera g) (emitter g) (emitterResources g) (worldMatrix g)
        (dirLight g) (dirLight2 g) (prevMousePos g).

Definition set_mat1 (v : Material) (g : Game) : Game :=
  mkGame (width g) (height g) (backBufferRTV g) (depthStencilView g)
        (vertexShader g) (pixelShader g) (particleVS g) (particlePS g) v
        (mat2 g) (sampler g) (rockSRV g) (woodSRV g) (particleTexture g)
        (particleBlendState g) (particleDepthState g) (sphereMesh g)
        (helixMesh g) (cubeMesh g) (entityOne g) (entityTwo g) (entityThree g)
        (gameCamera g) (emitter g) (emitterResources g) (worldMatrix g)
        (dirLight g) (dirLight2 g) (prevMousePos g).

Definition set_mat2 (v : Material) (g : Game) : Game :=
  mkGame (width g) (height g) (backBufferRTV g) (depthStencilView g)
        (vertexShader g) (pixelShader g) (particleVS g) (particlePS g)
        (mat1 g) v (sampler g) (rockSRV g) (woodSRV g) (particleTexture g)
        (particleBlendState g) (particleDepthState g) (sphereMesh g)
        (helixMesh g) (cubeMesh g) (entityOne g) (entityTwo g) (entityThree g)
        (gameCamera g) (emitter g) (emitterResources g) (worldMatrix g)
        (dirLight g) (dirLight2 g) (prevMousePos g).

Definition set_sampler (v : Handle) (g : Game) : Game :=
  mkGame (width g) (height g) (backBufferRTV g) (depthStencilView g)
        (vertexShader g) (pixelShader g) (particleVS g) (particlePS g)
        (mat1 g) (mat2 g) v (rockSRV g) (woodSRV g) (particleTexture g)
        (particleBlendState g) (particleDepthState g) (sphereMesh g)
        (helixMesh g) (cubeMesh g) (entityOne g) (entityTwo g) (entityThree g)
        (gameCamera g) (emitter g) (emitterResources g) (worldMatrix g)
        (dirLight g) (dirLight2 g) (prevMousePos g).

Definition set_rockSRV (v : Handle) (g : Game) : Game :=
  mkGame (width g) (height g) (backBufferRTV g) (depthStencilView g)
        (vertexShader g) (pixelShader g) (particleVS g) (particlePS g)
        (mat1 g) (mat2 g) (sampler g) v (woodSRV g) (particleTexture g)
        (particleBlendState g) (particleDepthState g) (sphereMesh g)
        (helixMesh g) (cubeMesh g) (entityOne g) (entityTwo g) (entityThree g)
        (gameCamera g) (emitter g) (emitterResources g) (worldMatrix g)
        (dirLight g) (dirLight2 g) (prevMousePos g).

Definition set_woodSRV (v : Handle) (g : Game) : Game :=
  mkGame (width g) (height g) (backBufferRTV g) (depthStencilView g)
        (vertexShader g) (pixelShader g) (particleVS g) (particlePS g)
        (mat1 g) (mat2 g) (sampler g) (rockSRV g) v (particleTexture g)
        (particleBlendState g) (particleDepthState g) (sphereMesh g)
        (helixMesh g) (cubeMesh g) (entityOne g) (entityTwo g) (entityThree g)
        (gameCamera g) (emitter g) (emitterResources g) (worldMatrix g)
        (dirLight g) (dirLight2 g) (prevMousePos g).

Definition set_particleTexture (v : Handle) (g : Game) : Game :=
  mkGame (width g) (height g) (backBufferRTV g) (depthStencilView g)
        (vertexShader g) (pixelShader g) (particleVS g) (particlePS g)
        (mat1 g) (mat2 g) (sampler g) (rockSRV g) (woodSRV g) v
        (particleBlendState g) (particleDepthState g) (sphereMesh g)
        (helixMesh g) (cubeMesh g) (entityOne g) (entityTwo g) (entityThree g)
        (gameCamera g) (emitter g) (emitterResources g) (worldMatrix g)
        (dirLight g) (dirLight2 g) (prevMousePos g).

Definition set_particleBlendState (v : Handle) (g : Game) : Game :=
  mkGame (width g) (height g) (backBufferRTV g) (depthStencilView g)
        (vertexShader g) (pixelShader g) (particleVS g) (particlePS g)
        (mat1 g) (mat2 g) (sampler g) (rockSRV g) (woodSRV g)
        (particleTexture g) v (particleDepthState g) (sphereMesh g)
        (helixMesh g) (cubeMesh g) (entityOne g) (entityTwo g) (entityThree g)
        (gameCamera g) (emitter g) (emitterResources g) (worldMatrix g)
        (dirLight g) (dirLight2 g) (prevMousePos g).

Definition set_particleDepthState (v : Handle) (g : Game) : Game :=
  mkGame (width g) (height g) (backBufferRTV g) (depthStencilView g)
        (vertexShader g) (pixelShader g) (particleVS g) (particlePS g)
        (mat1 g) (mat2 g) (sampler g) (rockSRV g) (woodSRV g)
        (particleTexture g) (particleBlendState g) v (sphereMesh g)
        (helixMesh g) (cubeMesh g) (entityOne g) (entityTwo g) (entityThree g)
        (gameCamera g) (emitter g) (emitterResources g) (worldMatrix g)
        (dirLight g) (dirLight2 g) (prevMousePos g).

Definition set_sphereMesh (v : Mesh) (g : Game) : Game :=
  mkGame (width g) (height g) (backBufferRTV g) (depthStencilView g)
        (vertexShader g) (pixelShader g) (particleVS g) (particlePS g)
        (mat1 g) (mat2 g) (sampler g) (rockSRV g) (woodSRV g)
        (particleTexture g) (particleBlendState g) (particleDepthState g) v
        (helixMesh g) (cubeMesh g) (entityOne g) (entityTwo g) (entityThree g)
        (gameCamera g) (emitter g) (emitterResources g) (worldMatrix g)
        (dirLight g) (dirLight2 g) (prevMousePos g).

Definition set_helixMesh (v : Mesh) (g : Game) : Game :=
  mkGame (width g) (height g) (backBufferRTV g) (depthStencilView g)
        (vertexShader g) (pixelShader g) (particleVS g) (particlePS g)
        (mat1 g) (mat2 g) (sampler g) (rockSRV g) (woodSRV g)
        (particleTexture g) (particleBlendState g) (particleDepthState g)
        (sphereMesh g) v (cubeMesh g) (entityOne g) (entityTwo g)
        (entityThree g) (gameCamera g) (emitter g) (emitterResources g)
        (worldMatrix g) (dirLight g) (dirLight2 g) (prevMousePos g).

Definition set_cubeMesh (v : Mesh) (g : Game) : Game :=
  mkGame (width g) (height g) (backBufferRTV g) (depthStencilView g)
        (vertexShader g) (pixelShader g) (particleVS g) (particlePS g)
        (mat1 g) (mat2 g) (sampler g) (rockSRV g) (woodSRV g)
        (particleTexture g) (particleBlendState g) (particleDepthState g)
        (sphereMesh g) (helixMesh g) v (entityOne g) (entityTwo g)
        (entityThree g) (gameCamera g) (emitter g) (emitterResources g)
        (worldMatrix g) (dirLight g) (dirLight2 g) (prevMousePos g).

Definition set_entityOne (v : Entity.t) (g : Game) : Game :=
  mkGame (width g) (height g) (backBufferRTV g) (depthStencilView g)
        (vertexShader g) (pixelShader g) (particleVS g) (particlePS g)
        (mat1 g) (mat2 g) (sampler g) (rockSRV g) (woodSRV g)
        (particleTexture g) (particleBlendState g) (particleDepthState g)
        (sphereMesh g) (helixMesh g) (cubeMesh g) v (entityTwo g)
        (entityThree g) (gameCamera g) (emitter g) (emitterResources g)
        (worldMatrix g) (dirLight g) (dirLight2 g) (prevMousePos g).

Definition set_entityTwo (v : Entity.t) (g : Game) : Game :=
  mkGame (width g) (height g) (backBufferRTV g) (depthStencilView g)
        (vertexShader g) (pixelShader g) (particleVS g) (particlePS g)
        (mat1 g) (mat2 g) (sampler g) (rockSRV g) (woodSRV g)
        (particleTexture g) (particleBlendState g) (particleDepthState g)
        (sphereMesh g) (helixMesh g) (cubeMesh g) (entityOne g) v
        (entityThree g) (gameCamera g) (emitter g) (emitterResources g)
        (worldMatrix g) (dirLight g) (dirLight2 g) (prevMousePos g).

Definition set_entityThree (v : Entity.t) (g : Game) : Game :=
  mkGame (width g) (height g) (backBufferRTV g) (depthStencilView g)
        (vertexShader g) (pixelShader g) (particleVS g) (particlePS g)
        (mat1 g) (mat2 g) (sampler g) (rockSRV g) (woodSRV g)
        (particleTexture g) (particleBlendState g) (particleDepthState g)
        (sphereMesh g) (helixMesh g) (cubeMesh g) (entityOne g) (entityTwo g)
        v (gameCamera g) (emitter g) (emitterResources g) (worldMatrix g)
        (dirLight g) (dirLight2 g) (prevMousePos g).

Definition set_gameCamera (v : Camera.t) (g : Game) : Game :=
  mkGame (width g) (height g) (backBufferRTV g) (depthStencilView g)
        (vertexShader g) (pixelShader g) (particleVS g) (particlePS g)
        (mat1 g) (mat2 g) (sampler g) (rockSRV g) (woodSRV g)
        (particleTexture g) (particleBlendState g) (particleDepthState g)
        (sphereMesh g) (helixMesh g) (cubeMesh g) (entityOne g) (entityTwo g)
        (entityThree g) v (emitter g) (emitterResources g) (worldMatrix g)
        (dirLight g) (dirLight2 g) (prevMousePos g).

Definition set_emitter (v : Emitter.t) (g : Game) : Game :=
  mkGame (width g) (height g) (backBufferRTV g) (depthStencilView g)
        (vertexShader g) (pixelShader g) (particleVS g) (particlePS g)
        (mat1 g) (mat2 g) (sampler g) (rockSRV g) (woodSRV g)
        (particleTexture g) (particleBlendState g) (particleDepthState g)
        (sphereMesh g) (helixMesh g) (cubeMesh g) (entityOne g) (entityTwo g)
        (entityThree g) (gameCamera g) v (emitterResources g) (worldMatrix g)
        (dirLight g) (dirLight2 g) (prevMousePos g).

Definition set_emitterResources (v : EmitterResources) (g : Game) : Game :=
  mkGame (width g) (height g) (backBufferRTV g) (depthStencilView g)
        (vertexShader g) (pixelShader g) (particleVS g) (particlePS g)
        (mat1 g) (mat2 g) (sampler g) (rockSRV g) (woodSRV g)
        (particleTexture g) (particleBlendState g) (particleDepthState g)
        (sphereMesh g) (helixMesh g) (cubeMesh g) (entityOne g) (entityTwo g)
        (entityThree g) (gameCamera g) (emitter g) v (worldMatrix g)
        (dirLight g) (dirLight2 g) (prevMousePos g).

Definition set_worldMatrix (v : XMFLOAT4X4) (g : Game) : Game :=
  mkGame (width g) (height g) (backBufferRTV g) (depthStencilView g)
        (vertexShader g) (pixelShader g) (particleVS g) (particlePS g)
        (mat1 g) (mat2 g) (sampler g) (rockSRV g) (woodSRV g)
        (particleTexture g) (particleBlendState g) (particleDepthState g)
        (sphereMesh g) (helixMesh g) (cubeMesh g) (entityOne g) (entityTwo g)
        (entityThree g) (gameCamera g) (emitter g) (emitterResources g) v
        (dirLight g) (dirLight2 g) (prevMousePos g).

Definition set_dirLight (v : DirectionalLight) (g : Game) : Game :=
  mkGame (width g) (height g) (backBufferRTV g) (depthStencilView g)
        (vertexShader g) (pixelShader g) (particleVS g) (particlePS g)
        (mat1 g) (mat2 g) (sampler g) (rockSRV g) (woodSRV g)
        (particleTexture g) (particleBlendState g) (particleDepthState g)
        (sphereMesh g) (helixMesh g) (cubeMesh g) (entityOne g) (entityTwo g)
        (entityThree g) (gameCamera g) (emitter g) (emitterResources g)
        (worldMatrix g) v (dirLight2 g) (prevMousePos g).

Definition set_dirLight2 (v : DirectionalLight) (g : Game) : Game :=
  mkGame (width g) (height g) (backBufferRTV g) (depthStencilView g)
        (vertexShader g) (pixelShader g) (particleVS g) (particlePS g)
        (mat1 g) (mat2 g) (sampler g) (rockSRV g) (woodSRV g)
        (particleTexture g) (particleBlendState g) (particleDepthState g)
        (sphereMesh g) (helixMesh g) (cubeMesh g) (entityOne g) (entityTwo g)
        (entityThree g) (gameCamera g) (emitter g) (emitterResources g)
        (worldMatrix g) (dirLight g) v (prevMousePos g).

Definition set_prevMousePos (v : POINT) (g : Game) : Game :=
  mkGame (width g) (height g) (backBufferRTV g) (depthStencilView g)
        (vertexShader g) (pixelShader g) (particleVS g) (particlePS g)
        (mat1 g) (mat2 g) (sampler g) (rockSRV g) (woodSRV g)
        (particleTexture g) (particleBlendState g) (particleDepthState g)
        (sphereMesh g) (helixMesh g) (cubeMesh g) (entityOne g) (entityTwo g)
        (entityThree g) (gameCamera g) (emitter g) (emitterResources g)
        (worldMatrix g) (dirLight g) (dirLight2 g) v.

Definition shader (s : ShaderRef) (g : Game) : option SimpleShader :=
  match s with
  | VertexShader => vertexShader g
  | PixelShader => pixelShader g
  | ParticleVS => particleVS g
  | ParticlePS => particlePS g
  end.

Definition set_shader (s : ShaderRef) (v : option SimpleShader) (g : Game) : Game :=
  match s with
  | VertexShader => set_vertexShader v g
  | PixelShader => set_pixelShader v g
  | ParticleVS => set_particleVS v g
  | ParticlePS => set_particlePS v g
  end.

Definition entity (r : EntityRef) (g : Game) : Entity.t :=
  match r with
  | EntityOne => entityOne g
  | EntityTwo => entityTwo g
  | EntityThree => entityThree g
  end.

Definition set_entity (r : EntityRef) (e : Entity.t) (g : Game) : Game :=
  match r with
  | EntityOne => set_entityOne e g
  | EntityTwo => set_entityTwo e g
  | EntityThree => set_entityThree e g
  end.

(** A method of [Game]: it reads and writes the object and makes calls, in
    order. *)
Definition M (A : Type) : Type := Game -> A * Game * list Event.

Definition ret {A : Type} (a : A) : M A := fun g => (a, g, []).

Definition bind {A B : Type} (m : M A) (k : A -> M B) : M B :=
  fun g =>
    let '(a, g1, t1) := m g in
    let '(b, g2, t2) := k a g1 in
    (b, g2, t1 ++ t2).

Definition this : M Game := fun g => (g, g, []).
Definition modify (f : Game -> Game) : M unit := fun g => (tt, f g, []).
Definition call (ev : Event) : M unit := fun g => (tt, g, [ev]).

Definition result {A : Type} (r : A * Game * list Event) : A := fst (fst r).
Definition state {A : Type} (r : A * Game * list Event) : Game := snd (fst r).
Definition calls {A : Type} (r : A * Game * list Event) : list Event := snd r.

(** Sequencing is written with stdpp's monad notations: [x ← m; k] and
    [m ;; k]. *)
#[global] Instance M_ret : MRet M := @ret.
#[global] Instance M_bind : MBind M := fun A B k m => bind m k.

(** C++ [int] and [LONG] arithmetic: 32 bits, two's complement. *)
Definition int_wrap (z : Z) : Z := ((z + 2 ^ 31) mod 2 ^ 32 - 2 ^ 31)%Z.

(** What a frame reads from the operating system: the result of
    [GetAsyncKeyState(VK_ESCAPE)] (a [SHORT]) and the movement the camera
    derives from the keys it polls. *)
Record Input := mkInput {
  escapeKeyState : Z;
  cameraMove : Q * Q * Q
}.

(** What the device and the loaders hand back: the texture view of an
    image file, the states the device creates, the mesh of a model file. *)
Record Device := mkDevice {
  loadTexture : string -> Handle;
  newSamplerState : Handle;
  newDepthStencilState : Handle;
  newBlendState : Handle;
  loadMesh : string -> Mesh
}.

(* ================================================================== *)
(** ** Game.cpp: the methods *)

(** [Game::Game], lines 15-32.  The base class is constructed for a client
    area of 1280 by 720; the two shader pointers are zeroed.  The other
    members are not initialised: they keep what the object's memory,
    [raw], holds.  (The console window of debug builds is left out.) *)
Definition Game_ctor (raw : Game) : Game :=
  set_pixelShader None (set_vertexShader None (set_height 720 (set_width 1280 raw))).

(** [Game::Init], lines 122-136: the emitter's configuration.  Literals
    with an [f] suffix enter the rational model with the exact value of the
    [float]. *)
Definition Init_emitter : Emitter.t :=
  Emitter.new 1000 100 5
    (F32.to_Q (F32.lit 1 10)) (F32.to_Q (F32.lit 5 1))
    (1, F32.to_Q (F32.lit 1 10), F32.to_Q (F32.lit 1 10), F32.to_Q (F32.lit 2 10))%Q
    (1, F32.to_Q (F32.lit 6 10), F32.to_Q (F32.lit 1 10), 0)%Q
    (-2, 2, 0)%Q (2, 0, 0)%Q (0, -1, 0)%Q.

Section GameMethods.

(** [sizeof(Vertex)] ([Vertex.h] is missing). *)
Variable sizeofVertex : Z.
(** [sin] of <cmath> on a [float] argument. *)
Variable sinf : float -> float.
(** Whether [LoadShaderFile] succeeds on a path: the file system as the
    shader loader sees it. *)
Variable shaderFileLoads : string -> bool.
(** The camera's fixed sensitivity factor. *)
Variable sensitivity : Q.
(** The graphics device and the asset loaders. *)
Variable device : Device.
(** The camera as [new Camera()] leaves it. *)
Variable newCamera : Camera.t.
(** The transform of an entity as its constructor leaves it. *)
Variable entityInitial : XMFLOAT3 * XMFLOAT3 * XMFLOAT3 * XMFLOAT4X4.

(** [new SimpleVertexShader(device, context)] and the like: a shader
    object holding no compiled file yet. *)
Definition newShader (s : ShaderRef) : M unit :=
  modify (set_shader s (Some (mkShader None))).

(** [shader->LoadShaderFile(path)]: returns whether the load succeeded. *)
Definition LoadShaderFile (s : ShaderRef) (path : string) : M bool :=
  fun g =>
    let ok := shaderFileLoads path in
    (ok,
     if ok then set_shader s (Some (mkShader (Some path))) g else g,
     [E_LoadShaderFile s path ok]).

(** [Game::LoadShaders], lines 170-206. *)
Definition LoadShaders : M unit :=
  newShader VertexShader ;;
  ok ← LoadShaderFile VertexShader "Debug/VertexShader.cso";
  (if negb ok then
     _ ← LoadShaderFile VertexShader "VertexShader.cso"; mret tt
   else mret tt) ;;

  newShader PixelShader ;;
  ok ← LoadShaderFile PixelShader "Debug/PixelShader.cso";
  (if negb ok then
     _ ← LoadShaderFile PixelShader "PixelShader.cso"; mret tt
   else mret tt) ;;

  newShader ParticleVS ;;
  ok ← LoadShaderFile ParticleVS "Debug/ParticleVS.cso";
  (if negb ok then
     _ ← LoadShaderFile ParticleVS "ParticleVS.cso"; mret tt
   else mret tt) ;;

  newShader ParticlePS ;;
  ok ← LoadShaderFile ParticlePS "Debug/ParticlePS.cso";
  (if negb ok then
     _ ← LoadShaderFile ParticlePS "ParticlePS.cso"; mret tt
   else mret tt) ;;

  g ← this;
  call (E_SetSamplerState PixelShader "Sampler" (sampler g)) ;;
  call (E_SetShaderResourceView PixelShader "Rocks" (rockSRV g)) ;;
  call (E_SetShaderResourceView PixelShader "Wood" (woodSRV g)) ;;

  modify (fun g => set_mat1 (mkMaterial PixelShader VertexShader (rockSRV g) (sampler g)) g) ;;
  modify (fun g => set_mat2 (mkMaterial PixelShader VertexShader (woodSRV g) (sampler g)) g).

(** [gameCamera->SetProjectionMat(width, height)]. *)
Definition SetProjectionMat (w h : N) : M unit :=
  call (E_SetProjectionMat w h) ;;
  modify (fun g => set_gameCamera (Camera.SetProjectionMat w h (gameCamera g)) g).

(** [Game::CreateMatrices], lines 214-228.  The world matrix is the
    transpose of the identity. *)
Definition CreateMatrices : M unit :=
  modify (set_worldMatrix MatIdentity) ;;
  call E_NewCamera ;;
  modify (set_gameCamera newCamera) ;;
  g ← this;
  SetProjectionMat (width g) (height g).

(** [new Mesh(path, device)]. *)
Definition newMesh (path : string) : M Mesh :=
  fun g => (loadMesh device path, g, [E_NewMesh path]).

(** [Game::CreateBasicGeometry], lines 234-252. *)
Definition CreateBasicGeometry : M unit :=
  m ← newMesh "Debug/Assets/Models/sphere.obj"; modify (set_sphereMesh m) ;;
  m ← newMesh "Debug/Assets/Models/helix.obj"; modify (set_helixMesh m) ;;
  m ← newMesh "Debug/Assets/Models/cube.obj"; modify (set_cubeMesh m) ;;

  modify (fun g => set_entityOne (Entity.new (sphereMesh g) (mat2 g) entityInitial) g) ;;
  modify (fun g => set_entityTwo (Entity.new (cubeMesh g) (mat1 g) entityInitial) g) ;;
  modify (fun g => set_entityThree (Entity.new (helixMesh g) (mat1 g) entityInitial) g) ;;

  modify (fun g => set_entityOne
    (Entity.SetPosition (mkFloat3 (F32.lit 15 10) (F32.lit 0 1) (F32.lit 0 1))
       (entityOne g)) g) ;;
  modify (fun g => set_entityOne
    (Entity.SetScale (mkFloat3 (F32.lit 1 1) (F32.lit 1 1) (F32.lit 1 1))
       (entityOne g)) g) ;;
  modify (fun g => set_entityTwo
    (Entity.SetPosition (mkFloat3 (F32.lit (-15) 10) (F32.lit 0 1) (F32.lit 0 1))
       (entityTwo g)) g) ;;
  modify (fun g => set_entityTwo
    (Entity.SetScale (mkFloat3 (F32.lit 15 10) (F32.lit 15 10) (F32.lit 1 1))
       (entityTwo g)) g) ;;
  modify (fun g => set_entityThree
    (Entity.SetPosition (mkFloat3 (F32.lit 0 1) (F32.lit (-15) 10) (F32.lit 0 1))
       (entityThree g)) g) ;;
  modify (fun g => set_entityThree
    (Entity.SetRotation (mkFloat3 (F32.lit 0 1) (F32.lit 0 1) (F32.lit 1 1))
       (entityThree g)) g).

(** [CreateWICTextureFromFile(device, context, path, 0, &srv)]. *)
Definition CreateWICTextureFromFile (path : string) : M Handle :=
  fun g => (loadTexture device path, g,
            [E_CreateWICTextureFromFile path (loadTexture device path)]).

(** [Game::Init], lines 81-162.  The emitter is constructed before
    [LoadShaders] runs: it is handed, and keeps, the particle shaders and
    texture as they are at that point. *)
Definition Init : M unit :=
  srv ← CreateWICTextureFromFile "Debug/Assets/Textures/MossRock.tif";
  modify (set_rockSRV srv) ;;
  srv ← CreateWICTextureFromFile "Debug/Assets/Textures/TreeBark.tif";
  modify (set_woodSRV srv) ;;

  let samplerDesc :=
    mkSamplerDesc D3D11_TEXTURE_ADDRESS_WRAP D3D11_TEXTURE_ADDRESS_WRAP
                  D3D11_TEXTURE_ADDRESS_WRAP D3D11_FILTER_ANISOTROPIC 16
                  D3D11_FLOAT32_MAX in
  call (E_CreateSamplerState samplerDesc (newSamplerState device)) ;;
  modify (set_sampler (newSamplerState device)) ;;

  let dsDesc := mkDepthStencilDesc true D3D11_DEPTH_WRITE_MASK_ZERO D3D11_COMPARISON_LESS in
  call (E_CreateDepthStencilState dsDesc (newDepthStencilState device)) ;;
  modify (set_particleDepthState (newDepthStencilState device)) ;;

  let blend :=
    mkBlendDesc false false true D3D11_BLEND_OP_ADD D3D11_BLEND_ONE D3D11_BLEND_ONE
                D3D11_BLEND_OP_ADD D3D11_BLEND_ONE D3D11_BLEND_ONE
                D3D11_COLOR_WRITE_ENABLE_ALL in
  call (E_CreateBlendState blend (newBlendState device)) ;;
  modify (set_particleBlendState (newBlendState device)) ;;

  g ← this;
  call (E_NewEmitter (particleVS g) (particlePS g) (particleTexture g)) ;;
  modify (set_emitter Init_emitter) ;;
  modify (set_emitterResources
            (mkEmitterResources (particleVS g) (particlePS g) (particleTexture g))) ;;

  LoadShaders ;;
  CreateMatrices ;;
  CreateBasicGeometry ;;

  modify (set_dirLight
    (mkLight (mkFloat4 (F32.lit 1 10) (F32.lit 1 10) (F32.lit 1 10) (F32.lit 1 1))
             (mkFloat4 (F32.of_Z 1) (F32.of_Z 0) (F32.of_Z 0) (F32.of_Z 1))
             (mkFloat3 (F32.of_Z 0) (F32.of_Z (-1)) (F32.of_Z 0)))) ;;
  modify (set_dirLight2
    (mkLight (mkFloat4 (F64.to_float (F64.lit 1 10)) (F64.to_float (F64.lit 1 10))
                       (F64.to_float (F64.lit 1 10)) (F32.lit 1 1))
             (mkFloat4 (F32.of_Z 1) (F32.of_Z 1) (F32.of_Z 1) (F32.of_Z 1))
             (mkFloat3 (F32.of_Z 0) (F32.of_Z 0) (F32.of_Z 1)))) ;;

  g ← this;
  call (E_SetData PixelShader "light" (dirLight g)) ;;
  call (E_SetData PixelShader "light2" (dirLight2 g)) ;;

  call (E_IASetPrimitiveTopology D3D11_PRIMITIVE_TOPOLOGY_TRIANGLELIST).

(** Modelled from the spec: [DXCore::OnResize()] ([DXCore.cpp] is
    missing).  Section 4.4: the base surface resources are rebuilt by the
    collaborator layer, for the current [width] and [height]; [views] are
    the new back buffer and depth buffer views. *)
Definition DXCore_OnResize (views : Handle * Handle) : M unit :=
  g ← this;
  call (E_DXCoreOnResize (width g) (height g)) ;;
  modify (set_backBufferRTV (fst views)) ;;
  modify (set_depthStencilView (snd views)).

(** [Game::OnResize], lines 259-266. *)
Definition OnResize (views : Handle * Handle) : M unit :=
  DXCore_OnResize views ;;
  g ← this;
  SetProjectionMat (width g) (height g).

(** [entity->FinalizeMatrix()]. *)
Definition FinalizeMatrix (r : EntityRef) : M unit :=
  call (E_FinalizeMatrix r) ;;
  modify (fun g => set_entity r (Entity.FinalizeMatrix (entity r g)) g).

(** [GetAsyncKeyState(vKey)]. *)
Definition GetAsyncKeyState (inp : Input) (vKey : Z) : M Z :=
  fun g => (escapeKeyState inp, g, [E_GetAsyncKeyState vKey (escapeKeyState inp)]).

(** [Game::Update], lines 271-288. *)
Definition Update (deltaTime totalTime : float) (inp : Input) : M unit :=
  call (E_EmitterUpdate deltaTime) ;;
  modify (fun g => set_emitter (Emitter.Update (F32.to_Q deltaTime) (emitter g)) g) ;;

  modify (fun g =>
    let rot := Entity.GetRotation (entityOne g) in
    set_entity EntityOne
      (Entity.SetRotation
         (mkFloat3 (f3x rot)
                   (F64.to_float (F64.add (F64.of_float (f3y rot)) (F64.lit 1 10000)))
                   (f3z rot))
         (entityOne g)) g) ;;
  FinalizeMatrix EntityOne ;;

  modify (fun g =>
    let pos := Entity.GetPosition (entityTwo g) in
    set_entity EntityTwo
      (Entity.SetPosition (mkFloat3 (f3x pos) (sinf totalTime) (f3z pos))
         (entityTwo g)) g) ;;
  FinalizeMatrix EntityTwo ;;

  modify (fun g =>
    set_entity EntityThree
      (Entity.SetScale
         (mkFloat3 (F32.add (sinf totalTime) (F32.of_Z 1))
                   (F32.add (sinf totalTime) (F32.of_Z 1))
                   (F32.add (sinf totalTime) (F32.of_Z 1)))
         (entityThree g)) g) ;;
  FinalizeMatrix EntityThree ;;

  call (E_CameraUpdate deltaTime) ;;
  modify (fun g =>
    set_gameCamera (Camera.Update (F32.to_Q deltaTime) (cameraMove inp) (gameCamera g)) g) ;;
  key ← GetAsyncKeyState inp VK_ESCAPE;
  if negb (key =? 0)%Z then call E_Quit else mret tt.

(** Modelled from the spec: [entity->PrepareMaterial(view, projection)].
    Section 4.1: pushes the world, view and projection matrices to the
    shaders of the entity's material. *)
Definition PrepareMaterial (r : EntityRef) (view proj : XMFLOAT4X4) : M unit :=
  g ← this;
  call (E_PrepareMaterial r (Entity.GetWorldMatrix (entity r g))
          (Entity.GetMaterial (entity r g)) view proj).

(** Modelled from the spec: [emitter->Draw(context, gameCamera)].  Section
    4.3: one draw call covering the live particles, seen through the
    camera. *)
Definition Emitter_Draw : M unit :=
  g ← this;
  call (E_EmitterDraw (Emitter.liveCount (emitter g))
          (Camera.GetViewMat (gameCamera g))
          (Camera.GetProjectionMat (gameCamera g))).

(** [Game::Draw], lines 293-372. *)
Definition Draw (deltaTime totalTime : float) : M unit :=
  let color := mkFloat4 (F32.lit 4 10) (F32.lit 6 10) (F32.lit 75 100) (F32.lit 0 1) in
  g ← this;
  call (E_ClearRenderTargetView (backBufferRTV g) color) ;;
  call (E_ClearDepthStencilView (depthStencilView g)
          (Z.lor D3D11_CLEAR_DEPTH D3D11_CLEAR_STENCIL) (F32.lit 1 1) 0) ;;

  let stride := sizeofVertex in
  let offset := 0%Z in

  let vertexBuffer := GetVertexBuffer (Entity.GetMesh (entityOne g)) in
  let indexBuffer := GetIndexBuffer (Entity.GetMesh (entityOne g)) in
  call (E_IASetVertexBuffers 0 1 vertexBuffer stride offset) ;;
  call (E_IASetIndexBuffer indexBuffer DXGI_FORMAT_R32_UINT 0) ;;
  PrepareMaterial EntityOne
    (Camera.GetViewMat (gameCamera g)) (Camera.GetProjectionMat (gameCamera g)) ;;
  call (E_DrawIndexed (GetIndexCount (Entity.GetMesh (entityOne g))) 0 0) ;;

  let vertexBuffer := GetVertexBuffer (Entity.GetMesh (entityTwo g)) in
  let indexBuffer := GetIndexBuffer (Entity.GetMesh (entityTwo g)) in
  call (E_IASetVertexBuffers 0 1 vertexBuffer stride offset) ;;
  call (E_IASetIndexBuffer indexBuffer DXGI_FORMAT_R32_UINT 0) ;;
  PrepareMaterial EntityTwo
    (Camera.GetViewMat (gameCamera g)) (Camera.GetProjectionMat (gameCamera g)) ;;
  call (E_DrawIndexed (GetIndexCount (Entity.GetMesh (entityTwo g))) 0 0) ;;

  let vertexBuffer := GetVertexBuffer (Entity.GetMesh (entityThree g)) in
  let indexBuffer := GetIndexBuffer (Entity.GetMesh (entityThree g)) in
  call (E_IASetVertexBuffers 0 1 vertexBuffer stride offset) ;;
  call (E_IASetIndexBuffer indexBuffer DXGI_FORMAT_R32_UINT 0) ;;
  PrepareMaterial EntityThree
    (Camera.GetViewMat (gameCamera g)) (Camera.GetProjectionMat (gameCamera g)) ;;
  call (E_DrawIndexed (GetIndexCount (Entity.GetMesh (entityThree g))) 0 0) ;;

  let blend := mkFloat4 (F32.of_Z 1) (F32.of_Z 1) (F32.of_Z 1) (F32.of_Z 1) in
  call (E_OMSetBlendState (particleBlendState g) blend 4294967295) ;;
  call (E_OMSetDepthStencilState (particleDepthState g) 0) ;;

  Emitter_Draw ;;

  call (E_OMSetBlendState 0%N blend 4294967295) ;;
  call (E_OMSetDepthStencilState 0%N 0) ;;

  call (E_Present 0 0).

(** [Game::OnMouseDown], lines 382-392. *)
Definition OnMouseDown (buttonState : Z) (x y : Z) : M unit :=
  modify (set_prevMousePos (mkPoint x y)) ;;
  call E_SetCapture.

(** [Game::OnMouseUp], lines 397-404. *)
Definition OnMouseUp (buttonState : Z) (x y : Z) : M unit :=
  call E_ReleaseCapture.

(** [gameCamera->RotateCamera(deltaX, deltaY)]. *)
Definition RotateCamera (deltaX deltaY : float) : M unit :=
  call (E_RotateCamera deltaX deltaY) ;;
  modify (fun g =>
    set_gameCamera
      (Camera.RotateCamera sensitivity (F32.to_Q deltaX) (F32.to_Q deltaY) (gameCamera g))
      g).

(** [Game::OnMouseMove], lines 411-428. *)
Definition OnMouseMove (buttonState : Z) (x y : Z) : M unit :=
  g ← this;
  (if negb (Z.land buttonState 1 =? 0)%Z then
     if negb (x =? pt_x (prevMousePos g))%Z || negb (y =? pt_y (prevMousePos g))%Z then
       let deltaX := F32.of_Z (int_wrap (x - pt_x (prevMousePos g))) in
       let deltaY := F32.of_Z (int_wrap (y - pt_y (prevMousePos g))) in
       RotateCamera deltaX deltaY
     else mret tt
   else mret tt) ;;
  modify (set_prevMousePos (mkPoint x y)).

(** [Game::OnMouseWheel], lines 435-438. *)
Definition OnMouseWheel (wheelDelta : float) (x y : Z) : M unit := mret tt.

(** *** The frame pump *)

Record Frame := mkFrame {
  frameDeltaTime : float;
  frameTotalTime : float;
  frameInput : Input
}.

(** The methods the pump calls, each with the calls it made in turn. *)
Inductive MethodCall :=
| UpdateCall (made : list Event)
| DrawCall (made : list Event).

Definition isQuit (ev : Event) : bool :=
  match ev with E_Quit => true | _ => false end.

Definition quitRequested (made : list Event) : bool := existsb isQuit made.

Inductive Phase := Running | ShuttingDown.

(** Modelled from the spec: the frame pump ([DXCore::Run] is missing).
    Section 4.4: in state Running the pump calls Update then Draw,
    repeatedly; escape-key detection in Update transitions to ShuttingDown
    by requesting process exit.  Section 8: after the request no further
    Draw calls are issued. *)
Fixpoint pump (frames : list Frame) (g : Game) : list MethodCall * Game * Phase :=
  match frames with
  | [] => ([], g, Running)
  | f :: rest =>
      let '(_, g1, made1) := Update (frameDeltaTime f) (frameTotalTime f) (frameInput f) g in
      if quitRequested made1 then ([UpdateCall made1], g1, ShuttingDown)
      else
        let '(_, g2, made2) := Draw (frameDeltaTime f) (frameTotalTime f) g1 in
        let '(log, g3, ph) := pump rest g2 in
        (UpdateCall made1 :: DrawCall made2 :: log, g3, ph)
  end.

(** Modelled from the spec: the windowing shell (section 6) records the new
    client size and dispatches [OnResize]. *)
Definition windowResized (w h : N) (views : Handle * Handle) : M unit :=
  modify (set_width w) ;;
  modify (set_height h) ;;
  OnResize views.

End GameMethods.


(* ================================================================== *)
(** ** Vocabulary of the statements about the emitter *)

Section EmitterInvariants.
Import Emitter.

(** The configuration never changes. *)
Definition sameConfig (e e' : t) : Prop :=
  maxParticles e' = maxParticles e /\ particlesPerSecond e' = particlesPerSecond e /\
  lifetime e' = lifetime e /\ startSize e' = startSize e /\ endSize e' = endSize e /\
  startColor e' = startColor e /\ endColor e' = endColor e.

(** The pool has one slot per unit of capacity; the cursor follows the
    number of spawns round-robin; the particle in slot [i] is the latest
    one spawned whose serial number is [i] modulo the capacity; a slot is
    unused only while fewer than [i + 1] particles have been spawned. *)
Definition poolInv (e : t) : Prop :=
  length (particles e) = maxParticles e /\
  nextSlot e = spawned e mod maxParticles e /\
  (forall (i : nat) (p : Particle), particles e !! i = Some (Some p) ->
     Serial p mod maxParticles e = i /\
     Serial p < spawned e /\ spawned e <= Serial p + maxParticles e) /\
  (forall i : nat, particles e !! i = Some None -> spawned e <= i).

(** The pool invariant together with the number of slots in use. *)
Definition poolFull (e : t) : Prop :=
  poolInv e /\ occupied e = Nat.min (spawned e) (maxParticles e).

(** The attributes stored with a particle are those of its age. *)
Definition attrInv (e : t) : Prop :=
  forall (i : nat) (p : Particle), particles e !! i = Some (Some p) ->
    p = particleAt e (Age p) (Serial p).

End EmitterInvariants.



(* ================================================================== *)
(** ** Vocabulary of the statements about [Game] *)

(** The six steps of a frame's rendering, as the calls each consists of. *)
Definition clearStep (g : Game) : list Event :=
  [E_ClearRenderTargetView (backBufferRTV g)
     (mkFloat4 (F32.lit 4 10) (F32.lit 6 10) (F32.lit 75 100) (F32.lit 0 1));
   E_ClearDepthStencilView (depthStencilView g) 3 (F32.lit 1 1) 0].

Definition opaqueStep (sizeofVertex : Z) (g : Game) (r : EntityRef) : list Event :=
  [E_IASetVertexBuffers 0 1 (GetVertexBuffer (Entity.GetMesh (entity r g))) sizeofVertex 0;
   E_IASetIndexBuffer (GetIndexBuffer (Entity.GetMesh (entity r g))) DXGI_FORMAT_R32_UINT 0;
   E_PrepareMaterial r (Entity.GetWorldMatrix (entity r g))
     (Entity.GetMaterial (entity r g))
     (Camera.GetViewMat (gameCamera g)) (Camera.GetProjectionMat (gameCamera g));
   E_DrawIndexed (GetIndexCount (Entity.GetMesh (entity r g))) 0 0].

Definition blendFactor : XMFLOAT4 :=
  mkFloat4 (F32.of_Z 1) (F32.of_Z 1) (F32.of_Z 1) (F32.of_Z 1).

Definition particleStateStep (g : Game) : list Event :=
  [E_OMSetBlendState (particleBlendState g) blendFactor 4294967295;
   E_OMSetDepthStencilState (particleDepthState g) 0].

Definition particleDrawStep (g : Game) : list Event :=
  [E_EmitterDraw (Emitter.liveCount (emitter g))
     (Camera.GetViewMat (gameCamera g)) (Camera.GetProjectionMat (gameCamera g))].

Definition stateResetStep : list Event :=
  [E_OMSetBlendState 0%N blendFactor 4294967295;
   E_OMSetDepthStencilState 0%N 0].

Definition presentStep : list Event := [E_Present 0 0].

(** The two paths of a shader's compiled file. *)
Definition primaryPath (s : ShaderRef) : string :=
  match s with
  | VertexShader => "Debug/VertexShader.cso"
  | PixelShader => "Debug/PixelShader.cso"
  | ParticleVS => "Debug/ParticleVS.cso"
  | ParticlePS => "Debug/ParticlePS.cso"
  end.

Definition fallbackPath (s : ShaderRef) : string :=
  match s with
  | VertexShader => "VertexShader.cso"
  | PixelShader => "PixelShader.cso"
  | ParticleVS => "ParticleVS.cso"
  | ParticlePS => "ParticlePS.cso"
  end.

(** Primary path first; the fallback path once, exactly when the primary
    load fails. *)
Definition loadAttempts (loads : string -> bool) (s : ShaderRef) : list Event :=
  if loads (primaryPath s)
  then [E_LoadShaderFile s (primaryPath s) true]
  else [E_LoadShaderFile s (primaryPath s) false;
        E_LoadShaderFile s (fallbackPath s) (loads (fallbackPath s))].

Definition loadedFile (loads : string -> bool) (s : ShaderRef) : option string :=
  if loads (primaryPath s) then Some (primaryPath s)
  else if loads (fallbackPath s) then Some (fallbackPath s)
  else None.

(** What happens to a running game between two resizes. *)
Inductive Step :=
| StepUpdate (deltaTime totalTime : float) (inp : Input)
| StepDraw (deltaTime totalTime : float)
| StepMouseDown (buttonState x y : Z)
| StepMouseUp (buttonState x y : Z)
| StepMouseMove (buttonState x y : Z)
| StepMouseWheel (wheelDelta : float) (x y : Z).

Definition doStep (sizeofVertex : Z) (sinf : float -> float) (sens : Q)
    (s : Step) : M unit :=
  match s with
  | StepUpdate dt total inp => Update sinf dt total inp
  | StepDraw dt total => Draw sizeofVertex dt total
  | StepMouseDown b x y => OnMouseDown b x y
  | StepMouseUp b x y => OnMouseUp b x y
  | StepMouseMove b x y => OnMouseMove sens b x y
  | StepMouseWheel w x y => OnMouseWheel w x y
  end.

Definition doSteps (sizeofVertex : Z) (sinf : float -> float) (sens : Q)
    (steps : list Step) (g : Game) : Game :=
  fold_left (fun acc s => state (doStep sizeofVertex sinf sens s acc)) steps g.

(** The projection matrices a frame's rendering hands to the shaders. *)
Definition projectionsUsed (made : list Event) : list XMFLOAT4X4 :=
  flat_map (fun ev =>
              match ev with
              | E_PrepareMaterial _ _ _ _ proj => [proj]
              | E_EmitterDraw _ _ proj => [proj]
              | _ => []
              end) made.

Definition aspectRatio (w h : N) : Q := (inject_Z (Z.of_N w) / inject_Z (Z.of_N h))%Q.

(** The calls of one [Update]. *)
Definition updateCalls (deltaTime : float) (inp : Input) : list Event :=
  [E_EmitterUpdate deltaTime;
   E_FinalizeMatrix EntityOne; E_FinalizeMatrix EntityTwo; E_FinalizeMatrix EntityThree;
   E_CameraUpdate deltaTime;
   E_GetAsyncKeyState VK_ESCAPE (escapeKeyState inp)]
  ++ (if (escapeKeyState inp =? 0)%Z then [] else [E_Quit]).

Definition isKeyPoll (ev : Event) : bool :=
  match ev with E_GetAsyncKeyState _ _ => true | _ => false end.

Definition isDrawCall (c : MethodCall) : bool :=
  match c with DrawCall _ => true | UpdateCall _ => false end.

(** The rotation [Update] stores for the sphere: the [float] nearest to
    the [double] sum of the old angle and the literal 0.0001. *)
Definition spinStep (y : float) : float :=
  F64.to_float (F64.add (F64.of_float y) (F64.lit 1 10000)).

(** A game to evaluate the methods on. *)
Definition sampleCamera : Camera.t :=
  Camera.mkCamera (0, 0, -5)%Q 0 0 (MatView (0, 0, -5)%Q 0 0) (MatPerspective (aspectRatio 1280 720)).

Definition sampleEntity (vb ib : Handle) (n : Z) (srv : Handle) (rot : XMFLOAT3) : Entity.t :=
  let zero := mkFloat3 (F32.of_Z 0) (F32.of_Z 0) (F32.of_Z 0) in
  let one := mkFloat3 (F32.of_Z 1) (F32.of_Z 1) (F32.of_Z 1) in
  Entity.mkEntity (mkMesh vb ib n) (mkMaterial PixelShader VertexShader srv 30%N)
                  zero rot one MatIdentity.

Definition sampleGame (rotationY : float) : Game :=
  let light := mkLight blendFactor blendFactor (mkFloat3 (F32.of_Z 0) (F32.of_Z 0) (F32.of_Z 1)) in
  mkGame 1280 720 10%N 11%N
         (Some (mkShader (Some "Debug/VertexShader.cso"%string)))
         (Some (mkShader (Some "Debug/PixelShader.cso"%string)))
         (Some (mkShader (Some "Debug/ParticleVS.cso"%string)))
         (Some (mkShader (Some "Debug/ParticlePS.cso"%string)))
         (mkMaterial PixelShader VertexShader 31%N 30%N)
         (mkMaterial PixelShader VertexShader 32%N 30%N)
         30%N 31%N 32%N 33%N 40%N 41%N
         (mkMesh 50%N 51%N 2880) (mkMesh 54%N 55%N 6000) (mkMesh 52%N 53%N 36)
         (sampleEntity 50%N 51%N 2880 32%N (mkFloat3 (F32.of_Z 0) rotationY (F32.of_Z 0)))
         (sampleEntity 52%N 53%N 36 31%N (mkFloat3 (F32.of_Z 0) (F32.of_Z 0) (F32.of_Z 0)))
         (sampleEntity 54%N 55%N 6000 31%N (mkFloat3 (F32.of_Z 0) (F32.of_Z 0) (F32.of_Z 1)))
         sampleCamera Init_emitter
         (mkEmitterResources (Some (mkShader (Some "Debug/ParticleVS.cso"%string)))
                             (Some (mkShader (Some "Debug/ParticlePS.cso"%string)))
                             33%N)
         MatIdentity light light (mkPoint 0 0).

(** A stand-in for [sin] where the methods are evaluated; no statement
    below depends on its values. *)
Definition sampleSin (x : float) : float := F32.of_Z 0.

Definition sampleInput (key : Z) : Input := mkInput key (0, 0, 0)%Q.

(** The sphere's y rotation after one [Update] of a game in which it was
    [y]. *)
Definition rotationAfterUpdate (y : float) : float :=
  f3y (Entity.GetRotation
         (entityOne
            (state (Update sampleSin (F32.lit 1 60) (F32.lit 1 60) (sampleInput 0)
                      (sampleGame y))))).

(** Whether [OnMouseMove] turns the camera: the left button is down and
    the pointer is not where it was. *)
Definition dragged (buttonState x y : Z) (prev : POINT) : bool :=
  Z.testbit buttonState 0 && (negb (x =? pt_x prev)%Z || negb (y =? pt_y prev)%Z).

Definition isShaderLoad (ev : Event) : bool :=
  match ev with E_LoadShaderFile _ _ _ => true | _ => false end.

(** The four shader objects after [LoadShaders]. *)
Definition withLoadedShaders (loads : string -> bool) (g : Game) : Game :=
  set_particlePS (Some (mkShader (loadedFile loads ParticlePS)))
    (set_particleVS (Some (mkShader (loadedFile loads ParticleVS)))
       (set_pixelShader (Some (mkShader (loadedFile loads PixelShader)))
          (set_vertexShader (Some (mkShader (loadedFile loads VertexShader))) g))).

(** The two states [Init] creates for the particles: additive blending
    (source and destination both weighted by one, added) and depth testing
    with depth writes masked out. *)
Definition additiveBlend : D3D11_BLEND_DESC :=
  mkBlendDesc false false true D3D11_BLEND_OP_ADD D3D11_BLEND_ONE D3D11_BLEND_ONE
              D3D11_BLEND_OP_ADD D3D11_BLEND_ONE D3D11_BLEND_ONE 15.

Definition depthTestNoWrite : D3D11_DEPTH_STENCIL_DESC :=
  mkDepthStencilDesc true D3D11_DEPTH_WRITE_MASK_ZERO D3D11_COMPARISON_LESS.

(** The calls of [Init] before and after it loads the shaders. *)
Definition initBefore (device : Device) (g : Game) : list Event :=
  [E_CreateWICTextureFromFile "Debug/Assets/Textures/MossRock.tif"
     (loadTexture device "Debug/Assets/Textures/MossRock.tif");
   E_CreateWICTextureFromFile "Debug/Assets/Textures/TreeBark.tif"
     (loadTexture device "Debug/Assets/Textures/TreeBark.tif");
   E_CreateSamplerState
     (mkSamplerDesc D3D11_TEXTURE_ADDRESS_WRAP D3D11_TEXTURE_ADDRESS_WRAP
                    D3D11_TEXTURE_ADDRESS_WRAP D3D11_FILTER_ANISOTROPIC 16
                    D3D11_FLOAT32_MAX)
     (newSamplerState device);
   E_CreateDepthStencilState depthTestNoWrite (newDepthStencilState device);
   E_CreateBlendState additiveBlend (newBlendState device);
   E_NewEmitter (particleVS g) (particlePS g) (particleTexture g)].

Definition initAfter (device : Device) (g : Game) : list Event :=
  [E_SetSamplerState PixelShader "Sampler" (newSamplerState device);
   E_SetShaderResourceView PixelShader "Rocks"
     (loadTexture device "Debug/Assets/Textures/MossRock.tif");
   E_SetShaderResourceView PixelShader "Wood"
     (loadTexture device "Debug/Assets/Textures/TreeBark.tif");
   E_NewCamera;
   E_SetProjectionMat (width g) (height g);
   E_NewMesh "Debug/Assets/Models/sphere.obj";
   E_NewMesh "Debug/Assets/Models/helix.obj";
   E_NewMesh "Debug/Assets/Models/cube.obj";
   E_SetData PixelShader "light"
     (mkLight (mkFloat4 (F32.lit 1 10) (F32.lit 1 10) (F32.lit 1 10) (F32.lit 1 1))
              (mkFloat4 (F32.of_Z 1) (F32.of_Z 0) (F32.of_Z 0) (F32.of_Z 1))
              (mkFloat3 (F32.of_Z 0) (F32.of_Z (-1)) (F32.of_Z 0)));
   E_SetData PixelShader "light2"
     (mkLight (mkFloat4 (F64.to_float (F64.lit 1 10)) (F64.to_float (F64.lit 1 10))
                        (F64.to_float (F64.lit 1 10)) (F32.lit 1 1))
              (mkFloat4 (F32.of_Z 1) (F32.of_Z 1) (F32.of_Z 1) (F32.of_Z 1))
              (mkFloat3 (F32.of_Z 0) (F32.of_Z 0) (F32.of_Z 1)));
   E_IASetPrimitiveTopology D3D11_PRIMITIVE_TOPOLOGY_TRIANGLELIST].

(* ================================================================== *)
(** ** Game.cpp: the destructor *)

(** The objects [Game] owns through a pointer. *)
Inductive Member :=
| the_vertexShader | the_pixelShader | the_particleVS | the_particlePS
| the_sphereMesh | the_helixMesh | the_cubeMesh
| the_entityOne | the_entityTwo | the_entityThree
| the_gameCamera | the_mat1 | the_mat2 | the_emitter.

(** What the destructor does: [delete] of an object, [Release] of a COM
    handle. *)
Inductive Teardown :=
| T_delete (m : Member)
| T_Release (h : Handle).

(** The COM objects that exist while the destructor runs: the reference
    count of the object a pointer refers to, [0] where there is none. *)
Definition Heap : Type := Handle -> nat.

(** Whether a pointer refers to an object.  The null pointer never does. *)
Definition refers (heap : Heap) (h : Handle) : bool :=
  negb (h =? 0)%N && negb (heap h =? 0)%nat.

(** One reference to the object at [h] given back. *)
Definition unref (h : Handle) (heap : Heap) : Heap :=
  fun h' => if (h' =? h)%N then Nat.pred (heap h') else heap h'.

(** A step of the destructor: it reads and writes the heap and tears
    things down, in order.  A call through a pointer that refers to no
    object is undefined behaviour, in practice an access violation: the
    step faults, [None], and nothing after it runs. *)
Definition D (A : Type) : Type := Heap -> option A * Heap * list Teardown.

Definition dret {A : Type} (a : A) : D A := fun heap => (Some a, heap, []).

Definition dbind {A B : Type} (m : D A) (k : A -> D B) : D B :=
  fun heap =>
    match m heap with
    | (Some a, heap1, t1) =>
        let '(b, heap2, t2) := k a heap1 in (b, heap2, t1 ++ t2)
    | (None, heap1, t1) => (None, heap1, t1)
    end.

#[global] Instance D_ret : MRet D := @dret.
#[global] Instance D_bind : MBind D := fun A B k m => dbind m k.

(** Whether a run of the destructor returned, and what it tore down. *)
Definition returned {A : Type} (r : option A * Heap * list Teardown) : bool :=
  match fst (fst r) with Some _ => true | None => false end.

Definition torn {A : Type} (r : option A * Heap * list Teardown) : list Teardown :=
  snd r.

(** [delete p] on a pointer to an object. *)
Definition delete (m : Member) : D unit :=
  fun heap => (Some tt, heap, [T_delete m]).

(** [delete p] on a shader pointer: nothing when the pointer is null. *)
Definition deleteShader (p : option SimpleShader) (m : Member) : D unit :=
  match p with Some _ => delete m | None => mret tt end.

(** [p->Release()]: a virtual call through [p]. *)
Definition Release (h : Handle) : D unit :=
  fun heap =>
    if refers heap h
    then (Some tt, unref h heap, [T_Release h])
    else (None, heap, []).

(** [Game::~Game], lines 39-75.  The meshes, entities, camera and
    materials are objects here, never null pointers, so their [if (p)]
    guards pass.  The six [Release] calls have no guard. *)
Definition Game_dtor (g : Game) : D unit :=
  deleteShader (vertexShader g) the_vertexShader ;;
  deleteShader (pixelShader g) the_pixelShader ;;

  delete the_sphereMesh ;;
  delete the_helixMesh ;;
  delete the_cubeMesh ;;
  delete the_entityOne ;;
  delete the_entityTwo ;;
  delete the_entityThree ;;

  delete the_gameCamera ;;

  delete the_mat1 ;;
  delete the_mat2 ;;

  Release (particleTexture g) ;;
  Release (particleBlendState g) ;;
  Release (particleDepthState g) ;;

  deleteShader (particleVS g) the_particleVS ;;
  deleteShader (particlePS g) the_particlePS ;;
  delete the_emitter ;;

  Release (sampler g) ;;
  Release (rockSRV g) ;;
  Release (woodSRV g).

Definition released (ts : list Teardown) : list Handle :=
  flat_map (fun t => match t with T_Release h => [h] | T_delete _ => [] end) ts.

Definition deleted (ts : list Teardown) : list Member :=
  flat_map (fun t => match t with T_delete m => [m] | T_Release _ => [] end) ts.

(** The handles a run of calls obtained from the device and the texture
    loader. *)
Definition obtained (made : list Event) : list Handle :=
  flat_map (fun ev =>
              match ev with
              | E_CreateWICTextureFromFile _ h => [h]
              | E_CreateSamplerState _ h => [h]
              | E_CreateDepthStencilState _ h => [h]
              | E_CreateBlendState _ h => [h]
              | _ => []
              end) made.

(** What the destructor tears down before its first [Release]. *)
Definition firstDeletes : list Teardown :=
  map T_delete
      [the_vertexShader; the_pixelShader;
       the_sphereMesh; the_helixMesh; the_cubeMesh;
       the_entityOne; the_entityTwo; the_entityThree;
       the_gameCamera; the_mat1; the_mat2].

(** A device to evaluate [Init] on: every handle it hands out is different
    from the others. *)
Definition sampleDevice : Device :=
  mkDevice (fun path => if String.eqb path "Debug/Assets/Textures/MossRock.tif"
                        then 31%N else 32%N)
           30%N 41%N 40%N (fun _ => mkMesh 50%N 51%N 2880).

(** A heap in which exactly the pointers of [live] refer to an object, each
    with one reference. *)
Definition sampleHeap (live : list Handle) : Heap :=
  fun h => if existsb (N.eqb h) live then 1 else 0.

(* ================================================================== *)
(** ** Vocabulary of the statements about sequences of handlers *)

(** Everything the shell can make a running game do. *)
Inductive Handler :=
| H_step (s : Step)
| H_resize (w h : N) (views : Handle * Handle).

Definition handle (sizeofVertex : Z) (sinf : float -> float) (sens : Q)
    (h : Handler) : M unit :=
  match h with
  | H_step s => doStep sizeofVertex sinf sens s
  | H_resize w h views => windowResized w h views
  end.

Definition handleAll (sizeofVertex : Z) (sinf : float -> float) (sens : Q)
    (hs : list Handler) (g : Game) : Game :=
  fold_left (fun acc h => state (handle sizeofVertex sinf sens h acc)) hs g.

(** The world matrix of an entity is the one of its current transform. *)
Definition worldFresh (e : Entity.t) : Prop :=
  Entity.GetWorldMatrix e
  = MatWorld (Entity.GetPosition e) (Entity.GetRotation e) (Entity.GetScale e).

(** The world matrices a frame's rendering hands to the shaders. *)
Definition worldsUsed (made : list Event) : list XMFLOAT4X4 :=
  flat_map (fun ev =>
              match ev with
              | E_PrepareMaterial _ world _ _ _ => [world]
              | _ => []
              end) made.

(** What a frame's rendering binds and draws: vertex buffer, index buffer,
    material, index count. *)
Definition buffersBound (made : list Event) : list (Handle + Handle) :=
  flat_map (fun ev =>
              match ev with
              | E_IASetVertexBuffers _ _ vb _ _ => [inl vb]
              | E_IASetIndexBuffer ib _ _ => [inr ib]
              | _ => []
              end) made.

Definition materialsUsed (made : list Event) : list Material :=
  flat_map (fun ev =>
              match ev with
              | E_PrepareMaterial _ _ m _ _ => [m]
              | _ => []
              end) made.

Definition indexCounts (made : list Event) : list Z :=
  flat_map (fun ev =>
              match ev with
              | E_DrawIndexed n _ _ => [n]
              | _ => []
              end) made.

Definition particlesDrawn (made : list Event) : list nat :=
  flat_map (fun ev =>
              match ev with
              | E_EmitterDraw live _ _ => [live]
              | _ => []
              end) made.

(** A sequence of [OnMouseMove] events, each with its button state and
    position. *)
Fixpoint mouseMoves (sens : Q) (moves : list (Z * Z * Z)) : M unit :=
  match moves with
  | [] => mret tt
  | (b, x, y) :: rest => OnMouseMove sens b x y ;; mouseMoves sens rest
  end.

(** The deltas of the [RotateCamera] calls of a run, with their exact
    values, and their sums. *)
Definition rotationDeltas (made : list Event) : list (Q * Q) :=
  flat_map (fun ev =>
              match ev with
              | E_RotateCamera dx dy => [(F32.to_Q dx, F32.to_Q dy)]
              | _ => []
              end) made.

Definition totalDeltaX (made : list Event) : Q :=
  fold_right (fun d acc => (fst d + acc)%Q) 0%Q (rotationDeltas made).

Definition totalDeltaY (made : list Event) : Q :=
  fold_right (fun d acc => (snd d + acc)%Q) 0%Q (rotationDeltas made).

(** A pointer position whose coordinates are below 2^23 in magnitude, so
    that the difference of two of them is below 2^24. *)
Definition nearby (x y : Z) : Prop :=
  (- 2 ^ 23 < x < 2 ^ 23)%Z /\ (- 2 ^ 23 < y < 2 ^ 23)%Z.

Definition shaderPaths (made : list Event) : list string :=
  flat_map (fun ev =>
              match ev with
              | E_LoadShaderFile _ path _ => [path]
              | _ => []
              end) made.

Definition failedPrimaries (loads : string -> bool) : nat :=
  length (List.filter (fun s => negb (loads (primaryPath s)))
            [VertexShader; PixelShader; ParticleVS; ParticlePS]).

Definition isNewEmitter (ev : Event) : bool :=
  match ev with E_NewEmitter _ _ _ => true | _ => false end.

(** What rendering depends on and no handler should change: the mesh and
    material of each entity, the particle states, the shaders, materials,
    textures, meshes and lights. *)
Definition fixtures (g : Game) :=
  (map (fun r => (Entity.GetMesh (entity r g), Entity.GetMaterial (entity r g)))
       [EntityOne; EntityTwo; EntityThree],
   (particleBlendState g, particleDepthState g),
   (vertexShader g, pixelShader g, particleVS g, particlePS g),
   (mat1 g, mat2 g),
   (sampler g, rockSRV g, woodSRV g, particleTexture g),
   (sphereMesh g, helixMesh g, cubeMesh g),
   (worldMatrix g, dirLight g, dirLight2 g)).

(** The frame times a sequence of handlers feeds to the emitter. *)
Definition updateTimes (hs : list Handler) : list Q :=
  flat_map (fun h =>
              match h with
              | H_step (StepUpdate dt _ _) => [F32.to_Q dt]
              | _ => []
              end) hs.

(** The number of [Update] calls among a sequence of handlers, and the
    totalTime of the last of them. *)
Definition updateCount (hs : list Handler) : nat :=
  length (updateTimes hs).

Fixpoint lastTotalTime (hs : list Handler) : option float :=
  match hs with
  | [] => None
  | h :: rest =>
      match lastTotalTime rest with
      | Some t => Some t
      | None => match h with
                | H_step (StepUpdate _ total _) => Some total
                | _ => None
                end
      end
  end.

(** The position of the last mouse-down or mouse-move event among a
    sequence of handlers. *)
Fixpoint lastPointer (hs : list Handler) : option POINT :=
  match hs with
  | [] => None
  | h :: rest =>
      match lastPointer rest with
      | Some p => Some p
      | None => match h with
                | H_step (StepMouseDown _ x y) => Some (mkPoint x y)
                | H_step (StepMouseMove _ x y) => Some (mkPoint x y)
                | _ => None
                end
      end
  end.

(* ================================================================== *)
(** * Proofs *)

(** ** Clamping on the rationals *)

Lemma Qclamp_bounds x lo hi : (lo <= hi -> lo <= Qclamp x lo hi <= hi)%Q.
Proof.
  intros Hlh. unfold Qclamp.
  destruct (Qle_bool x lo) eqn:E1.
  - split; [apply Qle_refl | exact Hlh].
  - destruct (Qle_bool hi x) eqn:E2.
    + split; [exact Hlh | apply Qle_refl].
    + split.
      * destruct (Qlt_le_dec lo x) as [H|H]; [apply Qlt_le_weak, H|].
        apply Qle_bool_iff in H. congruence.
      * destruct (Qlt_le_dec x hi) as [H|H]; [apply Qlt_le_weak, H|].
        apply Qle_bool_iff in H. congruence.
Qed.

Lemma Qclamp_id x lo hi : (lo <= x -> x <= hi -> Qclamp x lo hi == x)%Q.
Proof.
  intros Hl Hh. unfold Qclamp.
  destruct (Qle_bool x lo) eqn:E1.
  - apply Qle_bool_iff in E1. apply Qle_antisym; assumption.
  - destruct (Qle_bool hi x) eqn:E2; [|reflexivity].
    apply Qle_bool_iff in E2. apply Qle_antisym; assumption.
Qed.

Lemma Qclamp_mono x y lo hi :
  (lo <= hi -> x <= y -> Qclamp x lo hi <= Qclamp y lo hi)%Q.
Proof.
  intros Hlh Hxy. unfold Qclamp.
  destruct (Qle_bool x lo) eqn:X1; destruct (Qle_bool y lo) eqn:Y1;
    try (destruct (Qle_bool hi x) eqn:X2); try (destruct (Qle_bool hi y) eqn:Y2);
    repeat match goal with
           | H : Qle_bool _ _ = true |- _ => apply Qle_bool_iff in H
           | H : Qle_bool ?a ?b = false |- _ =>
               assert (b < a)%Q by
                 (destruct (Qlt_le_dec b a) as [?|HH]; [assumption|];
                  apply Qle_bool_iff in HH; congruence);
               clear H
           end; lra.
Qed.

(* ================================================================== *)
(** ** Emitter: spawning *)

Section EmitterFacts.
Import Emitter.
Local Open Scope Q_scope.

Lemma Qfloor_pred (c : Q) : Qfloor (c - 1) = (Qfloor c - 1)%Z.
Proof.
  assert (Hlo := Qfloor_le c). assert (Hhi := Qlt_floor c).
  assert (Hlo' := Qfloor_le (c - 1)). assert (Hhi' := Qlt_floor (c - 1)).
  rewrite inject_Z_plus in Hhi, Hhi'.
  change (inject_Z 1) with 1 in Hhi, Hhi'.
  assert (H1 : inject_Z (Qfloor (c - 1)) < inject_Z (Qfloor c)) by lra.
  assert (H2 : inject_Z (Qfloor c) < inject_Z (Qfloor (c - 1)) + inject_Z 2)
    by (change (inject_Z 2) with 2; lra).
  rewrite <- Zlt_Qlt in H1.
  rewrite <- inject_Z_plus, <- Zlt_Qlt in H2.
  lia.
Qed.

Lemma Qfloor_lt_1 (c : Q) : (Qfloor c <= 0)%Z -> c < 1.
Proof.
  intros H. assert (Hhi := Qlt_floor c).
  assert (inject_Z (Qfloor c + 1) <= inject_Z 1) by (rewrite <- Zle_Qle; lia).
  change (inject_Z 1) with 1 in *. lra.
Qed.

Lemma Qfloor_ge_1 (c : Q) : (1 <= Qfloor c)%Z -> 1 <= c.
Proof.
  intros H. assert (Hlo := Qfloor_le c).
  assert (inject_Z 1 <= inject_Z (Qfloor c)) by (rewrite <- Zle_Qle; lia).
  change (inject_Z 1) with 1 in *. lra.
Qed.

Lemma sameConfig_refl e : sameConfig e e.
Proof. repeat split. Qed.

Lemma sameConfig_trans e1 e2 e3 : sameConfig e1 e2 -> sameConfig e2 e3 -> sameConfig e1 e3.
Proof. unfold sameConfig. intuition congruence. Qed.

Lemma EmitLoop_config fuel : forall e, sameConfig e (EmitLoop fuel e).
Proof.
  induction fuel as [|fuel IH]; intros e; simpl; [apply sameConfig_refl|].
  destruct (Qle_bool 1 (spawnCounter e)); [|apply sameConfig_refl].
  eapply sameConfig_trans; [|apply IH]. repeat split.
Qed.

Lemma Emit_config dt e : sameConfig e (Emit dt e).
Proof.
  unfold Emit. eapply sameConfig_trans; [|apply EmitLoop_config]. repeat split.
Qed.

Lemma AgeParticles_config dt e : sameConfig e (AgeParticles dt e).
Proof. repeat split. Qed.

Lemma UpdateIn_config o dt e : sameConfig e (UpdateIn o dt e).
Proof.
  destruct o; simpl.
  - eapply sameConfig_trans; [apply Emit_config | apply AgeParticles_config].
  - eapply sameConfig_trans; [apply AgeParticles_config | apply Emit_config].
Qed.

Lemma run_config o dts : forall e, sameConfig e (run o dts e).
Proof.
  induction dts as [|dt dts IH]; intros e; simpl; [apply sameConfig_refl|].
  eapply sameConfig_trans; [apply UpdateIn_config | apply IH].
Qed.

(** With the integer part of the counter as fuel the loop runs to its end:
    it spawns that many particles and leaves the counter below 1. *)
Lemma EmitLoop_done fuel : forall e,
  fuel = Z.to_nat (Qfloor (spawnCounter e)) ->
  spawned (EmitLoop fuel e) = (spawned e + fuel)%nat /\
  spawnCounter (EmitLoop fuel e) == spawnCounter e - inject_Z (Z.of_nat fuel) /\
  spawnCounter (EmitLoop fuel e) < 1.
Proof.
  induction fuel as [|fuel IH]; intros e Hfuel.
  - cbn [EmitLoop Z.of_nat]. split; [lia|].
    split; [change (inject_Z (Z.of_nat 0)) with 0; lra|].
    apply Qfloor_lt_1. lia.
  - cbn [EmitLoop].
    assert (Hc : 1 <= spawnCounter e) by (apply Qfloor_ge_1; lia).
    apply Qle_bool_iff in Hc. rewrite Hc.
    set (e1 := with_counter (SpawnParticle e) (spawnCounter e - 1)).
    destruct (IH e1) as (Hs & Hq & Hlt).
    { change (spawnCounter e1) with (spawnCounter e - 1).
      rewrite Qfloor_pred. lia. }
    change (spawned e1) with (S (spawned e)) in Hs.
    change (spawnCounter e1) with (spawnCounter e - 1) in Hq.
    split; [rewrite Hs; lia|].
    split; [|exact Hlt].
    rewrite Hq.
    rewrite Nat2Z.inj_succ. unfold Z.succ. rewrite inject_Z_plus.
    change (inject_Z 1) with 1. lra.
Qed.

Lemma AgeParticles_counters dt e :
  spawned (AgeParticles dt e) = spawned e /\
  spawnCounter (AgeParticles dt e) = spawnCounter e /\
  nextSlot (AgeParticles dt e) = nextSlot e.
Proof. repeat split. Qed.

Lemma Emit_counter dt e :
  let c := spawnCounter e + particlesPerSecond e * dt in
  let n := Z.to_nat (Qfloor c) in
  spawned (Emit dt e) = (spawned e + n)%nat /\
  spawnCounter (Emit dt e) == c - inject_Z (Z.of_nat n) /\
  spawnCounter (Emit dt e) < 1 /\
  (0 <= c -> 0 <= spawnCounter (Emit dt e)).
Proof.
  intros c n. unfold Emit.
  destruct (EmitLoop_done n (with_counter e c) eq_refl) as (H1 & H2 & H3).
  change (spawned (with_counter e c)) with (spawned e) in H1.
  change (spawnCounter (with_counter e c)) with c in H2.
  repeat split; try assumption.
  intros Hc. change (0 <= spawnCounter (EmitLoop n (with_counter e c))).
  rewrite H2. subst n.
  destruct (Z_le_gt_dec 0 (Qfloor c)) as [Hz|Hz].
  - rewrite Z2Nat.id by assumption. assert (Hlo := Qfloor_le c). lra.
  - replace (Z.to_nat (Qfloor c)) with O by lia.
    change (inject_Z (Z.of_nat 0)) with 0. lra.
Qed.

Lemma UpdateIn_counter o dt e :
  let c := spawnCounter e + particlesPerSecond e * dt in
  let n := Z.to_nat (Qfloor c) in
  spawned (UpdateIn o dt e) = (spawned e + n)%nat /\
  spawnCounter (UpdateIn o dt e) == c - inject_Z (Z.of_nat n) /\
  spawnCounter (UpdateIn o dt e) < 1 /\
  (0 <= c -> 0 <= spawnCounter (UpdateIn o dt e)).
Proof.
  destruct o.
  - exact (Emit_counter dt e).
  - exact (Emit_counter dt (AgeParticles dt e)).
Qed.

(** *** Invariants of the pool *)

(** A property kept by spawning, by ageing and by changes of the counter
    is kept by [update], hence by every run. *)
Section Preservation.
Variable P : t -> Prop.
Hypothesis P_counter : forall e c, P e -> P (with_counter e c).
Hypothesis P_spawn : forall e, P e -> P (SpawnParticle e).
Hypothesis P_age : forall e dt, P e -> P (AgeParticles dt e).

Lemma EmitLoop_preserves fuel : forall e, P e -> P (EmitLoop fuel e).
Proof using P_counter P_spawn.
  induction fuel as [|fuel IH]; intros e He; cbn [EmitLoop]; [exact He|].
  destruct (Qle_bool 1 (spawnCounter e)); [|exact He].
  apply IH, P_counter, P_spawn, He.
Qed.

Lemma Emit_preserves dt e : P e -> P (Emit dt e).
Proof using P_counter P_spawn.
  intros He. unfold Emit. apply EmitLoop_preserves, P_counter, He.
Qed.

Lemma UpdateIn_preserves o dt e : P e -> P (UpdateIn o dt e).
Proof using P_counter P_spawn P_age.
  intros He. destruct o; cbn [UpdateIn].
  - apply P_age, Emit_preserves, He.
  - apply Emit_preserves, P_age, He.
Qed.

Lemma run_preserves o dts : forall e, P e -> P (run o dts e).
Proof using P_counter P_spawn P_age.
  induction dts as [|dt dts IH]; intros e He; [exact He|].
  apply IH, UpdateIn_preserves, He.
Qed.
End Preservation.

Local Close Scope Q_scope.


Lemma poolInv_new maxP pps life ss es sc ec v p a :
  poolInv (new maxP pps life ss es sc ec v p a).
Proof.
  unfold poolInv, new; cbn. split; [apply length_replicate|].
  split; [symmetry; apply Nat.Div0.mod_0_l|].
  split.
  - intros i q Hi. apply lookup_replicate in Hi. destruct Hi; discriminate.
  - intros; lia.
Qed.

Lemma poolInv_counter e c : poolInv e -> poolInv (with_counter e c).
Proof. exact id. Qed.

Lemma poolInv_spawn e : poolInv e -> poolInv (SpawnParticle e).
Proof.
  unfold poolInv, SpawnParticle;
    cbn [particles nextSlot spawned maxParticles with_pool].
  set (m := maxParticles e). set (N := spawned e).
  intros (Hlen & Hnext & Hsome & Hnone).
  split; [rewrite length_insert; exact Hlen|].
  destruct (Nat.eq_dec m 0) as [Hm|Hm].
  { rewrite Hm in *. destruct (particles e); [|discriminate].
    split; [rewrite Hnext; reflexivity|].
    split.
    - intros i q Hi. rewrite list_insert_ge in Hi by (simpl; lia).
      rewrite lookup_nil in Hi. discriminate.
    - intros i Hi. rewrite list_insert_ge in Hi by (simpl; lia).
      rewrite lookup_nil in Hi. discriminate. }
  assert (Hslot : nextSlot e < length (particles e)).
  { rewrite Hlen, Hnext. apply Nat.mod_upper_bound, Hm. }
  split.
  { rewrite Hnext. change (S (N mod m)) with (1 + N mod m).
    rewrite Nat.Div0.add_mod_idemp_r. reflexivity. }
  split.
  - intros i p Hi.
    destruct (Nat.eq_dec (nextSlot e) i) as [Heq|Hne].
    + subst i. rewrite list_lookup_insert_eq in Hi by exact Hslot.
      injection Hi as <-. cbn [Serial particleAt]. rewrite <- Hnext. lia.
    + rewrite list_lookup_insert_ne in Hi by exact Hne.
      destruct (Hsome i p Hi) as (H1 & H2 & H3).
      repeat split; [exact H1 | lia |].
      destruct (Nat.eq_dec N (Serial p + m)) as [Heq|]; [|lia].
      exfalso. apply Hne. rewrite Hnext, <- H1, Heq.
      rewrite <- Nat.Div0.add_mod_idemp_r, Nat.Div0.mod_same, Nat.add_0_r.
      reflexivity.
  - intros i Hi.
    destruct (Nat.eq_dec (nextSlot e) i) as [Heq|Hne].
    + subst i. rewrite list_lookup_insert_eq in Hi by exact Hslot. discriminate.
    + rewrite list_lookup_insert_ne in Hi by exact Hne.
      specialize (Hnone i Hi).
      destruct (Nat.eq_dec N i) as [Heq|]; [|lia].
      exfalso. apply Hne. rewrite Hnext.
      apply lookup_lt_Some in Hi. rewrite Hlen in Hi.
      rewrite Nat.mod_small; lia.
Qed.

Lemma ageSlot_some e dt s p :
  ageSlot e dt s = Some p -> exists p0, s = Some p0 /\ Serial p = Serial p0.
Proof.
  destruct s as [p0|]; [|discriminate]. cbn [ageSlot].
  destruct (isLive (lifetime e) (Some p0)); intros [= <-]; eauto.
Qed.

Lemma ageSlot_none e dt s : ageSlot e dt s = None -> s = None.
Proof.
  destruct s as [p0|]; [|reflexivity]. cbn [ageSlot].
  destruct (isLive (lifetime e) (Some p0)); discriminate.
Qed.

Lemma poolInv_age e dt : poolInv e -> poolInv (AgeParticles dt e).
Proof.
  unfold poolInv, AgeParticles;
    cbn [particles nextSlot spawned maxParticles with_pool].
  intros (Hlen & Hnext & Hsome & Hnone).
  split; [rewrite length_map; exact Hlen|].
  split; [exact Hnext|].
  split.
  - intros i p Hi. rewrite list_lookup_fmap in Hi.
    destruct (particles e !! i) as [s|] eqn:Es; [|discriminate].
    cbn in Hi. injection Hi as Hi.
    destruct (ageSlot_some _ _ _ _ Hi) as (p0 & -> & ->).
    exact (Hsome i p0 Es).
  - intros i Hi. rewrite list_lookup_fmap in Hi.
    destruct (particles e !! i) as [s|] eqn:Es; [|discriminate].
    cbn in Hi. injection Hi as Hi. apply ageSlot_none in Hi. subst s.
    exact (Hnone i Es).
Qed.

Lemma poolInv_run o dts maxP pps life ss es sc ec v p a :
  poolInv (run o dts (new maxP pps life ss es sc ec v p a)).
Proof.
  apply run_preserves;
    auto using poolInv_counter, poolInv_spawn, poolInv_age, poolInv_new.
Qed.

(** *** Counting particles *)

Lemma filter_length_insert {A : Type} (f : A -> bool) (l : list A) :
  forall (i : nat) (x y : A), l !! i = Some y ->
  length (List.filter f (<[i:=x]> l)) + Nat.b2n (f y) =
  length (List.filter f l) + Nat.b2n (f x).
Proof.
  induction l as [|a l IH]; intros i x y Hi; [rewrite lookup_nil in Hi; discriminate|].
  destruct i as [|i]; cbn in Hi |- *.
  - injection Hi as ->. destruct (f x), (f y); cbn; lia.
  - specialize (IH i x y Hi). destruct (f a); cbn; [f_equal|]; exact IH.
Qed.

Lemma filter_length_map {A : Type} (f : A -> bool) (h : A -> A) (l : list A) :
  (forall a, f (h a) = f a) ->
  length (List.filter f (map h l)) = length (List.filter f l).
Proof.
  intros Hf. induction l as [|a l IH]; [reflexivity|].
  cbn. rewrite Hf. destruct (f a); cbn; congruence.
Qed.

Lemma filter_length_impl {A : Type} (f g : A -> bool) (l : list A) :
  (forall a, f a = true -> g a = true) ->
  length (List.filter f l) <= length (List.filter g l).
Proof.
  intros Hfg. induction l as [|a l IH]; [reflexivity|].
  cbn. destruct (f a) eqn:Fa.
  - rewrite (Hfg a Fa). cbn. lia.
  - destruct (g a); cbn; lia.
Qed.



Lemma isLive_isUsed life s : isLive life s = true -> isUsed s = true.
Proof. destruct s; [reflexivity | discriminate]. Qed.

Lemma liveCount_le_occupied e : liveCount e <= occupied e.
Proof. apply filter_length_impl, isLive_isUsed. Qed.

Lemma occupied_le_length e : occupied e <= length (particles e).
Proof. apply List.filter_length_le. Qed.

Lemma isUsed_ageSlot e dt s : isUsed (ageSlot e dt s) = isUsed s.
Proof.
  destruct s as [p|]; [|reflexivity]. cbn [ageSlot].
  destruct (isLive (lifetime e) (Some p)); reflexivity.
Qed.

Lemma occupied_age e dt : occupied (AgeParticles dt e) = occupied e.
Proof. apply filter_length_map, isUsed_ageSlot. Qed.

Lemma occupied_spawn e :
  poolInv e ->
  occupied (SpawnParticle e) =
  occupied e + (if spawned e <? maxParticles e then 1 else 0).
Proof.
  intros (Hlen & Hnext & Hsome & Hnone). unfold occupied.
  cbn [SpawnParticle particles with_pool].
  destruct (Nat.ltb_spec (spawned e) (maxParticles e)) as [Hlt|Hge].
  - assert (Hn : nextSlot e = spawned e) by (rewrite Hnext; apply Nat.mod_small, Hlt).
    destruct (particles e !! nextSlot e) as [s|] eqn:Es.
    2:{ apply lookup_ge_None in Es. lia. }
    destruct s as [p|].
    { destruct (Hsome _ _ Es) as (H1 & H2 & H3).
      assert (Serial p mod maxParticles e = Serial p) by (apply Nat.mod_small; lia).
      lia. }
    pose proof (filter_length_insert isUsed _ _
                  (Some (particleAt e 0 (spawned e))) _ Es) as H.
    cbn in H. lia.
  - destruct (Nat.eq_dec (maxParticles e) 0) as [Hz|Hz].
    { destruct (particles e); [|cbn in Hlen; lia].
      rewrite list_insert_ge by (cbn; lia). cbn. lia. }
    assert (Hslot : nextSlot e < length (particles e)).
    { rewrite Hlen, Hnext. apply Nat.mod_upper_bound, Hz. }
    destruct (particles e !! nextSlot e) as [s|] eqn:Es.
    2:{ apply lookup_ge_None in Es. lia. }
    destruct s as [p|].
    2:{ specialize (Hnone _ Es). lia. }
    pose proof (filter_length_insert isUsed _ _
                  (Some (particleAt e 0 (spawned e))) _ Es) as H.
    cbn in H. lia.
Qed.

Lemma poolFull_run o dts maxP pps life ss es sc ec v p a :
  poolFull (run o dts (new maxP pps life ss es sc ec v p a)).
Proof.
  apply run_preserves.
  - intros e c H; exact H.
  - intros e (Hinv & Hocc). split; [apply poolInv_spawn, Hinv|].
    rewrite occupied_spawn by exact Hinv. rewrite Hocc.
    cbn [SpawnParticle spawned maxParticles with_pool].
    destruct (Nat.ltb_spec (spawned e) (maxParticles e)); lia.
  - intros e dt (Hinv & Hocc). split; [apply poolInv_age, Hinv|].
    rewrite occupied_age. exact Hocc.
  - split; [apply poolInv_new|].
    unfold occupied, new; cbn [particles spawned maxParticles].
    clear. induction maxP; [reflexivity|cbn; exact IHmaxP].
Qed.


(** *** Ages and attributes *)

Local Open Scope Q_scope.

Lemma attrInv_spawn e : attrInv e -> attrInv (SpawnParticle e).
Proof.
  intros H i p Hp. cbn [SpawnParticle particles with_pool] in Hp.
  apply list_lookup_insert_Some in Hp.
  destruct Hp as [(_ & Hp & _)|(_ & Hp)].
  - injection Hp as <-. reflexivity.
  - exact (H i p Hp).
Qed.

Lemma attrInv_age e dt : attrInv e -> attrInv (AgeParticles dt e).
Proof.
  intros H i p Hp. cbn [AgeParticles particles with_pool] in Hp.
  rewrite list_lookup_fmap in Hp.
  destruct (particles e !! i) as [s|] eqn:Es; [|discriminate].
  cbn in Hp. injection Hp as Hp.
  destruct s as [p0|]; [|discriminate].
  specialize (H i p0 Es). cbn [ageSlot] in Hp.
  destruct (isLive (lifetime e) (Some p0)); injection Hp as <-.
  - reflexivity.
  - exact H.
Qed.

Lemma attrInv_run o dts maxP pps life ss es sc ec v p a :
  attrInv (run o dts (new maxP pps life ss es sc ec v p a)).
Proof.
  apply run_preserves; auto using attrInv_spawn, attrInv_age.
  intros i q Hq. cbn [new particles] in Hq.
  apply lookup_replicate in Hq. destruct Hq; discriminate.
Qed.

Lemma interp_mono life a1 a2 :
  0 <= a1 -> a1 <= a2 -> a2 <= life -> interp a1 life <= interp a2 life.
Proof.
  intros H0 H12 H2. unfold interp. apply Qclamp_mono; [lra|].
  unfold Qdiv. apply Qmult_le_compat_r; [exact H12|].
  apply Qinv_le_0_compat. lra.
Qed.

Lemma interp_linear life a :
  0 < life -> 0 <= a -> a <= life -> interp a life == a / life.
Proof.
  intros Hl H0 H1. unfold interp. apply Qclamp_id.
  - apply Qle_shift_div_l; [exact Hl | lra].
  - apply Qle_shift_div_r; [exact Hl | lra].
Qed.

Lemma interp_zero life : interp 0 life = 0.
Proof.
  unfold interp, Qclamp.
  assert (H : 0 / life <= 0) by (unfold Qdiv; rewrite Qmult_0_l; apply Qle_refl).
  apply Qle_bool_iff in H. rewrite H. reflexivity.
Qed.

Lemma interp_unit life a : 0 <= interp a life <= 1.
Proof. unfold interp. apply Qclamp_bounds. lra. Qed.

End EmitterFacts.

(* ================================================================== *)
(** ** Game.cpp: initialisation *)

Lemma LoadShaders_run (loads : string -> bool) (g : Game) :
  LoadShaders loads g =
  (tt,
   set_mat2 (mkMaterial PixelShader VertexShader (woodSRV g) (sampler g))
     (set_mat1 (mkMaterial PixelShader VertexShader (rockSRV g) (sampler g))
        (withLoadedShaders loads g)),
   loadAttempts loads VertexShader ++ loadAttempts loads PixelShader
   ++ loadAttempts loads ParticleVS ++ loadAttempts loads ParticlePS
   ++ [E_SetSamplerState PixelShader "Sampler" (sampler g);
       E_SetShaderResourceView PixelShader "Rocks" (rockSRV g);
       E_SetShaderResourceView PixelShader "Wood" (woodSRV g)]).
Proof.
  unfold LoadShaders, withLoadedShaders, loadAttempts, loadedFile, LoadShaderFile,
    primaryPath, fallbackPath.
  cbv [mbind mret M_bind M_ret bind ret newShader modify call this negb].
  destruct (loads "Debug/VertexShader.cso"%string) eqn:V1;
    [|destruct (loads "VertexShader.cso"%string) eqn:V2];
    (destruct (loads "Debug/PixelShader.cso"%string) eqn:P1;
     [|destruct (loads "PixelShader.cso"%string) eqn:P2]);
    (destruct (loads "Debug/ParticleVS.cso"%string) eqn:Q1;
     [|destruct (loads "ParticleVS.cso"%string) eqn:Q2]);
    (destruct (loads "Debug/ParticlePS.cso"%string) eqn:R1;
     [|destruct (loads "ParticlePS.cso"%string) eqn:R2]);
    reflexivity.
Qed.

Lemma shader_withLoadedShaders loads g s :
  shader s (withLoadedShaders loads g) = Some (mkShader (loadedFile loads s)).
Proof. destruct s; reflexivity. Qed.

Lemma filter_loadAttempts loads s :
  List.filter isShaderLoad (loadAttempts loads s) = loadAttempts loads s.
Proof. unfold loadAttempts. destruct (loads (primaryPath s)); reflexivity. Qed.

Ltac run_game :=
  cbv -[LoadShaders loadAttempts loadedFile F32.lit F32.of_Z F64.lit F64.to_float
        Init_emitter D3D11_FLOAT32_MAX Camera.SetProjectionMat Entity.new
        Entity.SetPosition Entity.SetScale Entity.SetRotation app].

(** [Init] as a whole: its calls, and the shaders it ends with. *)
Lemma Init_run loads dev cam ini g :
  calls (Init loads dev cam ini g) =
    initBefore dev g
    ++ (loadAttempts loads VertexShader ++ loadAttempts loads PixelShader
        ++ loadAttempts loads ParticleVS ++ loadAttempts loads ParticlePS)
    ++ initAfter dev g
  /\ forall s, shader s (state (Init loads dev cam ini g))
               = Some (mkShader (loadedFile loads s)).
Proof.
  unfold Init, calls, state. run_game.
  match goal with
  | |- context [LoadShaders loads ?g0] => rewrite (LoadShaders_run loads g0)
  end.
  split.
  - unfold initBefore, initAfter, additiveBlend, depthTestNoWrite. run_game.
    rewrite <- !app_assoc. reflexivity.
  - intros s. destruct s; reflexivity.
Qed.

(** What [Init] leaves in the members the later methods depend on. *)
Lemma Init_state loads dev cam ini g :
  let g' := state (Init loads dev cam ini g) in
  width g' = width g /\ height g' = height g
  /\ emitter g' = Init_emitter
  /\ gameCamera g' = Camera.SetProjectionMat (width g) (height g) cam
  /\ particleBlendState g' = newBlendState dev
  /\ particleDepthState g' = newDepthStencilState dev.
Proof.
  unfold Init, state. run_game.
  match goal with
  | |- context [LoadShaders loads ?g0] => rewrite (LoadShaders_run loads g0)
  end.
  repeat split.
Qed.

(** *** The mouse *)

Lemma land_1_testbit (b : Z) : negb (Z.land b 1 =? 0)%Z = Z.testbit b 0.
Proof.
  change 1%Z with (Z.ones 1). rewrite Z.land_ones by lia.
  change (2 ^ 1)%Z with 2%Z. rewrite <- Z.bit0_mod.
  destruct (Z.testbit b 0); reflexivity.
Qed.

Lemma OnMouseMove_run sens b x y g :
  OnMouseMove sens b x y g =
  let dx := F32.of_Z (int_wrap (x - pt_x (prevMousePos g))) in
  let dy := F32.of_Z (int_wrap (y - pt_y (prevMousePos g))) in
  if dragged b x y (prevMousePos g)
  then (tt,
        set_prevMousePos (mkPoint x y)
          (set_gameCamera (Camera.RotateCamera sens (F32.to_Q dx) (F32.to_Q dy) (gameCamera g)) g),
        [E_RotateCamera dx dy])
  else (tt, set_prevMousePos (mkPoint x y) g, []).
Proof.
  unfold OnMouseMove, dragged. rewrite <- land_1_testbit.
  cbv [mbind mret M_bind M_ret bind ret modify call this RotateCamera].
  destruct (negb (Z.land b 1 =? 0)%Z); [|reflexivity].
  destruct (negb (x =? pt_x (prevMousePos g))%Z || negb (y =? pt_y (prevMousePos g))%Z);
    reflexivity.
Qed.


(* ================================================================== *)
(** ** The emitter's claims *)

(** C1.  Each call of update adds particlesPerSecond * deltaTime to the
    fractional spawn counter and spawns one particle for each whole unit
    the counter holds, taking 1 off each time: the number spawned is the
    integer part of the new counter, what is left is below 1 (and not
    negative unless the counter was).  For an emitter of 1000 particles at
    most, 100 per second and lifetime 5, whatever its other settings, and
    so for the emitter [Game::Init] constructs, one update of 1.0 leaves
    exactly 100 particles live and the counter at 0. *)
Theorem update_spawns_by_counter :
  forall (o : Emitter.Order) (e : Emitter.t) (dt : Q),
    let c := (Emitter.spawnCounter e + Emitter.particlesPerSecond e * dt)%Q in
    let n := Z.to_nat (Qfloor c) in
    let e' := Emitter.UpdateIn o dt e in
    (Emitter.spawned e' = Emitter.spawned e + n /\
     (Emitter.spawnCounter e' == c - inject_Z (Z.of_nat n))%Q /\
     (Emitter.spawnCounter e' < 1)%Q /\
     ((c < 0)%Q \/ (0 <= Emitter.spawnCounter e')%Q)) /\
    (forall (sSize eSize : Q) (sColor eColor : Emitter.Color)
            (vel pos acc : Emitter.Vec3),
       let e1 := Emitter.UpdateIn o 1
                   (Emitter.new 1000 100 5 sSize eSize sColor eColor vel pos acc) in
       Emitter.liveCount e1 = 100 /\ Emitter.spawned e1 = 100 /\
       (Emitter.spawnCounter e1 == 0)%Q) /\
    (forall (loads : string -> bool) (device : Device) (newCamera : Camera.t)
            (entityInitial : XMFLOAT3 * XMFLOAT3 * XMFLOAT3 * XMFLOAT4X4) (g : Game),
       let e1 := Emitter.Update 1
                   (emitter (state (Init loads device newCamera entityInitial g))) in
       Emitter.liveCount e1 = 100 /\ Emitter.spawnCounter e1 = 0%Q).
Proof.
  intros o e dt c n e'.
  split; [|split].
  - destruct (UpdateIn_counter o dt e) as (H1 & H2 & H3 & H4).
    fold c in H1, H2, H3, H4. fold n in H1, H2.
    repeat split; try assumption.
    destruct (Qlt_le_dec c 0) as [Hc|Hc]; [left; exact Hc | right; exact (H4 Hc)].
  - intros sSize eSize sColor eColor vel pos acc e1. subst e1.
    destruct o; vm_compute; repeat split.
  - intros loads dev cam ini g e1. subst e1.
    destruct (Init_state loads dev cam ini g) as (_ & _ & -> & _ & _ & _).
    vm_compute. split; reflexivity.
Qed.




(** C3.  In every state an emitter reaches, through whatever spawns and
    recyclings of its slots, the size, colour and opacity stored with a
    particle are the linear interpolations at the parameter
    clamp(age / lifetime, 0, 1) of the particle's current age; for ages
    within [0, lifetime] this parameter is non-decreasing in the age, lies
    in [0, 1], and is age / lifetime itself when the lifetime is
    positive; and a particle spawned into a slot, used before or not,
    starts at age 0 with parameter 0 and the start size. *)
Theorem interpolation_parameter_monotone :
  (forall (o : Emitter.Order) (maxP : nat) (pps life sSize eSize : Q)
          (sColor eColor : Emitter.Color) (vel pos acc : Emitter.Vec3)
          (dts : list Q) (i : nat) (p : Emitter.Particle),
     Emitter.particles
       (Emitter.run o dts
          (Emitter.new maxP pps life sSize eSize sColor eColor vel pos acc)) !! i
       = Some (Some p) ->
     let k := Qclamp (Emitter.Age p / life) 0 1 in
     Emitter.Size p = Qlerp sSize eSize k /\
     Emitter.Tint p = Emitter.lerpColor sColor eColor k /\
     Emitter.opacity (Emitter.Tint p)
       = Qlerp (Emitter.opacity sColor) (Emitter.opacity eColor) k) /\
  (forall life a1 a2 : Q,
     (0 <= a1)%Q -> (a1 <= a2)%Q -> (a2 <= life)%Q ->
     (Emitter.interp a1 life <= Emitter.interp a2 life)%Q /\
     (0 <= Emitter.interp a1 life <= 1)%Q /\
     Emitter.interp a1 life = Qclamp (a1 / life) 0 1 /\
     ((0 < life)%Q -> (Emitter.interp a1 life == a1 / life)%Q)) /\
  (forall e : Emitter.t,
     Emitter.nextSlot e < length (Emitter.particles e) ->
     exists p : Emitter.Particle,
       Emitter.particles (Emitter.SpawnParticle e) !! Emitter.nextSlot e
         = Some (Some p) /\
       Emitter.Age p = 0%Q /\
       Emitter.interp (Emitter.Age p) (Emitter.lifetime e) = 0%Q /\
       (Emitter.Size p == Emitter.startSize e)%Q).
Proof.
  split; [|split].
  - intros o maxP pps life sSize eSize sColor eColor vel pos acc dts i p Hp k.
    pose proof (attrInv_run o dts maxP pps life sSize eSize sColor eColor
                  vel pos acc i p Hp) as H.
    destruct (run_config o dts
                (Emitter.new maxP pps life sSize eSize sColor eColor vel pos acc))
      as (_ & _ & Hlife & Hss & Hes & Hsc & Hec).
    cbn in Hlife, Hss, Hes, Hsc, Hec.
    unfold Emitter.particleAt in H.
    rewrite Hlife, Hss, Hes, Hsc, Hec in H.
    fold k in H. unfold Emitter.interp in H. fold k in H.
    assert (Hsz : Emitter.Size p = Qlerp sSize eSize k) by (rewrite H; reflexivity).
    assert (Htint : Emitter.Tint p = Emitter.lerpColor sColor eColor k)
      by (rewrite H; reflexivity).
    repeat split; try assumption.
    rewrite Htint. destruct sColor as [[[? ?] ?] ?], eColor as [[[? ?] ?] ?].
    reflexivity.
  - intros life a1 a2 H0 H12 H2. repeat split.
    + apply interp_mono; assumption.
    + apply interp_unit.
    + apply interp_unit.
    + intros Hl. apply interp_linear; [exact Hl | exact H0 | lra].
  - intros e Hslot.
    exists (Emitter.particleAt e 0 (Emitter.spawned e)).
    split.
    { cbn [Emitter.SpawnParticle Emitter.particles Emitter.with_pool].
      apply list_lookup_insert_eq, Hslot. }
    split; [reflexivity|]. split; [apply interp_zero|].
    cbn [Emitter.particleAt Emitter.Size]. rewrite interp_zero.
    unfold Qlerp. ring.
Qed.

Lemma interpolation_parameter_monotone_witness :
  (Emitter.interp 1 5 <= Emitter.interp 2 5)%Q /\
  (Emitter.interp 1 5 == 1 / 5)%Q /\
  forall p : Emitter.Particle,
    Emitter.particles
      (Emitter.run Emitter.SpawnThenAge [1%Q; 1%Q]
         (Emitter.new 3 2 5 1 2 (1, 1, 1, 1)%Q (0, 0, 0, 0)%Q
                      (0, 0, 0)%Q (0, 0, 0)%Q (0, 0, 0)%Q)) !! 0%nat
      = Some (Some p) ->
    Emitter.Size p = Qlerp 1 2 (Qclamp (Emitter.Age p / 5) 0 1).
Proof.
  destruct interpolation_parameter_monotone as (Hattr & Hmono & _).
  destruct (Hmono 5%Q 1%Q 2%Q) as (H1 & _ & _ & H2);
    [vm_compute; discriminate | vm_compute; discriminate
     | vm_compute; discriminate |].
  split; [exact H1|]. split; [apply H2; reflexivity|].
  intros p Hp.
  exact (proj1 (Hattr Emitter.SpawnThenAge 3 2%Q 5%Q 1%Q 2%Q
                  (1, 1, 1, 1)%Q (0, 0, 0, 0)%Q (0, 0, 0)%Q (0, 0, 0)%Q (0, 0, 0)%Q
                  [1%Q; 1%Q] 0 p Hp)).
Defined.

(* ================================================================== *)
(** ** The camera's claims *)

Lemma RotateCamera_pitch sens dx dy c :
  (- Camera.pitchLimit <= Camera.pitch (Camera.RotateCamera sens dx dy c)
   <= Camera.pitchLimit)%Q.
Proof.
  cbn [Camera.RotateCamera Camera.pitch]. apply Qclamp_bounds.
  unfold Camera.pitchLimit. lra.
Qed.

(** C5.  After each call of any sequence of rotateCamera calls, from any
    camera and with any sensitivity, whatever the deltaY arguments are and
    add up to, the pitch accumulator is within [-89, 89] degrees; so it is
    after every [OnMouseMove] that turns the camera, and an [OnMouseMove]
    that does not leaves the camera as it was. *)
Theorem pitch_stays_clamped :
  forall (sens : Q) (calls : list (Q * Q)) (c : Camera.t)
         (buttonState x y : Z) (g : Game),
    Forall (fun c' => (- 89 <= Camera.pitch c' <= 89)%Q)
           (Camera.rotations sens calls c)
    /\ (let c' := gameCamera (state (OnMouseMove sens buttonState x y g)) in
        if dragged buttonState x y (prevMousePos g)
        then (- 89 <= Camera.pitch c' <= 89)%Q
        else c' = gameCamera g).
Proof.
  intros sens calls c b x y g. split.
  - revert c. induction calls as [|[dx dy] calls IH]; intros c.
    + constructor.
    + cbn [Camera.rotations]. constructor; [|apply IH].
      exact (RotateCamera_pitch sens dx dy c).
  - rewrite OnMouseMove_run. cbv zeta.
    destruct (dragged b x y (prevMousePos g)); [|reflexivity].
    cbn [state fst snd gameCamera set_prevMousePos set_gameCamera].
    apply RotateCamera_pitch.
Qed.

(* ================================================================== *)
(** ** Game.cpp: rendering *)

(** C4.  Every call of [Game::Draw] makes its calls in this order and no
    other: clear the render target and the depth buffer; for each of the
    three entities in turn bind its buffers, prepare its material and issue
    its indexed draw; set the particle blend state and the particle depth
    state; draw the emitter; restore the default blend and depth states;
    present.  The game itself is left as it was.  The two particle states
    are those [Init] created: additive blending, and depth testing without
    depth writes. *)
Theorem draw_steps_in_order :
  forall (sizeofVertex : Z) (deltaTime totalTime : float) (g : Game),
    calls (Draw sizeofVertex deltaTime totalTime g) =
      clearStep g
      ++ opaqueStep sizeofVertex g EntityOne
      ++ opaqueStep sizeofVertex g EntityTwo
      ++ opaqueStep sizeofVertex g EntityThree
      ++ particleStateStep g
      ++ particleDrawStep g
      ++ stateResetStep
      ++ presentStep
    /\ state (Draw sizeofVertex deltaTime totalTime g) = g
    /\ (forall (loads : string -> bool) (device : Device) (newCamera : Camera.t)
               (entityInitial : XMFLOAT3 * XMFLOAT3 * XMFLOAT3 * XMFLOAT4X4),
          let i := Init loads device newCamera entityInitial g in
          particleStateStep (state i) =
            [E_OMSetBlendState (newBlendState device) blendFactor 4294967295;
             E_OMSetDepthStencilState (newDepthStencilState device) 0]
          /\ In (E_CreateBlendState additiveBlend (newBlendState device)) (calls i)
          /\ In (E_CreateDepthStencilState depthTestNoWrite
                   (newDepthStencilState device)) (calls i)).
Proof.
  intros sv dt total g. split; [reflexivity|]. split; [reflexivity|].
  intros loads dev cam ini i. subst i.
  destruct (Init_state loads dev cam ini g) as (_ & _ & _ & _ & Hb & Hd).
  destruct (Init_run loads dev cam ini g) as (Hcalls & _).
  split.
  - unfold particleStateStep. rewrite Hb, Hd. reflexivity.
  - rewrite Hcalls. split; apply in_or_app; left; unfold initBefore; cbn [In]; auto 10.
Qed.

(* ================================================================== *)
(** ** Game.cpp: loading the shaders *)

(** C6.  For each of the four shader files, [LoadShaders] tries the path
    under Debug/ first and the bare path once, exactly when the first load
    fails.  Whatever the outcome, the method carries on: it binds the
    sampler and the textures and builds both materials, and [Init] goes on
    with the camera, the meshes and the lights to its last call.  A shader whose two loads fail is left holding no
    compiled file; nothing reports it. *)
Theorem shaders_load_primary_then_fallback :
  forall (loads : string -> bool) (g : Game),
    let r := LoadShaders loads g in
    (calls r =
       loadAttempts loads VertexShader ++ loadAttempts loads PixelShader
       ++ loadAttempts loads ParticleVS ++ loadAttempts loads ParticlePS
       ++ [E_SetSamplerState PixelShader "Sampler" (sampler g);
           E_SetShaderResourceView PixelShader "Rocks" (rockSRV g);
           E_SetShaderResourceView PixelShader "Wood" (woodSRV g)]
     /\ (forall s : ShaderRef,
           shader s (state r) = Some (mkShader (loadedFile loads s)))
     /\ mat1 (state r) = mkMaterial PixelShader VertexShader (rockSRV g) (sampler g)
     /\ mat2 (state r) = mkMaterial PixelShader VertexShader (woodSRV g) (sampler g)
     /\ result r = tt)
    /\ (forall (device : Device) (newCamera : Camera.t)
               (entityInitial : XMFLOAT3 * XMFLOAT3 * XMFLOAT3 * XMFLOAT4X4),
          let i := Init loads device newCamera entityInitial g in
          calls i =
            initBefore device g
            ++ (loadAttempts loads VertexShader ++ loadAttempts loads PixelShader
                ++ loadAttempts loads ParticleVS ++ loadAttempts loads ParticlePS)
            ++ initAfter device g
          /\ (forall s : ShaderRef,
                shader s (state i) = Some (mkShader (loadedFile loads s)))
          /\ result i = tt).
Proof.
  intros loads g r. split.
  - subst r. rewrite LoadShaders_run. unfold calls, state, result. cbn [fst snd].
    split; [reflexivity|].
    split; [intros s; destruct s; reflexivity|].
    repeat split.
  - intros dev cam ini i. subst i.
    destruct (Init_run loads dev cam ini g) as (Hcalls & Hsh).
    split; [exact Hcalls|]. split; [exact Hsh|].
    destruct (Init loads dev cam ini g) as [[[] ?] ?]. reflexivity.
Qed.

(* ================================================================== *)
(** ** Game.cpp: resizing *)

Lemma Camera_Update_projection dt mv c :
  Camera.GetProjectionMat (Camera.Update dt mv c) = Camera.GetProjectionMat c.
Proof.
  unfold Camera.Update. destruct (Camera.position c) as [[px py] pz].
  destruct mv as [[mx my] mz]. reflexivity.
Qed.

Lemma Update_state sinf dt total inp g :
  state (Update sinf dt total inp g) =
  set_gameCamera (Camera.Update (F32.to_Q dt) (cameraMove inp) (gameCamera g))
    (set_entityThree
       (Entity.FinalizeMatrix
          (Entity.SetScale
             (mkFloat3 (F32.add (sinf total) (F32.of_Z 1))
                       (F32.add (sinf total) (F32.of_Z 1))
                       (F32.add (sinf total) (F32.of_Z 1)))
             (entityThree g)))
       (set_entityTwo
          (Entity.FinalizeMatrix
             (Entity.SetPosition
                (mkFloat3 (f3x (Entity.GetPosition (entityTwo g))) (sinf total)
                          (f3z (Entity.GetPosition (entityTwo g))))
                (entityTwo g)))
          (set_entityOne
             (Entity.FinalizeMatrix
                (Entity.SetRotation
                   (mkFloat3 (f3x (Entity.GetRotation (entityOne g)))
                             (spinStep (f3y (Entity.GetRotation (entityOne g))))
                             (f3z (Entity.GetRotation (entityOne g))))
                   (entityOne g)))
             (set_emitter (Emitter.Update (F32.to_Q dt) (emitter g)) g)))).
Proof.
  unfold Update, state, GetAsyncKeyState.
  cbv [mbind mret M_bind M_ret bind ret modify call this FinalizeMatrix].
  destruct (negb (escapeKeyState inp =? 0)%Z); reflexivity.
Qed.

Lemma Update_calls sinf dt total inp g :
  calls (Update sinf dt total inp g) = updateCalls dt inp.
Proof.
  unfold Update, calls, GetAsyncKeyState, updateCalls.
  cbv [mbind mret M_bind M_ret bind ret modify call this FinalizeMatrix].
  destruct (escapeKeyState inp =? 0)%Z; reflexivity.
Qed.

Lemma doStep_projection sv sinf sens s g :
  Camera.GetProjectionMat (gameCamera (state (doStep sv sinf sens s g))) =
  Camera.GetProjectionMat (gameCamera g).
Proof.
  destruct s as [dt total inp|dt total|b x y|b x y|b x y|w x y]; cbn [doStep].
  - rewrite Update_state. cbn [gameCamera set_gameCamera]. apply Camera_Update_projection.
  - reflexivity.
  - reflexivity.
  - reflexivity.
  - rewrite OnMouseMove_run. cbv zeta.
    destruct (dragged b x y (prevMousePos g)); reflexivity.
  - reflexivity.
Qed.

Lemma doSteps_projection sv sinf sens steps : forall g,
  Camera.GetProjectionMat (gameCamera (doSteps sv sinf sens steps g)) =
  Camera.GetProjectionMat (gameCamera g).
Proof.
  induction steps as [|s steps IH]; intros g; [reflexivity|].
  cbn [doSteps fold_left]. unfold doSteps in IH. rewrite IH.
  apply doStep_projection.
Qed.

Lemma Draw_projections sv dt total g :
  projectionsUsed (calls (Draw sv dt total g)) =
  replicate 4 (Camera.GetProjectionMat (gameCamera g)).
Proof. reflexivity. Qed.

(** C7.  [OnResize] lets the base class rebuild its views and then, before
    it returns, recomputes the camera's projection from the width and
    height in force; every [Draw] that follows, whatever updates and mouse
    events come in between, hands that projection to the three materials
    and to the emitter.  The game starts at 1280x720 with a projection of
    aspect ratio 1280/720; when its window is resized to 800x600 the
    aspect ratio is 800/600 from the next [Draw] on. *)
Theorem resize_recomputes_projection :
  forall (sizeofVertex : Z) (sinf : float -> float) (sens : Q)
         (g : Game) (views : Handle * Handle) (steps : list Step)
         (deltaTime totalTime : float),
    let r := OnResize views g in
    calls r = [E_DXCoreOnResize (width g) (height g);
               E_SetProjectionMat (width g) (height g)]
    /\ Camera.GetProjectionMat (gameCamera (state r))
       = MatPerspective (aspectRatio (width g) (height g))
    /\ projectionsUsed
         (calls (Draw sizeofVertex deltaTime totalTime
                   (doSteps sizeofVertex sinf sens steps (state r))))
       = replicate 4 (MatPerspective (aspectRatio (width g) (height g)))
    /\ (forall (loads : string -> bool) (device : Device) (newCamera : Camera.t)
               (entityInitial : XMFLOAT3 * XMFLOAT3 * XMFLOAT3 * XMFLOAT4X4)
               (raw : Game),
          let g0 := state (Init loads device newCamera entityInitial (Game_ctor raw)) in
          let g1 := state (windowResized 800 600 views g0) in
          (width g0, height g0) = (1280%N, 720%N)
          /\ Camera.GetProjectionMat (gameCamera g0)
             = MatPerspective (inject_Z 1280 / inject_Z 720)%Q
          /\ Camera.GetProjectionMat (gameCamera g1)
             = MatPerspective (inject_Z 800 / inject_Z 600)%Q
          /\ projectionsUsed
               (calls (Draw sizeofVertex deltaTime totalTime
                         (doSteps sizeofVertex sinf sens steps g1)))
             = replicate 4 (MatPerspective (inject_Z 800 / inject_Z 600)%Q)).
Proof.
  intros sv sinf sens g views steps dt total r.
  assert (H2 : Camera.GetProjectionMat (gameCamera (state r))
               = MatPerspective (aspectRatio (width g) (height g))) by reflexivity.
  split; [reflexivity|]. split; [exact H2|]. split.
  - rewrite Draw_projections, doSteps_projection, H2. reflexivity.
  - intros loads dev cam ini raw g0 g1.
    destruct (Init_state loads dev cam ini (Game_ctor raw)) as (Hw & Hh & _ & Hcam & _ & _).
    fold g0 in Hw, Hh, Hcam.
    assert (H1 : Camera.GetProjectionMat (gameCamera g1)
                 = MatPerspective (inject_Z 800 / inject_Z 600)%Q) by reflexivity.
    split; [rewrite Hw, Hh; reflexivity|].
    split; [rewrite Hcam; reflexivity|].
    split; [exact H1|].
    rewrite Draw_projections, doSteps_projection, H1. reflexivity.
Qed.

(* ================================================================== *)
(** ** Game.cpp: the frame *)

Lemma quitRequested_updateCalls dt inp :
  quitRequested (updateCalls dt inp) = negb (escapeKeyState inp =? 0)%Z.
Proof.
  unfold updateCalls. destruct (escapeKeyState inp =? 0)%Z; reflexivity.
Qed.

Lemma pump_quit_is_last sv sinf frames : forall g l1 made l2,
  fst (fst (pump sv sinf frames g)) = l1 ++ UpdateCall made :: l2 ->
  quitRequested made = true -> l2 = [].
Proof.
  induction frames as [|f frames IH]; intros g l1 made l2 Hlog Hq.
  - cbn in Hlog. destruct l1; discriminate.
  - cbn [pump] in Hlog.
    destruct (Update sinf (frameDeltaTime f) (frameTotalTime f) (frameInput f) g)
      as [[u g1] made1] eqn:EU.
    destruct (quitRequested made1) eqn:Q1.
    + cbn in Hlog. destruct l1 as [|c l1].
      * injection Hlog as _ Hl2. congruence.
      * injection Hlog as _ Hl. destruct l1; discriminate.
    + destruct (Draw sv (frameDeltaTime f) (frameTotalTime f) g1)
        as [[d g2] made2] eqn:ED.
      destruct (pump sv sinf frames g2) as [[log g3] ph] eqn:EP.
      cbn in Hlog.
      destruct l1 as [|c1 l1].
      { injection Hlog as Hm _. congruence. }
      injection Hlog as _ Hlog.
      destruct l1 as [|c2 l1]; [discriminate|].
      injection Hlog as _ Hlog.
      apply (IH g2 l1 made l2); [rewrite EP; exact Hlog | exact Hq].
Qed.

Lemma pump_phase sv sinf frames : forall g,
  snd (pump sv sinf frames g) =
  if existsb (fun c => match c with
                       | UpdateCall made => quitRequested made
                       | DrawCall _ => false
                       end) (fst (fst (pump sv sinf frames g)))
  then ShuttingDown else Running.
Proof.
  induction frames as [|f frames IH]; intros g; [reflexivity|].
  cbn [pump].
  destruct (Update sinf (frameDeltaTime f) (frameTotalTime f) (frameInput f) g)
    as [[u g1] made1] eqn:EU.
  destruct (quitRequested made1) eqn:Q1.
  - cbn. rewrite Q1. reflexivity.
  - destruct (Draw sv (frameDeltaTime f) (frameTotalTime f) g1)
      as [[d g2] made2] eqn:ED.
    specialize (IH g2).
    destruct (pump sv sinf frames g2) as [[log g3] ph] eqn:EP.
    cbn in IH |- *. rewrite Q1. exact IH.
Qed.

Lemma pump_no_quit sv sinf frames : forall g,
  Forall (fun f => escapeKeyState (frameInput f) = 0%Z) frames ->
  map isDrawCall (fst (fst (pump sv sinf frames g)))
  = flat_map (fun _ => [false; true]) frames.
Proof.
  induction frames as [|f frames IH]; intros g Hall; [reflexivity|].
  inversion Hall as [|? ? Hf Hrest]; subst.
  cbn [pump].
  destruct (Update sinf (frameDeltaTime f) (frameTotalTime f) (frameInput f) g)
    as [[u g1] made1] eqn:EU.
  assert (Hm : made1 = updateCalls (frameDeltaTime f) (frameInput f)).
  { pose proof (Update_calls sinf (frameDeltaTime f) (frameTotalTime f)
                  (frameInput f) g) as H.
    rewrite EU in H. exact H. }
  rewrite Hm, quitRequested_updateCalls, Hf. cbn [Z.eqb negb].
  destruct (Draw sv (frameDeltaTime f) (frameTotalTime f) g1)
    as [[d g2] made2] eqn:ED.
  specialize (IH g2 Hrest).
  destruct (pump sv sinf frames g2) as [[log g3] ph] eqn:EP.
  cbn in IH |- *. rewrite IH. reflexivity.
Qed.

(** C8.  [Update] polls the escape key once, as its last step but one, and
    requests Quit exactly when the key state is not zero; the request is
    then its last call.  The pump that drives the frames calls Update then
    Draw for as long as no Update has requested Quit, and issues no call
    at all, so no Draw, after the Update that did. *)
Theorem escape_requests_quit :
  forall (sizeofVertex : Z) (sinf : float -> float)
         (deltaTime totalTime : float) (inp : Input) (g : Game)
         (frames : list Frame),
    let made := calls (Update sinf deltaTime totalTime inp g) in
    made = updateCalls deltaTime inp
    /\ length (List.filter isKeyPoll made) = 1
    /\ quitRequested made = negb (escapeKeyState inp =? 0)%Z
    /\ (forall l1 quitting l2,
          fst (fst (pump sizeofVertex sinf frames g)) = l1 ++ UpdateCall quitting :: l2 ->
          quitRequested quitting = true ->
          l2 = [] /\ snd (pump sizeofVertex sinf frames g) = ShuttingDown)
    /\ (Forall (fun f => escapeKeyState (frameInput f) = 0%Z) frames ->
        map isDrawCall (fst (fst (pump sizeofVertex sinf frames g)))
        = flat_map (fun _ => [false; true]) frames).
Proof.
  intros sv sinf dt total inp g frames made.
  assert (Hm : made = updateCalls dt inp) by apply Update_calls.
  split; [exact Hm|]. split.
  { rewrite Hm. unfold updateCalls.
    destruct (escapeKeyState inp =? 0)%Z; reflexivity. }
  split; [rewrite Hm; apply quitRequested_updateCalls|]. split.
  - intros l1 quitting l2 Hlog Hq. split.
    + exact (pump_quit_is_last sv sinf frames g l1 quitting l2 Hlog Hq).
    + rewrite pump_phase, Hlog, existsb_app. cbn [existsb]. rewrite Hq.
      rewrite orb_true_r. reflexivity.
  - apply pump_no_quit.
Qed.

Lemma escape_requests_quit_witness :
  let frames := [mkFrame (F32.lit 1 60) (F32.lit 1 60) (sampleInput 0);
                 mkFrame (F32.lit 1 60) (F32.lit 2 60) (sampleInput (-32768));
                 mkFrame (F32.lit 1 60) (F32.lit 3 60) (sampleInput 0)] in
  map isDrawCall (fst (fst (pump 32 sampleSin frames (sampleGame (F32.of_Z 0)))))
    = [false; true; false]
  /\ snd (pump 32 sampleSin frames (sampleGame (F32.of_Z 0))) = ShuttingDown
  /\ map isDrawCall
       (fst (fst (pump 32 sampleSin [mkFrame (F32.lit 1 60) (F32.lit 1 60) (sampleInput 0)]
                       (sampleGame (F32.of_Z 0)))))
     = [false; true].
Proof.
  intros frames.
  destruct (escape_requests_quit 32 sampleSin (F32.lit 1 60) (F32.lit 1 60)
              (sampleInput 0) (sampleGame (F32.of_Z 0)) frames)
    as (_ & _ & _ & Hlast & _).
  destruct (escape_requests_quit 32 sampleSin (F32.lit 1 60) (F32.lit 1 60)
              (sampleInput 0) (sampleGame (F32.of_Z 0))
              [mkFrame (F32.lit 1 60) (F32.lit 1 60) (sampleInput 0)])
    as (_ & _ & _ & _ & Hrun).
  split; [vm_compute; reflexivity|]. split.
  - refine (proj2 (Hlast [UpdateCall (updateCalls (F32.lit 1 60) (sampleInput 0));
                          DrawCall _]
                         (updateCalls (F32.lit 1 60) (sampleInput (-32768))) [] _ _)).
    + vm_compute. reflexivity.
    + vm_compute. reflexivity.
  - apply Hrun. repeat constructor.
Defined.

(* ================================================================== *)
(** ** Game.cpp: the sphere's rotation *)

(** C9 as stated fails.  The sum is a [double] stored back into a [float].
    From an angle of 0 the stored angle is 13743895 * 2^-37, which is not
    0.0001; from an angle of 2048 the stored angle is 2048 again, because
    neighbouring [float]s are 2^-12 apart there: the rotation has stopped
    advancing. *)
Lemma rotation_step_is_not_exact :
  rotationAfterUpdate (F32.of_Z 0) = S754_finite false 13743895 (-37)
  /\ ~ (F32.to_Q (rotationAfterUpdate (F32.of_Z 0))
        == F32.to_Q (F32.of_Z 0) + (1 # 10000))%Q
  /\ rotationAfterUpdate (F32.of_Z 2048) = F32.of_Z 2048
  /\ ~ (F32.to_Q (rotationAfterUpdate (F32.of_Z 2048))
        == F32.to_Q (F32.of_Z 2048) + (1 # 10000))%Q.
Proof.
  unfold rotationAfterUpdate. rewrite !Update_state.
  split; [vm_compute; reflexivity|].
  split; [vm_compute; discriminate|].
  split; [vm_compute; reflexivity|].
  vm_compute; discriminate.
Qed.

(** C9, amended.  Every call of [Update], whatever deltaTime and totalTime
    are, replaces entityOne's y rotation [y] by the [float] nearest to the
    [double] sum [y + 0.0001], leaves the x and z rotations alone, and
    finalizes the entity with the new rotation: the angle advances per
    frame, by the same computation each frame, not per unit of time.  The
    step is 0.0001 only up to rounding: from 0 the angle becomes
    13743895 * 2^-37, and from 2048 it stays 2048. *)
Theorem rotation_advances_per_frame :
  forall (sinf : float -> float) (deltaTime totalTime : float) (inp : Input)
         (g : Game),
    let e := entityOne g in
    let e' := entityOne (state (Update sinf deltaTime totalTime inp g)) in
    Entity.GetRotation e' =
      mkFloat3 (f3x (Entity.GetRotation e))
               (spinStep (f3y (Entity.GetRotation e)))
               (f3z (Entity.GetRotation e))
    /\ (forall y : float,
          spinStep y = F64.to_float (F64.add (F64.of_float y) (F64.lit 1 10000)))
    /\ Entity.GetWorldMatrix e' =
         MatWorld (Entity.GetPosition e) (Entity.GetRotation e') (Entity.GetScale e)
    /\ F64.lit 1 10000 = S754_finite false 7378697629483821 (-66)
    /\ spinStep (F32.of_Z 0) = S754_finite false 13743895 (-37)
    /\ spinStep (F32.of_Z 2048) = F32.of_Z 2048
    /\ (forall (sinf2 : float -> float) (deltaTime2 totalTime2 : float) (inp2 : Input),
          Entity.GetRotation
            (entityOne (state (Update sinf2 deltaTime2 totalTime2 inp2 g)))
          = Entity.GetRotation e').
Proof.
  intros sinf dt total inp g e e'. subst e e'.
  rewrite Update_state.
  split; [reflexivity|]. split; [reflexivity|]. split; [reflexivity|].
  split; [vm_compute; reflexivity|].
  split; [vm_compute; reflexivity|].
  split; [vm_compute; reflexivity|].
  intros sinf2 dt2 total2 inp2. rewrite Update_state. reflexivity.
Qed.

(* ================================================================== *)
(** ** Game.cpp: the mouse *)

Lemma int_wrap_small (z : Z) : (- 2 ^ 31 <= z < 2 ^ 31)%Z -> int_wrap z = z.
Proof.
  intros H. unfold int_wrap. rewrite Z.mod_small; lia.
Qed.

(** C10.  Every call of [OnMouseMove] ends with (x, y) stored in
    prevMousePos, whatever the button state.  It calls the camera's
    RotateCamera, once, exactly when bit 0 of buttonState is set and (x, y)
    is not the stored position; the arguments are the [int] differences
    x - prevMousePos.x and y - prevMousePos.y converted to [float], and the
    differences are the mathematical ones whenever they fit an [int]. *)
Theorem mouse_move_rotates_when_dragged :
  forall (sens : Q) (buttonState x y : Z) (g : Game),
    let r := OnMouseMove sens buttonState x y g in
    let prev := prevMousePos g in
    let deltaX := F32.of_Z (int_wrap (x - pt_x prev)) in
    let deltaY := F32.of_Z (int_wrap (y - pt_y prev)) in
    let moved := negb (x =? pt_x prev)%Z || negb (y =? pt_y prev)%Z in
    prevMousePos (state r) = mkPoint x y
    /\ calls r = (if Z.testbit buttonState 0 && moved
                  then [E_RotateCamera deltaX deltaY] else [])
    /\ gameCamera (state r) =
         (if Z.testbit buttonState 0 && moved
          then Camera.RotateCamera sens (F32.to_Q deltaX) (F32.to_Q deltaY) (gameCamera g)
          else gameCamera g)
    /\ ((- 2 ^ 31 <= x - pt_x prev < 2 ^ 31)%Z ->
        (- 2 ^ 31 <= y - pt_y prev < 2 ^ 31)%Z ->
        deltaX = F32.of_Z (x - pt_x prev) /\ deltaY = F32.of_Z (y - pt_y prev)).
Proof.
  intros sens b x y g r prev deltaX deltaY moved.
  subst r. rewrite OnMouseMove_run. cbv zeta.
  fold prev. unfold dragged. fold moved.
  split; [destruct (Z.testbit b 0 && moved); reflexivity|].
  split; [destruct (Z.testbit b 0 && moved); reflexivity|].
  split; [destruct (Z.testbit b 0 && moved); reflexivity|].
  intros Hx Hy. subst deltaX deltaY.
  rewrite !int_wrap_small by assumption. split; reflexivity.
Qed.

Lemma mouse_move_rotates_when_dragged_witness :
  calls (OnMouseMove (1 # 4) 1 110 95 (sampleGame (F32.of_Z 0)))
    = [E_RotateCamera (F32.of_Z 110) (F32.of_Z 95)]
  /\ calls (OnMouseMove (1 # 4) 2 110 95 (sampleGame (F32.of_Z 0))) = []
  /\ prevMousePos (state (OnMouseMove (1 # 4) 2 110 95 (sampleGame (F32.of_Z 0))))
     = mkPoint 110 95.
Proof.
  destruct (mouse_move_rotates_when_dragged (1 # 4) 1 110 95 (sampleGame (F32.of_Z 0)))
    as (_ & H1 & _ & H2).
  destruct (mouse_move_rotates_when_dragged (1 # 4) 2 110 95 (sampleGame (F32.of_Z 0)))
    as (H3 & H4 & _).
  cbv zeta in H1, H2, H3, H4.
  destruct H2 as (Hx & Hy); [vm_compute; split; [discriminate | reflexivity] ..|].
  split; [|split; [exact H4 | exact H3]].
  rewrite H1, Hx, Hy. reflexivity.
Defined.

(* ================================================================== *)
(** * Further properties of Game.cpp *)

(** ** Integers converted to [float] *)

Lemma digits2_pos_size p : digits2_pos p = Pos.size p.
Proof. induction p; simpl; congruence. Qed.

Lemma digits2_pos_bound p : (Zpos p < 2 ^ 24)%Z -> (Zpos (digits2_pos p) <= 24)%Z.
Proof.
  intros H. rewrite digits2_pos_size.
  pose proof (Pos.size_le p) as Hle.
  destruct (Z_le_gt_dec (Zpos (Pos.size p)) 24) as [?|Hgt]; [assumption|exfalso].
  assert (H25 : (2 ^ 25 <= 2 ^ Zpos (Pos.size p))%Z) by (apply Z.pow_le_mono_r; lia).
  assert (Hp : (Zpos (2 ^ Pos.size p) <= Zpos p~0)%Z) by exact Hle.
  rewrite Pos2Z.inj_pow in Hp. change (Zpos 2) with 2%Z in Hp.
  rewrite Pos2Z.inj_xO in Hp. lia.
Qed.

Lemma iter_xO_digits (m k : positive) :
  digits2_pos (Pos.iter xO m k) = (digits2_pos m + k)%positive.
Proof.
  induction k as [|k IH] using Pos.peano_ind.
  - cbn. lia.
  - rewrite Pos.iter_succ. cbn [digits2_pos]. rewrite IH. lia.
Qed.

Lemma iter_xO_value (m k : positive) :
  Zpos (Pos.iter xO m k) = (Zpos m * Zpos (2 ^ k))%Z.
Proof.
  induction k as [|k IH] using Pos.peano_ind.
  - cbn. lia.
  - rewrite Pos.iter_succ, Pos2Z.inj_xO, IH, Pos.pow_succ_r. lia.
Qed.

(** A mantissa of full width at an exponent in range is stored as it is. *)
Lemma round_aux_exact (s : bool) (m : positive) (e : Z) :
  Zpos (digits2_pos m) = 24%Z -> (-149 <= e <= 104)%Z ->
  binary_round_aux 24 128 s (Zpos m) e loc_Exact = S754_finite s m e.
Proof.
  intros Hd He.
  assert (Hf : forall mm, Zdigits2 mm = 24%Z ->
             shr_fexp 24 128 mm e loc_Exact = (Build_shr_record mm false false, e)).
  { intros mm Hmm. unfold shr_fexp, fexp, emin. rewrite Hmm.
    replace (Z.max (24 + e - 24) (3 - 128 - 24) - e)%Z with 0%Z by lia.
    reflexivity. }
  unfold binary_round_aux.
  rewrite (Hf (Zpos m) Hd). cbn [shr_m loc_of_shr_record round_nearest_even].
  rewrite (Hf (Zpos m) Hd). cbn [shr_m].
  destruct (Z.leb_spec e (128 - 24)); [reflexivity | lia].
Qed.

Lemma round_exact (s : bool) (p : positive) :
  (Zpos p < 2 ^ 24)%Z ->
  (SF2Q (binary_round 24 128 s p 0)
   == if s then - inject_Z (Zpos p) else inject_Z (Zpos p))%Q.
Proof.
  intros H. apply digits2_pos_bound in H.
  unfold binary_round, shl_align, fexp, emin.
  set (d := digits2_pos p) in *.
  replace (Z.max (Zpos d + 0 - 24) (3 - 128 - 24) - 0)%Z with (Zpos d - 24)%Z by lia.
  replace (Z.max (Zpos d + 0 - 24) (3 - 128 - 24))%Z with (Zpos d - 24)%Z by lia.
  destruct (Zpos d - 24)%Z as [|k|k] eqn:Ek; [|lia|].
  - rewrite round_aux_exact by (fold d; lia). cbn [SF2Q]. destruct s; reflexivity.
  - rewrite round_aux_exact.
    + cbn [SF2Q].
      assert (Hv : (Qmake (Zpos (Pos.iter xO p k)) (2 ^ k) == inject_Z (Zpos p))%Q).
      { unfold Qeq. cbn [Qnum Qden inject_Z]. rewrite iter_xO_value. lia. }
      destruct s; rewrite Hv; reflexivity.
    + rewrite iter_xO_digits. fold d. lia.
    + lia.
Qed.

(** An integer below 2^24 in magnitude converts to [float] without
    rounding. *)
Lemma F32_of_Z_exact (z : Z) :
  (- 2 ^ 24 < z < 2 ^ 24)%Z -> (F32.to_Q (F32.of_Z z) == inject_Z z)%Q.
Proof.
  intros H. unfold F32.to_Q, F32.of_Z, F32.prec, F32.emax, binary_normalize.
  destruct z as [|p|p].
  - reflexivity.
  - rewrite round_exact by lia. reflexivity.
  - rewrite round_exact by lia. reflexivity.
Qed.

(** ** Sequencing *)

Lemma bind_run {A B : Type} (m : M A) (k : A -> M B) (g : Game) :
  calls ((m ≫= k) g) = calls (m g) ++ calls (k (result (m g)) (state (m g)))
  /\ state ((m ≫= k) g) = state (k (result (m g)) (state (m g))).
Proof.
  unfold mbind, M_bind, bind, calls, state, result.
  destruct (m g) as [[a g1] t1]. cbn [fst snd].
  destruct (k a g1) as [[b g2] t2]. split; reflexivity.
Qed.

(** ** The mouse: deltas and drags *)

Lemma rotationDeltas_app (l1 l2 : list Event) :
  rotationDeltas (l1 ++ l2) = rotationDeltas l1 ++ rotationDeltas l2.
Proof. apply flat_map_app. Qed.

Lemma totalDeltaX_app (l1 l2 : list Event) :
  (totalDeltaX (l1 ++ l2) == totalDeltaX l1 + totalDeltaX l2)%Q.
Proof.
  unfold totalDeltaX. rewrite rotationDeltas_app.
  induction (rotationDeltas l1) as [|d ds IH]; cbn [fold_right app].
  - lra.
  - rewrite IH. lra.
Qed.

Lemma totalDeltaY_app (l1 l2 : list Event) :
  (totalDeltaY (l1 ++ l2) == totalDeltaY l1 + totalDeltaY l2)%Q.
Proof.
  unfold totalDeltaY. rewrite rotationDeltas_app.
  induction (rotationDeltas l1) as [|d ds IH]; cbn [fold_right app].
  - lra.
  - rewrite IH. lra.
Qed.

(** One [OnMouseMove] with the left button down, between two nearby
    positions: the deltas it passes add up to the displacement. *)
Lemma OnMouseMove_total sens b x y g :
  Z.testbit b 0 = true ->
  nearby (pt_x (prevMousePos g)) (pt_y (prevMousePos g)) -> nearby x y ->
  (totalDeltaX (calls (OnMouseMove sens b x y g))
   == inject_Z (x - pt_x (prevMousePos g)))%Q
  /\ (totalDeltaY (calls (OnMouseMove sens b x y g))
      == inject_Z (y - pt_y (prevMousePos g)))%Q
  /\ prevMousePos (state (OnMouseMove sens b x y g)) = mkPoint x y.
Proof.
  intros Hb [Hpx Hpy] [Hx Hy].
  rewrite OnMouseMove_run. cbv zeta. unfold dragged. rewrite Hb. cbn [andb].
  destruct (negb (x =? pt_x (prevMousePos g))%Z || negb (y =? pt_y (prevMousePos g))%Z)
    eqn:Emoved.
  - unfold totalDeltaX, totalDeltaY, calls. cbn [snd rotationDeltas flat_map app fold_right fst].
    rewrite !int_wrap_small by lia.
    pose proof (F32_of_Z_exact (x - pt_x (prevMousePos g))) as Ex.
    pose proof (F32_of_Z_exact (y - pt_y (prevMousePos g))) as Ey.
    split; [rewrite Ex by lia; lra|]. split; [rewrite Ey by lia; lra|].
    reflexivity.
  - apply orb_false_elim in Emoved. destruct Emoved as [Ex Ey].
    apply negb_false_iff in Ex, Ey. apply Z.eqb_eq in Ex, Ey.
    rewrite <- Ex, <- Ey, !Z.sub_diag.
    unfold totalDeltaX, totalDeltaY, calls. cbn. repeat split; reflexivity.
Qed.

(** The deltas [OnMouseMove] hands to the camera are exact: when the left
    button is down and the pointer has moved by less than 2^24 in each
    direction, the one [RotateCamera] call carries the two integer
    differences themselves, not roundings of them.  The bound is sharp:
    2^24 + 1 converts to the same [float] as 2^24. *)
Theorem mouse_deltas_are_exact :
  forall (sens : Q) (buttonState x y : Z) (g : Game),
    Z.testbit buttonState 0 = true ->
    mkPoint x y <> prevMousePos g ->
    (- 2 ^ 24 < x - pt_x (prevMousePos g) < 2 ^ 24)%Z ->
    (- 2 ^ 24 < y - pt_y (prevMousePos g) < 2 ^ 24)%Z ->
    (exists deltaX deltaY : float,
       calls (OnMouseMove sens buttonState x y g) = [E_RotateCamera deltaX deltaY]
       /\ (F32.to_Q deltaX == inject_Z (x - pt_x (prevMousePos g)))%Q
       /\ (F32.to_Q deltaY == inject_Z (y - pt_y (prevMousePos g)))%Q)
    /\ F32.of_Z (2 ^ 24 + 1) = F32.of_Z (2 ^ 24).
Proof.
  intros sens b x y g Hb Hmoved Hx Hy. split; [|vm_compute; reflexivity].
  rewrite OnMouseMove_run. cbv zeta. unfold dragged. rewrite Hb. cbn [andb].
  destruct (negb (x =? pt_x (prevMousePos g))%Z || negb (y =? pt_y (prevMousePos g))%Z)
    eqn:Emoved.
  - eexists; eexists. split; [reflexivity|].
    rewrite !int_wrap_small by lia.
    split; apply F32_of_Z_exact; assumption.
  - exfalso. apply Hmoved.
    apply orb_false_elim in Emoved. destruct Emoved as [Ex Ey].
    apply negb_false_iff in Ex, Ey. apply Z.eqb_eq in Ex, Ey.
    destruct (prevMousePos g) as [px py]. cbn in Ex, Ey. congruence.
Qed.

Lemma mouse_deltas_are_exact_witness :
  exists deltaX deltaY : float,
    calls (OnMouseMove (1 # 4) 1 110 95 (sampleGame (F32.of_Z 0)))
      = [E_RotateCamera deltaX deltaY]
    /\ (F32.to_Q deltaX == 110)%Q /\ (F32.to_Q deltaY == 95)%Q.
Proof.
  refine (proj1 (mouse_deltas_are_exact (1 # 4) 1 110 95 (sampleGame (F32.of_Z 0))
                   _ _ _ _)).
  - reflexivity.
  - vm_compute. discriminate.
  - vm_compute. split; reflexivity.
  - vm_compute. split; reflexivity.
Defined.

(** A drag adds up.  Over any sequence of [OnMouseMove] events with the
    left button down, between positions below 2^23 in magnitude, the
    deltas passed to [RotateCamera] sum, exactly, to the displacement from
    the position stored before the drag to the last position; moves that
    stay in place pass nothing. *)
Theorem drag_adds_up :
  forall (sens : Q) (moves : list (Z * Z * Z)) (g : Game),
    nearby (pt_x (prevMousePos g)) (pt_y (prevMousePos g)) ->
    Forall (fun m => Z.testbit (fst (fst m)) 0 = true /\ nearby (snd (fst m)) (snd m))
           moves ->
    let r := mouseMoves sens moves g in
    (totalDeltaX (calls r)
     == inject_Z (pt_x (prevMousePos (state r)) - pt_x (prevMousePos g)))%Q
    /\ (totalDeltaY (calls r)
        == inject_Z (pt_y (prevMousePos (state r)) - pt_y (prevMousePos g)))%Q
    /\ prevMousePos (state r) = match last moves with
                                | Some m => mkPoint (snd (fst m)) (snd m)
                                | None => prevMousePos g
                                end.
Proof.
  intros sens moves.
  induction moves as [|[[b x] y] rest IH]; intros g Hprev Hall r; subst r.
  - cbn. rewrite !Z.sub_diag. repeat split; reflexivity.
  - inversion Hall as [|? ? [Hb Hxy] Hrest]; subst. cbn [fst snd] in Hb, Hxy.
    cbn [mouseMoves].
    destruct (bind_run (OnMouseMove sens b x y) (fun _ => mouseMoves sens rest) g)
      as (Hc & Hs).
    rewrite Hc, Hs. clear Hc Hs.
    destruct (OnMouseMove_total sens b x y g Hb Hprev Hxy) as (Hx & Hy & Hp).
    set (g1 := state (OnMouseMove sens b x y g)) in *.
    assert (Hprev1 : nearby (pt_x (prevMousePos g1)) (pt_y (prevMousePos g1)))
      by (rewrite Hp; exact Hxy).
    destruct (IH g1 Hprev1 Hrest) as (Ix & Iy & Ip).
    set (r := mouseMoves sens rest g1) in *.
    split; [|split].
    + rewrite totalDeltaX_app, Hx, Ix, Hp. cbn [pt_x].
      rewrite <- inject_Z_plus. apply inject_Z_injective. lia.
    + rewrite totalDeltaY_app, Hy, Iy, Hp. cbn [pt_y].
      rewrite <- inject_Z_plus. apply inject_Z_injective. lia.
    + rewrite Ip, Hp. destruct rest as [|m rest']; [reflexivity|].
      change (last ((b, x, y) :: m :: rest')) with (last (m :: rest')).
      destruct (last (m :: rest')) eqn:El; [reflexivity|].
      apply last_None in El. discriminate.
Qed.

Lemma drag_adds_up_witness :
  let r := mouseMoves (1 # 4) [(1, 10, 0); (1, 10, 0); (1, 4, 7); (1, 30, -2)]%Z
             (sampleGame (F32.of_Z 0)) in
  (totalDeltaX (calls r) == 30)%Q /\ (totalDeltaY (calls r) == -2)%Q
  /\ length (rotationDeltas (calls r)) = 3.
Proof.
  intros r.
  destruct (drag_adds_up (1 # 4) [(1, 10, 0); (1, 10, 0); (1, 4, 7); (1, 30, -2)]%Z
              (sampleGame (F32.of_Z 0))) as (Hx & Hy & Hp).
  - vm_compute. repeat split; reflexivity.
  - repeat constructor; vm_compute; reflexivity.
  - fold r in Hx, Hy, Hp. rewrite Hp in Hx, Hy.
    split; [exact Hx|]. split; [exact Hy|]. vm_compute. reflexivity.
Defined.

(** ** After [Init] *)

Ltac run_init loads :=
  unfold Init, state, calls; run_game;
  repeat match goal with
         | |- context [LoadShaders loads ?g0] => rewrite (LoadShaders_run loads g0)
         end.

(** The entities [Init] leaves: mesh, material and transform of each. *)
Lemma Init_entities loads dev cam ini g :
  let g' := state (Init loads dev cam ini g) in
  let rock := mkMaterial PixelShader VertexShader
                (loadTexture dev "Debug/Assets/Textures/MossRock.tif")
                (newSamplerState dev) in
  let wood := mkMaterial PixelShader VertexShader
                (loadTexture dev "Debug/Assets/Textures/TreeBark.tif")
                (newSamplerState dev) in
  entityOne g' =
    Entity.SetScale (mkFloat3 (F32.lit 1 1) (F32.lit 1 1) (F32.lit 1 1))
      (Entity.SetPosition (mkFloat3 (F32.lit 15 10) (F32.lit 0 1) (F32.lit 0 1))
         (Entity.new (loadMesh dev "Debug/Assets/Models/sphere.obj") wood ini))
  /\ entityTwo g' =
    Entity.SetScale (mkFloat3 (F32.lit 15 10) (F32.lit 15 10) (F32.lit 1 1))
      (Entity.SetPosition (mkFloat3 (F32.lit (-15) 10) (F32.lit 0 1) (F32.lit 0 1))
         (Entity.new (loadMesh dev "Debug/Assets/Models/cube.obj") rock ini))
  /\ entityThree g' =
    Entity.SetRotation (mkFloat3 (F32.lit 0 1) (F32.lit 0 1) (F32.lit 1 1))
      (Entity.SetPosition (mkFloat3 (F32.lit 0 1) (F32.lit (-15) 10) (F32.lit 0 1))
         (Entity.new (loadMesh dev "Debug/Assets/Models/helix.obj") rock ini)).
Proof.
  run_init loads. repeat split.
Qed.

(** The members [Init] does not assign. *)
Lemma Init_untouched loads dev cam ini g :
  let g' := state (Init loads dev cam ini g) in
  particleTexture g' = particleTexture g /\ prevMousePos g' = prevMousePos g
  /\ backBufferRTV g' = backBufferRTV g /\ depthStencilView g' = depthStencilView g.
Proof.
  run_init loads. repeat split.
Qed.

Lemma filter_isNewEmitter_loadAttempts loads s :
  List.filter isNewEmitter (loadAttempts loads s) = [].
Proof. unfold loadAttempts. destruct (loads (primaryPath s)); reflexivity. Qed.

(** The emitter is built too early.  [Init] constructs the emitter before
    any shader file is loaded, handing it the particle shader pointers and
    the particle texture as they are when [Init] starts; the particle
    shaders [LoadShaders] creates afterwards never reach it, no second
    emitter is made, and [Init] never assigns the particle texture.  After
    the constructor these three are whatever the object's memory held. *)
Theorem emitter_is_built_before_the_shaders :
  forall (loads : string -> bool) (device : Device) (newCamera : Camera.t)
         (entityInitial : XMFLOAT3 * XMFLOAT3 * XMFLOAT3 * XMFLOAT4X4) (raw : Game),
    let i := Init loads device newCamera entityInitial (Game_ctor raw) in
    (exists before after,
       calls i = before
                 ++ E_NewEmitter (particleVS raw) (particlePS raw) (particleTexture raw)
                 :: after
       /\ List.filter isShaderLoad before = []
       /\ List.filter isNewEmitter after = []
       /\ List.filter isShaderLoad after =
            loadAttempts loads VertexShader ++ loadAttempts loads PixelShader
            ++ loadAttempts loads ParticleVS ++ loadAttempts loads ParticlePS)
    /\ particleVS (state i) = Some (mkShader (loadedFile loads ParticleVS))
    /\ particlePS (state i) = Some (mkShader (loadedFile loads ParticlePS))
    /\ particleTexture (state i) = particleTexture raw.
Proof.
  intros loads dev cam ini raw i. subst i.
  destruct (Init_run loads dev cam ini (Game_ctor raw)) as (Hcalls & Hsh).
  destruct (Init_untouched loads dev cam ini (Game_ctor raw)) as (Htex & _).
  split; [|split; [exact (Hsh ParticleVS) | split; [exact (Hsh ParticlePS) | exact Htex]]].
  exists (removelast (initBefore dev (Game_ctor raw))).
  exists ((loadAttempts loads VertexShader ++ loadAttempts loads PixelShader
           ++ loadAttempts loads ParticleVS ++ loadAttempts loads ParticlePS)
          ++ initAfter dev (Game_ctor raw)).
  split; [rewrite Hcalls; reflexivity|].
  split; [reflexivity|].
  split.
  - rewrite !List.filter_app, !filter_isNewEmitter_loadAttempts. reflexivity.
  - rewrite !List.filter_app, !filter_loadAttempts.
    cbn [initAfter List.filter isShaderLoad]. rewrite !app_nil_r. reflexivity.
Qed.

(** The pointers the emitter is left with are those of before [Init]. *)
Lemma Init_emitterResources loads dev cam ini g :
  emitterResources (state (Init loads dev cam ini g))
  = mkEmitterResources (particleVS g) (particlePS g) (particleTexture g).
Proof.
  run_init loads. reflexivity.
Qed.

(** What [Init] reads.  [Init] assigns every member of the game except the
    window size, the two views of the base class, the particle texture and
    the stored mouse position: these six keep their values.  Of all the
    other members only the two particle shader pointers leave a trace:
    the emitter is constructed with them before [LoadShaders] replaces
    them, and keeps them.  So two games that agree on the six are the same
    game after [Init] exactly when they also agree on these two
    pointers. *)
Theorem init_reads_eight_members :
  forall (loads : string -> bool) (device : Device) (newCamera : Camera.t)
         (entityInitial : XMFLOAT3 * XMFLOAT3 * XMFLOAT3 * XMFLOAT4X4) (g1 g2 : Game),
    width g1 = width g2 -> height g1 = height g2 ->
    backBufferRTV g1 = backBufferRTV g2 -> depthStencilView g1 = depthStencilView g2 ->
    particleTexture g1 = particleTexture g2 -> prevMousePos g1 = prevMousePos g2 ->
    let g1' := state (Init loads device newCamera entityInitial g1) in
    let g2' := state (Init loads device newCamera entityInitial g2) in
    (g1' = g2' <-> particleVS g1 = particleVS g2 /\ particlePS g1 = particlePS g2)
    /\ emitterResources g1'
       = mkEmitterResources (particleVS g1) (particlePS g1) (particleTexture g1)
    /\ (width g1', height g1') = (width g1, height g1)
    /\ (backBufferRTV g1', depthStencilView g1') = (backBufferRTV g1, depthStencilView g1)
    /\ particleTexture g1' = particleTexture g1
    /\ prevMousePos g1' = prevMousePos g1.
Proof.
  intros loads dev cam ini g1 g2 Hw Hh Hr Hd Ht Hp g1' g2'. subst g1' g2'.
  destruct (Init_state loads dev cam ini g1) as (W & H & _).
  destruct (Init_untouched loads dev cam ini g1) as (T & P & R & D).
  split; [|rewrite W, H, T, P, R, D, Init_emitterResources; repeat split].
  clear W H T P R D. split.
  - intros E. apply (f_equal emitterResources) in E.
    rewrite !Init_emitterResources in E. injection E as Ev Ep _. split; assumption.
  - intros (Hv & Hs).
    destruct g1, g2. cbn in Hw, Hh, Hr, Hd, Ht, Hp, Hv, Hs. subst.
    run_init loads. reflexivity.
Qed.

(** Two games that differ in the sphere's rotation only are the same game
    after [Init]; a game whose particle vertex shader pointer is null is
    not the same game after [Init] as one in which it is not. *)
Lemma init_reads_eight_members_witness :
  let ini := (mkFloat3 (F32.of_Z 0) (F32.of_Z 0) (F32.of_Z 0),
              mkFloat3 (F32.of_Z 0) (F32.of_Z 0) (F32.of_Z 0),
              mkFloat3 (F32.of_Z 1) (F32.of_Z 1) (F32.of_Z 1), MatIdentity) in
  let init := Init (fun _ => true) sampleDevice sampleCamera ini in
  state (init (sampleGame (F32.of_Z 0))) = state (init (sampleGame (F32.of_Z 2048)))
  /\ state (init (sampleGame (F32.of_Z 0)))
     <> state (init (set_particleVS None (sampleGame (F32.of_Z 0)))).
Proof.
  intros ini init. split.
  - refine (proj2 (proj1 (init_reads_eight_members _ _ _ _
                            (sampleGame (F32.of_Z 0)) (sampleGame (F32.of_Z 2048))
                            _ _ _ _ _ _)) _); try reflexivity.
    split; reflexivity.
  - intros E.
    refine (_ (proj1 (proj1 (init_reads_eight_members _ _ _ _
                               (sampleGame (F32.of_Z 0))
                               (set_particleVS None (sampleGame (F32.of_Z 0)))
                               _ _ _ _ _ _)) E)); try reflexivity.
    intros (Hv & _). discriminate Hv.
Defined.

(** [Init] positions the entities but never finalizes them.  After [Init]
    the three entities have their three different positions, yet each still
    carries the world matrix its constructor gave it: a [Draw] that comes
    before the first [Update] hands that one matrix to all three
    materials. *)
Theorem init_leaves_world_matrices_unfinalized :
  forall (loads : string -> bool) (device : Device) (newCamera : Camera.t)
         (p r s : XMFLOAT3) (w : XMFLOAT4X4) (g : Game)
         (sizeofVertex : Z) (deltaTime totalTime : float),
    let g' := state (Init loads device newCamera (p, r, s, w) g) in
    Entity.GetPosition (entityOne g')
      = mkFloat3 (F32.lit 15 10) (F32.lit 0 1) (F32.lit 0 1)
    /\ Entity.GetPosition (entityTwo g')
      = mkFloat3 (F32.lit (-15) 10) (F32.lit 0 1) (F32.lit 0 1)
    /\ Entity.GetPosition (entityThree g')
      = mkFloat3 (F32.lit 0 1) (F32.lit (-15) 10) (F32.lit 0 1)
    /\ (forall e : EntityRef, Entity.GetWorldMatrix (entity e g') = w)
    /\ worldsUsed (calls (Draw sizeofVertex deltaTime totalTime g')) = [w; w; w].
Proof.
  intros loads dev cam p r s w g sv dt total g'.
  destruct (Init_entities loads dev cam (p, r, s, w) g) as (E1 & E2 & E3).
  fold g' in E1, E2, E3.
  assert (Hw : forall e : EntityRef, Entity.GetWorldMatrix (entity e g') = w).
  { intros []; cbn [entity]; [rewrite E1 | rewrite E2 | rewrite E3]; reflexivity. }
  split; [rewrite E1; reflexivity|].
  split; [rewrite E2; reflexivity|].
  split; [rewrite E3; reflexivity|].
  split; [exact Hw|].
  change (worldsUsed (calls (Draw sv dt total g')))
    with [Entity.GetWorldMatrix (entity EntityOne g');
          Entity.GetWorldMatrix (entity EntityTwo g');
          Entity.GetWorldMatrix (entity EntityThree g')].
  rewrite !Hw. reflexivity.
Qed.

(** ** Across the handlers *)

(** What each handler does to the game: the members it assigns. *)
Lemma handle_state sv sinf sens h g :
  state (handle sv sinf sens h g) =
  match h with
  | H_step (StepUpdate dt total inp) => state (Update sinf dt total inp g)
  | H_step (StepDraw _ _) => g
  | H_step (StepMouseDown _ x y) => set_prevMousePos (mkPoint x y) g
  | H_step (StepMouseUp _ _ _) => g
  | H_step (StepMouseMove b x y) =>
      if dragged b x y (prevMousePos g)
      then set_prevMousePos (mkPoint x y)
             (set_gameCamera
                (Camera.RotateCamera sens
                   (F32.to_Q (F32.of_Z (int_wrap (x - pt_x (prevMousePos g)))))
                   (F32.to_Q (F32.of_Z (int_wrap (y - pt_y (prevMousePos g)))))
                   (gameCamera g)) g)
      else set_prevMousePos (mkPoint x y) g
  | H_step (StepMouseWheel _ _ _) => g
  | H_resize w h' views =>
      set_gameCamera (Camera.SetProjectionMat w h' (gameCamera g))
        (set_depthStencilView (snd views)
           (set_backBufferRTV (fst views) (set_height h' (set_width w g))))
  end.
Proof.
  destruct h as [[dt total inp|dt total|b x y|b x y|b x y|wd x y]|w h' views];
    cbn [handle doStep]; try reflexivity.
  rewrite OnMouseMove_run. cbv zeta.
  destruct (dragged b x y (prevMousePos g)); reflexivity.
Qed.

Lemma handle_fixtures sv sinf sens h g :
  fixtures (state (handle sv sinf sens h g)) = fixtures g.
Proof.
  rewrite handle_state.
  destruct h as [[dt total inp|dt total|b x y|b x y|b x y|wd x y]|w h' views];
    try reflexivity.
  - rewrite Update_state. reflexivity.
  - destruct (dragged b x y (prevMousePos g)); reflexivity.
Qed.

Lemma handleAll_fixtures sv sinf sens hs : forall g,
  fixtures (handleAll sv sinf sens hs g) = fixtures g.
Proof.
  induction hs as [|h hs IH]; intros g; [reflexivity|].
  cbn [handleAll fold_left]. unfold handleAll in IH. rewrite IH.
  apply handle_fixtures.
Qed.

Lemma handle_fresh sv sinf sens h g :
  (forall e, worldFresh (entity e g)) ->
  forall e, worldFresh (entity e (state (handle sv sinf sens h g))).
Proof.
  intros Hg e. rewrite handle_state.
  destruct h as [[dt total inp|dt total|b x y|b x y|b x y|wd x y]|w h' views];
    try exact (Hg e).
  - rewrite Update_state. destruct e; reflexivity.
  - destruct (dragged b x y (prevMousePos g)); exact (Hg e).
Qed.

Lemma Update_fresh sinf dt total inp g e :
  worldFresh (entity e (state (Update sinf dt total inp g))).
Proof. rewrite Update_state. destruct e; reflexivity. Qed.

Lemma handleAll_fresh sv sinf sens hs : forall g,
  (forall e, worldFresh (entity e g)) ->
  forall e, worldFresh (entity e (handleAll sv sinf sens hs g)).
Proof.
  induction hs as [|h hs IH]; intros g Hg; [exact Hg|].
  cbn [handleAll fold_left]. apply IH. apply handle_fresh, Hg.
Qed.

(** Once updated, always finalized.  [Update] finalizes each entity after
    changing it, and no other handler touches an entity: from the first
    [Update] on, through any updates, draws, mouse events and resizes,
    every entity's world matrix is the one of its current position,
    rotation and scale, and these are the matrices [Draw] hands to the
    materials. *)
Theorem world_matrices_follow_the_transforms :
  forall (sizeofVertex : Z) (sinf : float -> float) (sens : Q)
         (deltaTime totalTime : float) (inp : Input) (g : Game)
         (hs : list Handler) (deltaTime' totalTime' : float),
    let g' := handleAll sizeofVertex sinf sens hs
                (state (Update sinf deltaTime totalTime inp g)) in
    (forall e : EntityRef, worldFresh (entity e g'))
    /\ worldsUsed (calls (Draw sizeofVertex deltaTime' totalTime' g'))
       = map (fun e => MatWorld (Entity.GetPosition (entity e g'))
                                (Entity.GetRotation (entity e g'))
                                (Entity.GetScale (entity e g')))
             [EntityOne; EntityTwo; EntityThree].
Proof.
  intros sv sinf sens dt total inp g hs dt' total' g'.
  assert (H : forall e : EntityRef, worldFresh (entity e g')).
  { apply handleAll_fresh. intros e. apply Update_fresh. }
  split; [exact H|].
  change (worldsUsed (calls (Draw sv dt' total' g')))
    with (map (fun e => Entity.GetWorldMatrix (entity e g'))
              [EntityOne; EntityTwo; EntityThree]).
  cbn [map]. rewrite (H EntityOne), (H EntityTwo), (H EntityThree). reflexivity.
Qed.

(** What is drawn never changes.  No handler, whether update, draw, mouse
    event or resize, changes a shader, material, texture, state, mesh or
    light, nor the mesh and material of an entity.  So after [Init] every
    [Draw] binds the buffers of the sphere, the cube and the helix, in this
    order, with their index counts, prepares the wood material for the
    sphere and the rock material for the other two, and sets the particle
    states [Init] created. *)
Theorem what_is_drawn_never_changes :
  forall (sizeofVertex : Z) (sinf : float -> float) (sens : Q)
         (loads : string -> bool) (device : Device) (newCamera : Camera.t)
         (entityInitial : XMFLOAT3 * XMFLOAT3 * XMFLOAT3 * XMFLOAT4X4) (g : Game)
         (hs : list Handler) (deltaTime totalTime : float),
    let g0 := state (Init loads device newCamera entityInitial g) in
    let g' := handleAll sizeofVertex sinf sens hs g0 in
    let made := calls (Draw sizeofVertex deltaTime totalTime g') in
    let sphere := loadMesh device "Debug/Assets/Models/sphere.obj" in
    let cube := loadMesh device "Debug/Assets/Models/cube.obj" in
    let helix := loadMesh device "Debug/Assets/Models/helix.obj" in
    let rock := mkMaterial PixelShader VertexShader
                  (loadTexture device "Debug/Assets/Textures/MossRock.tif")
                  (newSamplerState device) in
    let wood := mkMaterial PixelShader VertexShader
                  (loadTexture device "Debug/Assets/Textures/TreeBark.tif")
                  (newSamplerState device) in
    fixtures g' = fixtures g0
    /\ buffersBound made =
         [inl (GetVertexBuffer sphere); inr (GetIndexBuffer sphere);
          inl (GetVertexBuffer cube); inr (GetIndexBuffer cube);
          inl (GetVertexBuffer helix); inr (GetIndexBuffer helix)]
    /\ indexCounts made = [GetIndexCount sphere; GetIndexCount cube; GetIndexCount helix]
    /\ materialsUsed made = [wood; rock; rock]
    /\ particleStateStep g' =
         [E_OMSetBlendState (newBlendState device) blendFactor 4294967295;
          E_OMSetDepthStencilState (newDepthStencilState device) 0].
Proof.
  intros sv sinf sens loads dev cam ini g hs dt total g0 g' made sphere cube helix rock wood.
  assert (Hfix : fixtures g' = fixtures g0) by apply handleAll_fixtures.
  split; [exact Hfix|].
  destruct ini as [[[p r] s] w].
  destruct (Init_entities loads dev cam (p, r, s, w) g) as (E1 & E2 & E3).
  destruct (Init_state loads dev cam (p, r, s, w) g) as (_ & _ & _ & _ & Hb & Hd).
  fold g0 in E1, E2, E3, Hb, Hd.
  unfold fixtures in Hfix. cbn [map] in Hfix.
  injection Hfix as M1 T1 M2 T2 M3 T3 Hbs Hds _ _ _ _ _ _ _ _ _ _ _ _ _ _ _ _.
  rewrite E1 in M1, T1. rewrite E2 in M2, T2. rewrite E3 in M3, T3.
  cbn in M1, T1, M2, T2, M3, T3.
  subst made.
  split; [|split; [|split]].
  - change (buffersBound (calls (Draw sv dt total g')))
      with ([inl (GetVertexBuffer (Entity.GetMesh (entity EntityOne g')));
             inr (GetIndexBuffer (Entity.GetMesh (entity EntityOne g')));
             inl (GetVertexBuffer (Entity.GetMesh (entity EntityTwo g')));
             inr (GetIndexBuffer (Entity.GetMesh (entity EntityTwo g')));
             inl (GetVertexBuffer (Entity.GetMesh (entity EntityThree g')));
             inr (GetIndexBuffer (Entity.GetMesh (entity EntityThree g')))]
            : list (Handle + Handle)).
    cbn [entity]. rewrite M1, M2, M3. reflexivity.
  - change (indexCounts (calls (Draw sv dt total g')))
      with [GetIndexCount (Entity.GetMesh (entity EntityOne g'));
            GetIndexCount (Entity.GetMesh (entity EntityTwo g'));
            GetIndexCount (Entity.GetMesh (entity EntityThree g'))].
    cbn [entity]. rewrite M1, M2, M3. reflexivity.
  - change (materialsUsed (calls (Draw sv dt total g')))
      with [Entity.GetMaterial (entity EntityOne g');
            Entity.GetMaterial (entity EntityTwo g');
            Entity.GetMaterial (entity EntityThree g')].
    cbn [entity]. rewrite T1, T2, T3. reflexivity.
  - unfold particleStateStep. rewrite Hbs, Hds, Hb, Hd. reflexivity.
Qed.

Lemma handleAll_emitter sv sinf sens hs : forall g,
  emitter (handleAll sv sinf sens hs g)
  = Emitter.run Emitter.SpawnThenAge (updateTimes hs) (emitter g).
Proof.
  induction hs as [|h hs IH]; intros g; [reflexivity|].
  cbn [handleAll fold_left updateTimes flat_map]. unfold handleAll in IH.
  rewrite IH. fold (updateTimes hs). rewrite handle_state.
  destruct h as [[dt total inp|dt total|b x y|b x y|b x y|wd x y]|w h' views];
    try reflexivity.
  - rewrite Update_state. reflexivity.
  - destruct (dragged b x y (prevMousePos g)); reflexivity.
Qed.

(** The emitter sees the frame times and nothing else.  After [Init], and
    through any updates, draws, mouse events and resizes, the emitter is
    the one [Init] constructed, updated once per [Update] with that
    frame's deltaTime, in order.  Its pool keeps 1000 slots, of which
    min(spawned, 1000) hold a particle, and the number of particles [Draw]
    tells the emitter to draw is its live count, never above 1000. *)
Theorem emitter_follows_the_frame_times :
  forall (sizeofVertex : Z) (sinf : float -> float) (sens : Q)
         (loads : string -> bool) (device : Device) (newCamera : Camera.t)
         (entityInitial : XMFLOAT3 * XMFLOAT3 * XMFLOAT3 * XMFLOAT4X4) (g : Game)
         (hs : list Handler) (deltaTime totalTime : float),
    let g' := handleAll sizeofVertex sinf sens hs
                (state (Init loads device newCamera entityInitial g)) in
    emitter g' = Emitter.run Emitter.SpawnThenAge (updateTimes hs) Init_emitter
    /\ length (Emitter.particles (emitter g')) = 1000
    /\ Emitter.occupied (emitter g') = Nat.min (Emitter.spawned (emitter g')) 1000
    /\ Emitter.liveCount (emitter g') <= 1000
    /\ particlesDrawn (calls (Draw sizeofVertex deltaTime totalTime g'))
       = [Emitter.liveCount (emitter g')].
Proof.
  intros sv sinf sens loads dev cam ini g hs dt total g'.
  assert (He : emitter g'
               = Emitter.run Emitter.SpawnThenAge (updateTimes hs) Init_emitter).
  { subst g'. rewrite handleAll_emitter.
    destruct (Init_state loads dev cam ini g) as (_ & _ & -> & _). reflexivity. }
  split; [exact He|].
  pose proof (poolFull_run Emitter.SpawnThenAge (updateTimes hs) 1000 100 5
                (F32.to_Q (F32.lit 1 10)) (F32.to_Q (F32.lit 5 1))
                (1, F32.to_Q (F32.lit 1 10), F32.to_Q (F32.lit 1 10),
                 F32.to_Q (F32.lit 2 10))%Q
                (1, F32.to_Q (F32.lit 6 10), F32.to_Q (F32.lit 1 10), 0)%Q
                (-2, 2, 0)%Q (2, 0, 0)%Q (0, -1, 0)%Q) as Hfull.
  change (poolFull (Emitter.run Emitter.SpawnThenAge (updateTimes hs) Init_emitter))
    in Hfull.
  pose proof (run_config Emitter.SpawnThenAge (updateTimes hs) Init_emitter) as Hcfg.
  rewrite <- He in Hfull, Hcfg.
  destruct Hfull as ((Hlen & _) & Hocc). destruct Hcfg as (Hmax & _).
  change (Emitter.maxParticles Init_emitter) with 1000 in Hmax.
  rewrite Hmax in Hlen, Hocc.
  split; [exact Hlen|]. split; [exact Hocc|]. split; [|reflexivity].
  pose proof (liveCount_le_occupied (emitter g')).
  pose proof (occupied_le_length (emitter g')). lia.
Qed.

(** ** [LoadShaders]: how many files it asks for *)

(** [LoadShaders] asks the loader for four files plus one more for each
    primary load that failed, so for eight at most, and never for the same
    path twice. *)
Theorem shader_loads_are_few_and_distinct :
  forall (loads : string -> bool) (g : Game),
    let paths := shaderPaths (calls (LoadShaders loads g)) in
    length paths = 4 + failedPrimaries loads
    /\ 4 <= length paths <= 8
    /\ NoDup paths.
Proof.
  intros loads g paths. subst paths. rewrite LoadShaders_run.
  unfold calls, failedPrimaries, loadAttempts, primaryPath, fallbackPath.
  cbn [snd List.filter].
  destruct (loads "Debug/VertexShader.cso"%string);
    destruct (loads "Debug/PixelShader.cso"%string);
    destruct (loads "Debug/ParticleVS.cso"%string);
    destruct (loads "Debug/ParticlePS.cso"%string);
    cbn [negb length app shaderPaths flat_map];
    (split; [reflexivity|]); (split; [lia|]);
    repeat (constructor;
            [intros H; apply list_elem_of_In in H; cbn [In] in H;
             repeat match goal with
                    | H : _ \/ _ |- _ => destruct H
                    | H : False |- _ => destruct H
                    | H : _ = _ |- _ => discriminate H
                    end|]);
    constructor.
Qed.

(** ** The destructor *)

Lemma obtained_loadAttempts loads s : obtained (loadAttempts loads s) = [].
Proof. unfold loadAttempts. destruct (loads (primaryPath s)); reflexivity. Qed.

Lemma obtained_app (l1 l2 : list Event) :
  obtained (l1 ++ l2) = obtained l1 ++ obtained l2.
Proof. apply flat_map_app. Qed.

Lemma Release_refers heap h :
  refers heap h = true -> Release h heap = (Some tt, unref h heap, [T_Release h]).
Proof. intros H. unfold Release. rewrite H. reflexivity. Qed.

Lemma refers_unref heap h h' : h' <> h -> refers (unref h heap) h' = refers heap h'.
Proof.
  intros Hne. unfold refers, unref.
  destruct (N.eqb_spec h' h) as [E|_]; [contradiction|reflexivity].
Qed.

(** The destructor on a game whose four shader objects exist: it faults at
    its first [Release] unless the particle texture refers to an object. *)
Lemma Game_dtor_faults g heap :
  (forall s, shader s g <> None) ->
  refers heap (particleTexture g) = false ->
  Game_dtor g heap = (None, heap, firstDeletes).
Proof.
  intros Hs Hpt.
  pose proof (Hs VertexShader) as H1. pose proof (Hs PixelShader) as H2.
  cbn [shader] in H1, H2.
  unfold Game_dtor.
  destruct (vertexShader g); [|contradiction]. destruct (pixelShader g); [|contradiction].
  cbv [mbind mret D_bind D_ret dbind dret delete deleteShader app].
  unfold Release at 1. rewrite Hpt. reflexivity.
Qed.

Lemma Game_dtor_returns g heap :
  (forall s, shader s g <> None) ->
  NoDup [particleTexture g; particleBlendState g; particleDepthState g;
         sampler g; rockSRV g; woodSRV g] ->
  Forall (fun h => refers heap h = true)
         [particleTexture g; particleBlendState g; particleDepthState g;
          sampler g; rockSRV g; woodSRV g] ->
  returned (Game_dtor g heap) = true
  /\ torn (Game_dtor g heap)
     = firstDeletes
       ++ [T_Release (particleTexture g); T_Release (particleBlendState g);
           T_Release (particleDepthState g);
           T_delete the_particleVS; T_delete the_particlePS; T_delete the_emitter;
           T_Release (sampler g); T_Release (rockSRV g); T_Release (woodSRV g)].
Proof.
  intros Hs Hnd Hlive.
  pose proof (Hs VertexShader) as H1. pose proof (Hs PixelShader) as H2.
  pose proof (Hs ParticleVS) as H3. pose proof (Hs ParticlePS) as H4.
  cbn [shader] in H1, H2, H3, H4.
  unfold Game_dtor.
  destruct (vertexShader g); [|contradiction]. destruct (pixelShader g); [|contradiction].
  destruct (particleVS g); [|contradiction]. destruct (particlePS g); [|contradiction].
  repeat match goal with
         | H : NoDup (_ :: _) |- _ => apply NoDup_cons in H; destruct H
         | H : _ ∉ _ :: _ |- _ => apply not_elem_of_cons in H; destruct H
         | H : Forall _ (_ :: _) |- _ => apply Forall_cons in H; destruct H
         end.
  cbv [mbind mret D_bind D_ret dbind dret delete deleteShader returned torn].
  repeat (rewrite Release_refers by (rewrite ?refers_unref by congruence; assumption);
          cbv iota beta).
  split; reflexivity.
Qed.

(** With six different pointers, the destructor returns exactly when each
    of them refers to an object. *)
Lemma Game_dtor_returned g heap :
  (forall s, shader s g <> None) ->
  NoDup [particleTexture g; particleBlendState g; particleDepthState g;
         sampler g; rockSRV g; woodSRV g] ->
  returned (Game_dtor g heap) = true
  <-> Forall (fun h => refers heap h = true)
             [particleTexture g; particleBlendState g; particleDepthState g;
              sampler g; rockSRV g; woodSRV g].
Proof.
  intros Hs Hnd. split; [|intros Hlive; apply Game_dtor_returns; assumption].
  pose proof (Hs VertexShader) as H1. pose proof (Hs PixelShader) as H2.
  pose proof (Hs ParticleVS) as H3. pose proof (Hs ParticlePS) as H4.
  cbn [shader] in H1, H2, H3, H4.
  unfold Game_dtor.
  destruct (vertexShader g); [|contradiction]. destruct (pixelShader g); [|contradiction].
  destruct (particleVS g); [|contradiction]. destruct (particlePS g); [|contradiction].
  repeat match goal with
         | H : NoDup (_ :: _) |- _ => apply NoDup_cons in H; destruct H
         | H : _ ∉ _ :: _ |- _ => apply not_elem_of_cons in H; destruct H
         end.
  cbv [mbind mret D_bind D_ret dbind dret delete deleteShader returned torn].
  repeat (unfold Release at 1; rewrite ?refers_unref by congruence;
          match goal with
          | |- context [refers heap ?h] => destruct (refers heap h) eqn:?
          end;
          cbv iota beta;
          [|intros Hf; cbv in Hf; discriminate Hf]).
  intros _. repeat constructor; assumption.
Qed.

(** The destructor stands or falls with the particle texture.  Take a
    game that was constructed, initialised and run through any handlers,
    whatever the shader loads did.  Nothing ever assigned its particle
    texture, so the first [Release] of the destructor goes through a
    pointer left over from the object's memory.  If that pointer refers
    to no object (the null pointer, say) the destructor faults there,
    after its first eleven deletes: none of the five handles [Init]
    obtained is released, and the particle shaders and the emitter are not
    deleted.  When that pointer and the five handles are six different
    pointers, the destructor returns exactly when each of the six refers to
    an object; it has then deleted each of the fourteen objects [Init]
    made exactly once, the four shader objects included even when their
    files failed to load, and released the six exactly once each. *)
Theorem destructor_needs_the_particle_texture :
  forall (sizeofVertex : Z) (sinf : float -> float) (sens : Q)
         (loads : string -> bool) (device : Device) (newCamera : Camera.t)
         (entityInitial : XMFLOAT3 * XMFLOAT3 * XMFLOAT3 * XMFLOAT4X4) (raw : Game)
         (hs : list Handler) (heap : Heap),
    let i := Init loads device newCamera entityInitial (Game_ctor raw) in
    let g' := handleAll sizeofVertex sinf sens hs (state i) in
    let d := Game_dtor g' heap in
    particleTexture g' = particleTexture raw
    /\ (refers heap (particleTexture raw) = false ->
        d = (None, heap, firstDeletes)
        /\ returned d = false
        /\ released (torn d) = []
        /\ length (deleted (torn d)) = 11)
    /\ (NoDup (particleTexture raw :: obtained (calls i)) ->
        (returned d = true
         <-> Forall (fun h => refers heap h = true)
                    (particleTexture raw :: obtained (calls i)))
        /\ (returned d = true ->
            deleted (torn d) =
              [the_vertexShader; the_pixelShader;
               the_sphereMesh; the_helixMesh; the_cubeMesh;
               the_entityOne; the_entityTwo; the_entityThree;
               the_gameCamera; the_mat1; the_mat2;
               the_particleVS; the_particlePS; the_emitter]
            /\ exists rest,
                 released (torn d) = particleTexture raw :: rest
                 /\ Permutation rest (obtained (calls i)))).
Proof.
  intros sv sinf sens loads dev cam ini raw hs heap i g' d.
  pose proof (handleAll_fixtures sv sinf sens hs (state i)) as Hfix. fold g' in Hfix.
  unfold fixtures in Hfix.
  injection Hfix as _ _ _ _ _ _ Hbs Hds Hvs Hps Hpvs Hpps _ _ Hsam Hrock Hwood Htex
                    _ _ _ _ _ _.
  destruct (Init_run loads dev cam ini (Game_ctor raw)) as (Hcalls & Hsh).
  destruct (Init_state loads dev cam ini (Game_ctor raw)) as (_ & _ & _ & _ & Ib & Id).
  destruct (Init_untouched loads dev cam ini (Game_ctor raw)) as (It & _).
  assert (Is : sampler (state i) = newSamplerState dev
               /\ rockSRV (state i) = loadTexture dev "Debug/Assets/Textures/MossRock.tif"
               /\ woodSRV (state i) = loadTexture dev "Debug/Assets/Textures/TreeBark.tif").
  { subst i. run_init loads. repeat split. }
  destruct Is as (Isam & Irock & Iwood).
  fold i in Hcalls, Hsh, Ib, Id, It.
  change (particleTexture (Game_ctor raw)) with (particleTexture raw) in It.
  rewrite It in Htex. rewrite Ib in Hbs. rewrite Id in Hds.
  rewrite Isam in Hsam. rewrite Irock in Hrock. rewrite Iwood in Hwood.
  assert (Hs : forall s, shader s g' <> None).
  { intros s. specialize (Hsh s).
    destruct s; cbn [shader] in Hsh |- *;
      [rewrite Hvs | rewrite Hps | rewrite Hpvs | rewrite Hpps]; rewrite Hsh; discriminate. }
  assert (Hob : obtained (calls i)
                = [loadTexture dev "Debug/Assets/Textures/MossRock.tif";
                   loadTexture dev "Debug/Assets/Textures/TreeBark.tif";
                   newSamplerState dev; newDepthStencilState dev; newBlendState dev]).
  { rewrite Hcalls, !obtained_app, !obtained_loadAttempts. reflexivity. }
  split; [exact Htex|]. split.
  - intros Hpt. rewrite <- Htex in Hpt.
    pose proof (Game_dtor_faults g' heap Hs Hpt) as Hd. fold d in Hd.
    rewrite Hd. repeat split.
  - rewrite Hob.
    set (a := loadTexture dev "Debug/Assets/Textures/MossRock.tif") in *.
    set (b := loadTexture dev "Debug/Assets/Textures/TreeBark.tif") in *.
    set (c := newSamplerState dev) in *. set (dd := newDepthStencilState dev) in *.
    set (e := newBlendState dev) in *.
    intros Hnd.
    assert (Hperm : Permutation [e; dd; c; a; b] [a; b; c; dd; e]).
    { change (Permutation ([e; dd; c] ++ [a; b]) ([a; b] ++ [c; dd; e])).
      rewrite (Permutation_app_comm [a; b] [c; dd; e]).
      apply Permutation_app_tail. apply (Permutation_rev [e; dd; c]). }
    rewrite <- Hperm in Hnd. rewrite <- Hperm.
    assert (Hnd' : NoDup [particleTexture g'; particleBlendState g'; particleDepthState g';
                          sampler g'; rockSRV g'; woodSRV g'])
      by (rewrite Htex, Hbs, Hds, Hsam, Hrock, Hwood; exact Hnd).
    pose proof (Game_dtor_returned g' heap Hs Hnd') as Hiff. fold d in Hiff.
    rewrite Htex, Hbs, Hds, Hsam, Hrock, Hwood in Hiff.
    split; [exact Hiff|].
    intros Hret. apply Hiff in Hret.
    destruct (Game_dtor_returns g' heap Hs Hnd') as (_ & Htorn).
    + rewrite Htex, Hbs, Hds, Hsam, Hrock, Hwood. exact Hret.
    + fold d in Htorn. rewrite Htorn.
      rewrite Htex, Hbs, Hds, Hsam, Hrock, Hwood.
      split; [reflexivity|].
      exists [e; dd; c; a; b]. split; [reflexivity | exact Hperm].
Qed.

(** On a game whose particle texture was left null the destructor faults
    after eleven deletes, whatever else is alive.  On one whose particle
    texture happens to refer to an object, with the five handles of [Init]
    alive, it returns after fourteen deletes and six releases. *)
Lemma destructor_needs_the_particle_texture_witness :
  let ini := (mkFloat3 (F32.of_Z 0) (F32.of_Z 0) (F32.of_Z 0),
              mkFloat3 (F32.of_Z 0) (F32.of_Z 0) (F32.of_Z 0),
              mkFloat3 (F32.of_Z 1) (F32.of_Z 1) (F32.of_Z 1), MatIdentity) in
  let run raw :=
    handleAll 32 sampleSin (1 # 4) [H_step (StepUpdate (F32.lit 1 60) (F32.lit 1 60) (sampleInput 0))]
      (state (Init (fun _ => true) sampleDevice sampleCamera ini (Game_ctor raw))) in
  let alive := sampleHeap [30; 31; 32; 33; 40; 41]%N in
  Game_dtor (run (set_particleTexture 0%N (sampleGame (F32.of_Z 0)))) alive
    = (None, alive, firstDeletes)
  /\ returned (Game_dtor (run (sampleGame (F32.of_Z 0))) alive) = true
  /\ released (torn (Game_dtor (run (sampleGame (F32.of_Z 0))) alive))
     = [33; 40; 41; 30; 31; 32]%N.
Proof.
  intros ini run alive. split.
  - refine (proj1 (proj1 (proj2 (destructor_needs_the_particle_texture
                                   32 sampleSin (1 # 4) (fun _ => true) sampleDevice
                                   sampleCamera ini
                                   (set_particleTexture 0%N (sampleGame (F32.of_Z 0)))
                                   [H_step (StepUpdate (F32.lit 1 60) (F32.lit 1 60)
                                              (sampleInput 0))]
                                   alive)) _)).
    reflexivity.
  - destruct (proj2 (proj2 (destructor_needs_the_particle_texture
                              32 sampleSin (1 # 4) (fun _ => true) sampleDevice
                              sampleCamera ini (sampleGame (F32.of_Z 0))
                              [H_step (StepUpdate (F32.lit 1 60) (F32.lit 1 60)
                                         (sampleInput 0))]
                              alive))) as (Hiff & _).
    + vm_compute.
      repeat (constructor;
              [intros H; apply list_elem_of_In in H; cbn [In] in H;
               repeat match goal with
                      | H : _ \/ _ |- _ => destruct H
                      | H : False |- _ => destruct H
                      | H : _ = _ |- _ => discriminate H
                      end|]).
      constructor.
    + split; [|vm_compute; reflexivity].
      apply Hiff. vm_compute. repeat constructor.
Defined.

(** ** What the handlers animate *)

Lemma handleAll_cons sv sinf sens h hs g :
  handleAll sv sinf sens (h :: hs) g
  = handleAll sv sinf sens hs (state (handle sv sinf sens h g)).
Proof. reflexivity. Qed.

Lemma iter_spinStep (n : nat) (y : float) :
  Nat.iter n spinStep (spinStep y) = spinStep (Nat.iter n spinStep y).
Proof. induction n as [|n IH]; [reflexivity|]. rewrite !Nat.iter_succ, IH. reflexivity. Qed.

(** Only three things move.  Through any sequence of updates, draws, mouse
    events and resizes: the sphere's y rotation has taken one rotation step
    per [Update], whatever the frame times were, and nothing else of the
    sphere's transform has changed; the cube's y position is the sine of
    the totalTime of the latest [Update] and the helix's scale is that
    sine plus one in all three directions (both as they were if there was
    no [Update]); every other component of the three transforms is as it
    was. *)
Theorem transforms_after_handlers :
  forall (sizeofVertex : Z) (sinf : float -> float) (sens : Q)
         (hs : list Handler) (g : Game),
    let g' := handleAll sizeofVertex sinf sens hs g in
    let one := entityOne g in
    let two := entityTwo g in
    let three := entityThree g in
    Entity.GetRotation (entityOne g') =
      mkFloat3 (f3x (Entity.GetRotation one))
               (Nat.iter (updateCount hs) spinStep (f3y (Entity.GetRotation one)))
               (f3z (Entity.GetRotation one))
    /\ Entity.GetPosition (entityOne g') = Entity.GetPosition one
    /\ Entity.GetScale (entityOne g') = Entity.GetScale one
    /\ Entity.GetPosition (entityTwo g') =
         match lastTotalTime hs with
         | Some t => mkFloat3 (f3x (Entity.GetPosition two)) (sinf t)
                              (f3z (Entity.GetPosition two))
         | None => Entity.GetPosition two
         end
    /\ Entity.GetRotation (entityTwo g') = Entity.GetRotation two
    /\ Entity.GetScale (entityTwo g') = Entity.GetScale two
    /\ Entity.GetScale (entityThree g') =
         match lastTotalTime hs with
         | Some t => mkFloat3 (F32.add (sinf t) (F32.of_Z 1))
                              (F32.add (sinf t) (F32.of_Z 1))
                              (F32.add (sinf t) (F32.of_Z 1))
         | None => Entity.GetScale three
         end
    /\ Entity.GetPosition (entityThree g') = Entity.GetPosition three
    /\ Entity.GetRotation (entityThree g') = Entity.GetRotation three.
Proof.
  intros sv sinf sens hs. induction hs as [|h hs IH]; intros g.
  - cbn. destruct (Entity.GetRotation (entityOne g)). repeat split; reflexivity.
  - cbv zeta. rewrite handleAll_cons.
    specialize (IH (state (handle sv sinf sens h g))). cbv zeta in IH.
    destruct IH as (R1 & P1 & S1 & P2 & R2 & S2 & S3 & P3 & R3).
    rewrite R1, P1, S1, P2, R2, S2, S3, P3, R3. clear R1 P1 S1 P2 R2 S2 S3 P3 R3.
    rewrite handle_state. cbn [lastTotalTime].
    destruct h as [[dt total inp|dt total|b x y|b x y|b x y|wd x y]|w h' views];
      try (destruct (lastTotalTime hs); repeat split; reflexivity).
    + rewrite Update_state.
      unfold updateCount. cbn [updateTimes flat_map app length].
      fold (updateTimes hs). rewrite Nat.iter_succ, <- iter_spinStep.
      destruct (lastTotalTime hs); repeat split; reflexivity.
    + destruct (dragged b x y (prevMousePos g));
        destruct (lastTotalTime hs); repeat split; reflexivity.
Qed.

(** The stored mouse position is that of the latest mouse-down or
    mouse-move event, if there was one; updates, draws, resizes, mouse-up
    and wheel events leave it alone. *)
Theorem stored_position_tracks_the_pointer :
  forall (sizeofVertex : Z) (sinf : float -> float) (sens : Q)
         (hs : list Handler) (g : Game),
    prevMousePos (handleAll sizeofVertex sinf sens hs g)
    = match lastPointer hs with
      | Some p => p
      | None => prevMousePos g
      end.
Proof.
  intros sv sinf sens hs. induction hs as [|h hs IH]; intros g; [reflexivity|].
  rewrite handleAll_cons, IH. cbn [lastPointer].
  destruct (lastPointer hs); [reflexivity|].
  rewrite handle_state.
  destruct h as [[dt total inp|dt total|b x y|b x y|b x y|wd x y]|w h' views];
    try reflexivity.
  - rewrite Update_state. reflexivity.
  - destruct (dragged b x y (prevMousePos g)); reflexivity.
Qed.
